(** * Scrypted telemetry: dashboard generator and REST facade

    A shallow embedding of [tteck.py] (the discovery-driven Grafana
    dashboard generator) and of the handlers of [plugin_api.py] that
    discover, post-process, import and validate, followed by the properties
    of the specification that were checked against them.

    Conventions of the embedding.
    - Python [str] is [string] (a byte string: the titles carry their UTF-8
      bytes, and containment of an ASCII needle is the same on bytes and on
      code points).
    - A [Set[str]] is a [gset string]; a loop over it visits [elements]:
      one fixed order stands for the order of Python's hash table.
    - A [dict] whose iteration order is observable ([self.nodes], label
      dictionaries) is an association list in insertion order.
    - Python integers are [Z]; a [float] is a binary64 float.
    - A method that only reads [self] is a function of the generator record;
      a method that writes to it, talks to the network or may raise runs in
      the monad [M], which threads the object, the log of the HTTP requests
      sent so far, and an outcome that is a value or a raised exception.
    - The servers are an oracle: the reply to a request is an arbitrary
      function of the request and of everything sent before it. Decoded
      bodies are typed by the schema of the endpoint: a list of names, or a
      list of series, each an object whose [metric], when it has one, is an
      object of string labels. On a series of another shape the source
      raises when it asks it for [get]; such replies have no counterpart
      here, so what is proved of a method that reads series is proved of
      its runs on replies of these types.
    - Presentation constants of a panel (thresholds, draw style) are kept as
      the [Decor] of the template that produced it. *)

From Stdlib Require Import ZArith String Ascii List Bool Lia.
From Stdlib Require Import DecimalString.
From Stdlib Require PrimFloat.
From stdpp Require Import base gmap strings list.

Open Scope Z_scope.

(** ** Python values and string operations *)

Module Py.

(** The double-quote character, as a one-character string. *)
Definition quote : string := String (ascii_of_nat 34) EmptyString.

(** [s.startswith(pre)] *)
Definition startswith (s pre : string) : bool := String.prefix pre s.

(** [s.startswith((p1, p2, ...))] *)
Definition startswith_any (s : string) (pres : list string) : bool :=
  existsb (startswith s) pres.

(** [needle in s] on strings *)
Fixpoint contains (needle s : string) : bool :=
  String.prefix needle s
  || match s with
     | EmptyString => false
     | String _ s' => contains needle s'
     end.

(** [s.rsplit(sep, 1)] for a one-character separator: the text before and
    after the last occurrence of [sep], or [None] when [sep] does not occur
    (Python then returns the one-element list [[s]]). *)
Fixpoint rsplit1 (sep : ascii) (s : string) : option (string * string) :=
  match s with
  | EmptyString => None
  | String c s' =>
      match rsplit1 sep s' with
      | Some (a, b) => Some (String c a, b)
      | None => if Ascii.eqb c sep then Some (EmptyString, s') else None
      end
  end.

(** Truth value of a string and of a list. *)
Definition str_truthy (s : string) : bool :=
  match s with EmptyString => false | _ => true end.

Definition list_truthy {A} (l : list A) : bool :=
  match l with [] => false | _ => true end.

(** [str(n)] for an integer. *)
Definition str_int (n : Z) : string := NilZero.string_of_int (Z.to_int n).

(** [s.replace(old, new)] for a non-empty [old]: the occurrences of [old]
    are replaced from left to right, without overlap. [skip] counts the
    characters of an occurrence still to be dropped. *)
Fixpoint replace_from (old new : string) (skip : nat) (s : string) : string :=
  match s with
  | EmptyString => EmptyString
  | String c s' =>
      match skip with
      | S k => replace_from old new k s'
      | O =>
          if String.prefix old s then
            new +:+ replace_from old new (String.length old - 1) s'
          else String c (replace_from old new 0 s')
      end
  end.

Definition replace (s old new : string) : string := replace_from old new 0 s.

(** Insertion-ordered dictionaries with string keys. *)
Definition dict (V : Type) : Type := list (string * V).

Fixpoint dict_get {V} (k : string) (d : dict V) : option V :=
  match d with
  | [] => None
  | (k', v) :: d' => if String.eqb k k' then Some v else dict_get k d'
  end.

(** [d[k] = v]: an existing key keeps its position. *)
Fixpoint dict_set {V} (k : string) (v : V) (d : dict V) : dict V :=
  match d with
  | [] => [(k, v)]
  | (k', v') :: d' =>
      if String.eqb k k' then (k, v) :: d' else (k', v') :: dict_set k v d'
  end.

(** Decoded JSON, as [json.loads] yields it: for the fields of a request
    whose truth a handler tests, and for payloads that are passed through
    unread. *)
#[local] Unset Elimination Schemes.
Inductive json : Type :=
| JNull
| JBool (b : bool)
| JInt (n : Z)
| JFloat (x : PrimFloat.float)
| JStr (s : string)
| JList (l : list json)
| JDict (kv : list (string * json)).
#[local] Set Elimination Schemes.

(** Truth value of a decoded JSON value: [None], [False], zero (of either
    sign, for a float) and the empty string, list and dictionary are
    falsy. *)
Definition truthy (v : json) : bool :=
  match v with
  | JNull => false
  | JBool b => b
  | JInt n => negb (n =? 0)
  | JFloat x => negb (PrimFloat.eqb x PrimFloat.zero)
  | JStr s => str_truthy s
  | JList l => list_truthy l
  | JDict kv => list_truthy kv
  end.

(** Exceptions: the class name, [str(e)] and the formatted traceback. *)
Record exn : Type := Exn {
  exn_class : string;
  exn_message : string;
  exn_traceback : string
}.

Inductive Outcome (A : Type) : Type :=
| Return (a : A)
| Raise (e : exn).
Arguments Return {A} a.
Arguments Raise {A} e.

End Py.

Export Py.

(** ** HTTP: requests, replies and the server oracle *)

Module Http.

Inductive Method : Type := GET | POST.

Record Request : Type := {
  method : Method;
  url : string;
  params : dict string;
  headers : dict string;
  payload : option json;
  timeout : option Z
}.

(** What [requests] hands back: the status code, the raw text and the
    result of [.json()], which raises or yields a body of type [B]. *)
Record response (B : Type) : Type := {
  status_code : Z;
  text : string;
  json_body : Outcome B
}.
Arguments status_code {B} r.
Arguments text {B} r.
Arguments json_body {B} r.

(** A call either raises (connection refused, timeout, ...) or returns a
    response. *)
Definition Reply (B : Type) : Type := Outcome (response B).

(** One series of an instant-query result: [{"metric": {label: value}}]. *)
Record Sample : Type := { metric : option (dict string) }.

(** [{"status": ..., "data": {"result": [...]}}] *)
Record QueryData : Type := { result : option (list Sample) }.
Record QueryBody : Type := {
  q_status : option string;
  q_data : option QueryData
}.

(** [{"status": ..., "data": [...]}] of a label-values endpoint. *)
Record LabelValuesBody : Type := { lv_data : option (list string) }.

Definition Log : Type := list Request.

(** The servers. Each endpoint answers a request knowing the requests
    sent before it. *)
Record Network : Type := {
  label_values : Log -> Request -> Reply LabelValuesBody;
  instant_query : Log -> Request -> Reply QueryBody;
  health_check : Log -> Request -> Reply unit;
  dashboards_db : Log -> Request -> Reply json
}.

End Http.

Export Http.

(** ** The monad of methods: object state, request log, exceptions *)

Module Monad.

Definition M (S A : Type) : Type := S -> Log -> Outcome A * S * Log.

Definition ret {S A} (a : A) : M S A := fun s l => (Return a, s, l).

Definition bind {S A B} (m : M S A) (f : A -> M S B) : M S B :=
  fun s l =>
    match m s l with
    | (Return a, s', l') => f a s' l'
    | (Raise e, s', l') => (Raise e, s', l')
    end.

Definition raise {S A} (e : exn) : M S A := fun s l => (Raise e, s, l).

(** [try: body  except Exception as e: handler(e)] *)
Definition try_except {S A} (body : M S A) (handler : exn -> M S A) : M S A :=
  fun s l =>
    match body s l with
    | (Return a, s', l') => (Return a, s', l')
    | (Raise e, s', l') => handler e s' l'
    end.

Definition gets {S A} (f : S -> A) : M S A := fun s l => (Return (f s), s, l).

Definition modify {S} (f : S -> S) : M S unit := fun s l => (Return tt, f s, l).

(** Lift a finished computation's outcome ([.json()] of a response). *)
Definition lift {S A} (o : Outcome A) : M S A := fun s l => (o, s, l).

(** [requests.get] / [requests.post]: the request is sent (logged), the
    endpoint answers from what was sent before, a failed call raises. *)
Definition send {S B} (endpoint : Log -> Request -> Reply B) (r : Request)
  : M S (response B) :=
  fun s l => (endpoint l r, s, l ++ [r]).

(** Run methods of a local object [o], giving back its final state. *)
Definition on_object {S O A} (o : O) (m : M O A) : M S (A * O) :=
  fun s l =>
    match m o l with
    | (Return a, o', l') => (Return (a, o'), s, l')
    | (Raise e, _, l') => (Raise e, s, l')
    end.

(** [for x in xs: body(x)] *)
Fixpoint for_each {S X} (xs : list X) (body : X -> M S unit) : M S unit :=
  match xs with
  | [] => ret tt
  | x :: xs' => bind (body x) (fun _ => for_each xs' body)
  end.

(** A loop that accumulates into a local list or set. *)
Fixpoint fold_m {S X A} (body : A -> X -> M S A) (xs : list X) (acc : A) : M S A :=
  match xs with
  | [] => ret acc
  | x :: xs' => bind (body acc x) (fun acc' => fold_m body xs' acc')
  end.

End Monad.

Export Monad.

Declare Scope monad_scope.
Delimit Scope monad_scope with monad.
Notation "x <- m ;; k" := (bind m (fun x => k))
  (at level 100, m at next level, right associativity) : monad_scope.
Notation "m ;; k" := (bind m (fun _ => k))
  (at level 100, right associativity) : monad_scope.
Open Scope monad_scope.

(** ** tteck.py: the dashboard generator *)

Module Tteck.

(** The nine capability flags of [node.hardware]. A node that was not
    probed has the empty dictionary, every [.get] of which is falsy:
    that is [no_hardware]. *)
Record Hardware : Type := {
  nvidia_gpu : bool;
  intel_gpu : bool;
  intel_npu : bool;
  mac : bool;
  node_exporter : bool;
  telegraf : bool;
  has_temp : bool;
  has_power : bool;
  has_process : bool
}.

Definition no_hardware : Hardware :=
  {| nvidia_gpu := false; intel_gpu := false; intel_npu := false;
     mac := false; node_exporter := false; telegraf := false;
     has_temp := false; has_power := false; has_process := false |}.

Record NodeInfo : Type := {
  hostname : string;
  ip : string;
  port : string;
  metrics : gset string;
  hardware : Hardware
}.

Record GridPos : Type := { pos_h : Z; pos_w : Z; pos_x : Z; pos_y : Z }.

Record Target : Type := {
  expr : string;
  legendFormat : option string;
  format : option string
}.

(** The constant remainder of a panel, by template. *)
Inductive Decor : Type :=
| RowDecor                                   (* collapsed: False, panels: [] *)
| PercentSeries (fillOpacity : Z)            (* unit percent, smooth line, min 0, max 100 *)
| Thresholds (unit : string) (steps : list (string * Z))
             (options : option (string * string))
| BpsSeries (negative_y : string)            (* unit Bps, override matcher regexp *)
| JoinTable (byField : string).

Record Panel : Type := {
  p_id : Z;
  p_title : string;
  p_type : string;
  p_datasource_uid : option string;
  p_gridPos : GridPos;
  p_targets : list Target;
  p_decor : Decor
}.

(** The dashboard document; its constant metadata (annotations, tags, time
    range, schema version) is left out. *)
Record Dashboard : Type := {
  d_title : string;
  d_uid : string;
  d_refresh : string;
  panels : list Panel
}.

Definition append_panel (dashboard : Dashboard) (p : Panel) : Dashboard :=
  {| d_title := d_title dashboard; d_uid := d_uid dashboard;
     d_refresh := d_refresh dashboard; panels := panels dashboard ++ [p] |}.

(** [ScryptedDashboardGenerator]; the unused [panel_templates] table is
    left out. *)
Record Gen : Type := {
  prometheus_url : string;
  nodes : dict NodeInfo;
  all_metrics : gset string;
  panel_id : Z;
  current_y : Z
}.

Definition __init__ (url : string) : Gen :=
  {| prometheus_url := url; nodes := []; all_metrics := ∅;
     panel_id := 1; current_y := 0 |}.

Definition set_nodes (ns : dict NodeInfo) (g : Gen) : Gen :=
  {| prometheus_url := prometheus_url g; nodes := ns;
     all_metrics := all_metrics g; panel_id := panel_id g;
     current_y := current_y g |}.

Definition set_all_metrics (ms : gset string) (g : Gen) : Gen :=
  {| prometheus_url := prometheus_url g; nodes := nodes g;
     all_metrics := ms; panel_id := panel_id g; current_y := current_y g |}.

Definition set_panel_id (n : Z) (g : Gen) : Gen :=
  {| prometheus_url := prometheus_url g; nodes := nodes g;
     all_metrics := all_metrics g; panel_id := n; current_y := current_y g |}.

Definition set_current_y (n : Z) (g : Gen) : Gen :=
  {| prometheus_url := prometheus_url g; nodes := nodes g;
     all_metrics := all_metrics g; panel_id := panel_id g; current_y := n |}.

Definition get_request (u : string) : Request :=
  {| method := GET; url := u; params := []; headers := [];
     payload := None; timeout := None |}.

(** [x in s] for a set of names. *)
Definition mem (x : string) (s : gset string) : bool := bool_decide (x ∈ s).

(** [any(p(m) for m in s)] *)
Definition any_metric (p : string -> bool) (s : gset string) : bool :=
  existsb p (elements s).

(** The capability table of [_detect_hardware], as a function of the
    metric names found for the instance. *)
Definition hardware_flags (instance_metrics : gset string) : Hardware :=
  {| nvidia_gpu :=
       any_metric (fun m => startswith_any m ["nvidia_"; "DCGM_"]) instance_metrics;
     intel_gpu :=
       any_metric (fun m => contains "intel_gpu" m || contains "igpu_" m) instance_metrics;
     intel_npu := mem "intel_npu_usage_percent" instance_metrics;
     mac := any_metric (fun m => startswith m "mac_") instance_metrics;
     node_exporter := any_metric (fun m => startswith m "node_") instance_metrics;
     telegraf :=
       any_metric (fun m => startswith_any m ["cpu_"; "disk_"; "mem_"]) instance_metrics;
     has_temp := any_metric (fun m => contains "temp" m) instance_metrics;
     has_power :=
       any_metric (fun m => contains "power" m || contains "watts" m) instance_metrics;
     has_process := any_metric (fun m => contains "process" m) instance_metrics |}.

(** Truth value of what [_query_metric] returns: [None] and the empty
    list are both falsy. *)
Definition result_truthy (r : option (list Sample)) : bool :=
  match r with
  | Some (_ :: _) => true
  | _ => false
  end.

(** The label [k] of a series, the empty string when it has none: what the
    two chained [.get] on an item of a query result read. *)
Definition label (item : Sample) (k : string) : string :=
  default EmptyString (dict_get k (default [] (metric item))).

(** [{instance="<instance>"}] and friends. *)
Definition quoted (s : string) : string := quote +:+ s +:+ quote.

Section WithNetwork.

Variable net : Network.

Definition _query_metric (query : string) : M Gen (option (list Sample)) :=
  try_except
    (base <- gets prometheus_url ;;
     response <- send (instant_query net)
       {| method := GET; url := base +:+ "/api/v1/query";
          params := [("query", query)]; headers := [];
          payload := None; timeout := None |} ;;
     if status_code response =? 200 then
       data <- lift (json_body response) ;;
       if bool_decide (q_status data = Some "success") then
         ret (Some (match q_data data with
                    | Some d => default [] (result d)
                    | None => []
                    end))
       else ret None
     else ret None)
    (fun _ => ret None).

Definition _discover_metrics : M Gen unit :=
  try_except
    (base <- gets prometheus_url ;;
     response <- send (label_values net)
       (get_request (base +:+ "/api/v1/label/__name__/values")) ;;
     if status_code response =? 200 then
       body <- lift (json_body response) ;;
       modify (set_all_metrics (list_to_set (default [] (lv_data body))))
     else ret tt)
    (fun _ => ret tt).

(** The inner loop of [_get_hostname_for_ip]: the first series that
    carries a [nodename] or a [host] label decides. *)
Fixpoint first_hostname (items : list Sample) : option string :=
  match items with
  | [] => None
  | item :: rest =>
      let labels := default [] (metric item) in
      match dict_get "nodename" labels with
      | Some v => Some v
      | None =>
          match dict_get "host" labels with
          | Some v => Some v
          | None => first_hostname rest
          end
      end
  end.

Fixpoint hostname_from (candidates : list string) (ip : string)
  : M Gen (option string) :=
  match candidates with
  | [] => ret None
  | metric :: rest =>
      known <- gets all_metrics ;;
      if mem metric known then
        r <- _query_metric
               (metric +:+ "{instance=~" +:+ quoted (".*" +:+ ip +:+ ".*") +:+ "}") ;;
        if result_truthy r then
          match first_hostname (default [] r) with
          | Some v => ret (Some v)
          | None => hostname_from rest ip
          end
        else hostname_from rest ip
      else hostname_from rest ip
  end.

Definition _get_hostname_for_ip (ip : string) : M Gen (option string) :=
  hostname_from ["node_uname_info"; "host"] ip.

(** The body of the loop over the instances. Under the test for a colon
    [rsplit] always yields two parts; the unpacking error of the other case
    is kept for the shape of the code. *)
Definition identify_instance (instance : string) : M Gen unit :=
  if contains ":" instance then
    match rsplit1 ":" instance with
    | Some (ip, port) =>
        found <- _get_hostname_for_ip ip ;;
        let hostname :=
          match found with
          | Some v => if str_truthy v then v else ip
          | None => ip
          end in
        modify (fun g =>
          set_nodes
            (dict_set instance
               {| hostname := hostname; ip := ip; port := port;
                  metrics := ∅; hardware := no_hardware |}
               (nodes g)) g)
    | None =>
        raise (Exn "ValueError" "not enough values to unpack" EmptyString)
    end
  else ret tt.

Definition _identify_nodes : M Gen unit :=
  try_except
    (base <- gets prometheus_url ;;
     response <- send (label_values net)
       (get_request (base +:+ "/api/v1/label/instance/values")) ;;
     if status_code response =? 200 then
       body <- lift (json_body response) ;;
       for_each (default [] (lv_data body)) identify_instance
     else ret tt)
    (fun _ => ret tt).

(** One turn of the loop of [_detect_hardware]: probe every catalogued
    metric for the instance, then store the set found and the flags
    derived from it in the node. *)
Definition detect_node (entry : string * NodeInfo) : M Gen unit :=
  let '(instance, node) := entry in
  known <- gets all_metrics ;;
  instance_metrics <-
    fold_m (fun (acc : gset string) metric =>
              r <- _query_metric (metric +:+ "{instance=" +:+ quoted instance +:+ "}") ;;
              ret (if result_truthy r then acc ∪ {[metric]} else acc))
           (elements known) ∅ ;;
  modify (fun g =>
    set_nodes
      (dict_set instance
         {| hostname := hostname node; ip := ip node; port := port node;
            metrics := instance_metrics;
            hardware := hardware_flags instance_metrics |}
         (nodes g)) g).

Definition _detect_hardware : M Gen unit :=
  ns <- gets nodes ;;
  for_each ns detect_node.

(** *** Capability checks *)

Definition any_node (p : NodeInfo -> bool) (self : Gen) : bool :=
  existsb (fun entry => p (snd entry)) (nodes self).

Definition _has_any_gpu : Gen -> bool :=
  any_node (fun node =>
    nvidia_gpu (hardware node) || intel_gpu (hardware node)
    || intel_npu (hardware node)
    || (mac (hardware node) && mem "mac_gpu_usage_percent" (metrics node))).

Definition _has_temperature : Gen -> bool :=
  any_node (fun node => has_temp (hardware node)).

Definition _has_power : Gen -> bool :=
  any_node (fun node => has_power (hardware node)).

Definition _has_npu : Gen -> bool :=
  any_node (fun node => intel_npu (hardware node)).

Definition _has_disk_metrics (self : Gen) : bool :=
  any_metric (fun m => contains "disk" m) (all_metrics self).

Definition _has_network_metrics (self : Gen) : bool :=
  any_metric (fun m => contains "network" m || contains "net_" m) (all_metrics self).

Definition _has_process_metrics : Gen -> bool :=
  any_node (fun node => has_process (hardware node)).

(** *** Target builders *)

Definition target (e legend : string) : Target :=
  {| expr := e; legendFormat := Some legend; format := None |}.

(** [{instance="<instance>"}] *)
Definition by_instance (instance : string) : string :=
  "{instance=" +:+ quoted instance +:+ "}".

(** A loop over [self.nodes.items()] that appends to [targets]. *)
Definition over_nodes (self : Gen)
    (body : list Target -> string -> NodeInfo -> list Target) : list Target :=
  foldl (fun targets entry => body targets (fst entry) (snd entry)) [] (nodes self).

Definition _build_temperature_targets (self : Gen) : list Target :=
  over_nodes self (fun targets instance node =>
    let targets :=
      if mem "node_hwmon_temp_celsius" (metrics node) then
        targets ++ [target
          ("node_hwmon_temp_celsius{instance=" +:+ quoted instance
             +:+ ",sensor=" +:+ quoted "temp1" +:+ "}")
          (hostname node +:+ " CPU")]
      else targets in
    if mem "mac_cpu_temperature_celsius" (metrics node) then
      targets ++ [target ("mac_cpu_temperature_celsius" +:+ by_instance instance)
                         (hostname node +:+ " Mac CPU")]
    else targets).

Definition _build_power_targets (self : Gen) : list Target :=
  over_nodes self (fun targets instance node =>
    let targets :=
      if mem "mac_cpu_power_watts" (metrics node) then
        targets ++ [target ("mac_cpu_power_watts" +:+ by_instance instance)
                           (hostname node +:+ " CPU Power")]
      else targets in
    let targets :=
      if mem "mac_gpu_power_watts" (metrics node) then
        targets ++ [target ("mac_gpu_power_watts" +:+ by_instance instance)
                           (hostname node +:+ " GPU Power")]
      else targets in
    if mem "mac_ane_power_watts" (metrics node) then
      targets ++ [target ("mac_ane_power_watts" +:+ by_instance instance)
                         (hostname node +:+ " ANE Power")]
    else targets).

Definition cpu_idle_expr (instance : string) : string :=
  "100 - cpu_usage_idle{cpu=" +:+ quoted "cpu-total" +:+ ",instance="
    +:+ quoted instance +:+ "}".

Definition cpu_rate_expr (instance : string) : string :=
  "100 - (avg by(instance) (rate(node_cpu_seconds_total{mode=" +:+ quoted "idle"
    +:+ ",instance=" +:+ quoted instance +:+ "}[5m])) * 100)".

Definition cpu_mac_expr (instance : string) : string :=
  "(mac_pcpu_usage_percent" +:+ by_instance instance
    +:+ " + mac_ecpu_usage_percent" +:+ by_instance instance +:+ ") / 2".

Definition _build_cpu_targets (self : Gen) : list Target :=
  over_nodes self (fun targets instance node =>
    if mem "cpu_usage_idle" (metrics node) then
      targets ++ [target (cpu_idle_expr instance) (hostname node +:+ " CPU")]
    else if mem "node_cpu_seconds_total" (metrics node) then
      targets ++ [target (cpu_rate_expr instance) (hostname node +:+ " CPU")]
    else if mac (hardware node) && mem "mac_pcpu_usage_percent" (metrics node) then
      targets ++ [target (cpu_mac_expr instance) (hostname node +:+ " Mac CPU")]
    else targets).

Definition mem_available_expr (instance : string) : string :=
  "(1 - (node_memory_MemAvailable_bytes" +:+ by_instance instance
    +:+ " / node_memory_MemTotal_bytes" +:+ by_instance instance +:+ ")) * 100".

Definition _build_memory_targets (self : Gen) : list Target :=
  over_nodes self (fun targets instance node =>
    if mem "node_memory_MemAvailable_bytes" (metrics node) then
      targets ++ [target (mem_available_expr instance) (hostname node +:+ " Memory")]
    else if mem "mem_used_percent" (metrics node) then
      targets ++ [target ("mem_used_percent" +:+ by_instance instance)
                         (hostname node +:+ " Memory")]
    else targets).

(** The GPU targets of [_add_gpu_panels]. The comprehension over
    [node.metrics] visits the set in the order of [elements]. *)
Definition gpu_targets (self : Gen) : list Target :=
  over_nodes self (fun targets instance node =>
    let targets :=
      if nvidia_gpu (hardware node) && mem "DCGM_FI_DEV_GPU_UTIL" (metrics node) then
        targets ++ [target ("DCGM_FI_DEV_GPU_UTIL" +:+ by_instance instance)
                           (hostname node +:+ " NVIDIA GPU")]
      else targets in
    let targets :=
      if intel_gpu (hardware node) then
        let intel_metrics :=
          List.filter (fun m => contains "igpu_engines" m || contains "intel_gpu" m)
                      (elements (metrics node)) in
        if list_truthy intel_metrics then
          let e := String.concat " or "
                     (map (fun m => m +:+ by_instance instance) (take 4 intel_metrics)) in
          targets ++ [target ("max by (instance) (" +:+ e +:+ ")")
                             (hostname node +:+ " Intel GPU")]
        else targets
      else targets in
    let targets :=
      if intel_npu (hardware node) then
        targets ++ [target ("intel_npu_usage_percent" +:+ by_instance instance)
                           (hostname node +:+ " Intel NPU")]
      else targets in
    if mac (hardware node) then
      let targets :=
        if mem "mac_gpu_usage_percent" (metrics node) then
          targets ++ [target ("mac_gpu_usage_percent" +:+ by_instance instance)
                             (hostname node +:+ " Mac GPU")]
        else targets in
      if mem "mac_ane_usage_percent" (metrics node) then
        targets ++ [target ("mac_ane_usage_percent" +:+ by_instance instance)
                           (hostname node +:+ " Neural Engine")]
      else targets
    else targets).

(** A loop over the nodes whose body queries the server. *)
Definition over_nodes_m
    (body : list Target -> string -> NodeInfo -> M Gen (list Target))
  : M Gen (list Target) :=
  ns <- gets nodes ;;
  fold_m (fun targets entry => body targets (fst entry) (snd entry)) ns [].

Definition disk_io_item (instance : string) (node : NodeInfo) (item : Sample)
  : list Target :=
  let disk_name := label item "name" in
  if str_truthy disk_name && negb (startswith disk_name "loop") then
    [target ("rate(diskio_read_bytes{instance=" +:+ quoted instance +:+ ",name="
               +:+ quoted disk_name +:+ "}[5m])")
            (hostname node +:+ " " +:+ disk_name +:+ " Read");
     target ("rate(diskio_write_bytes{instance=" +:+ quoted instance +:+ ",name="
               +:+ quoted disk_name +:+ "}[5m])")
            (hostname node +:+ " " +:+ disk_name +:+ " Write")]
  else [].

Definition _build_disk_io_targets : M Gen (list Target) :=
  over_nodes_m (fun targets instance node =>
    if mem "diskio_read_bytes" (metrics node) then
      r <- _query_metric ("diskio_read_bytes" +:+ by_instance instance) ;;
      if result_truthy r then
        ret (targets ++ concat (map (disk_io_item instance node) (default [] r)))
      else ret targets
    else ret targets).

Definition disk_usage_item (instance : string) (node : NodeInfo) (item : Sample)
  : list Target :=
  let mount := label item "mountpoint" in
  if str_truthy mount
     && existsb (String.eqb mount) ["/"; "/home"; "/var"; "/mnt"] then
    [target ("(1 - node_filesystem_avail_bytes{instance=" +:+ quoted instance
               +:+ ",mountpoint=" +:+ quoted mount
               +:+ "} / node_filesystem_size_bytes{instance=" +:+ quoted instance
               +:+ ",mountpoint=" +:+ quoted mount +:+ "}) * 100")
            (hostname node +:+ " " +:+ mount)]
  else [].

Definition _build_disk_usage_targets : M Gen (list Target) :=
  targets <- over_nodes_m (fun targets instance node =>
    if mem "node_filesystem_size_bytes" (metrics node) then
      r <- _query_metric ("node_filesystem_size_bytes{instance=" +:+ quoted instance
                            +:+ ",fstype!=" +:+ quoted "tmpfs" +:+ "}") ;;
      if result_truthy r then
        ret (targets ++ concat (map (disk_usage_item instance node) (default [] r)))
      else ret targets
    else ret targets) ;;
  ret (take 6 targets).

(** The inner loop of [_build_network_targets] stops at the first
    interface that is not loopback, docker or veth. *)
Fixpoint first_interface (items : list Sample) : option string :=
  match items with
  | [] => None
  | item :: rest =>
      let device := label item "device" in
      if str_truthy device && negb (startswith_any device ["lo"; "docker"; "veth"])
      then Some device
      else first_interface rest
  end.

Definition _build_network_targets : M Gen (list Target) :=
  over_nodes_m (fun targets instance node =>
    if mem "node_network_receive_bytes_total" (metrics node) then
      r <- _query_metric ("node_network_receive_bytes_total" +:+ by_instance instance) ;;
      if result_truthy r then
        match first_interface (default [] r) with
        | Some device =>
            ret (targets ++
              [target ("rate(node_network_receive_bytes_total{instance="
                         +:+ quoted instance +:+ ",device=" +:+ quoted device
                         +:+ "}[5m])")
                      (hostname node +:+ " " +:+ device +:+ " RX");
               target ("rate(node_network_transmit_bytes_total{instance="
                         +:+ quoted instance +:+ ",device=" +:+ quoted device
                         +:+ "}[5m])")
                      (hostname node +:+ " " +:+ device +:+ " TX")])
        | None => ret targets
        end
      else ret targets
    else ret targets).

Definition _build_process_targets : list Target :=
  [ {| expr := "topk(10, top_process_cpu_percent)"; legendFormat := None;
       format := Some "table" |};
    {| expr := "topk(10, top_process_memory_percent)"; legendFormat := None;
       format := Some "table" |} ].

(** *** Panel templates *)

Definition prometheus_uid : option string := Some "prometheus-uid".

(** Reads [self.panel_id] and leaves it as it is. *)
Definition _cpu_panel_template (self : Gen)
    (title : string) (targets : list Target) (gridPos : GridPos) : Panel :=
  {| p_id := panel_id self; p_title := title; p_type := "timeseries";
     p_datasource_uid := prometheus_uid; p_gridPos := gridPos;
     p_targets := targets; p_decor := PercentSeries 30 |}.

Definition _gpu_panel_template (self : Gen)
    (title : string) (targets : list Target) (gridPos : GridPos) : Panel :=
  let panel := _cpu_panel_template self title targets gridPos in
  {| p_id := p_id panel; p_title := p_title panel; p_type := p_type panel;
     p_datasource_uid := p_datasource_uid panel; p_gridPos := p_gridPos panel;
     p_targets := p_targets panel; p_decor := PercentSeries 20 |}.

Definition _memory_panel_template (self : Gen)
    (title : string) (targets : list Target) (gridPos : GridPos) : Panel :=
  _cpu_panel_template self title targets gridPos.

(** [self.panel_id += 1] *)
Definition bump_panel_id : M Gen unit :=
  modify (fun g => set_panel_id (panel_id g + 1) g).

(** [self.current_y += n] *)
Definition advance_y (n : Z) : M Gen unit :=
  modify (fun g => set_current_y (current_y g + n) g).

Definition _temperature_panel_template
    (title : string) (targets : list Target) (gridPos : GridPos) : M Gen Panel :=
  bump_panel_id ;;
  next <- gets panel_id ;;
  ret {| p_id := next - 1; p_title := title; p_type := "bargauge";
         p_datasource_uid := prometheus_uid; p_gridPos := gridPos;
         p_targets := targets;
         p_decor := Thresholds "celsius"
                      [("green", 0); ("yellow", 60); ("orange", 70); ("red", 80)]
                      (Some ("basic", "horizontal")) |}.

Definition _power_panel_template
    (title : string) (targets : list Target) (gridPos : GridPos) : M Gen Panel :=
  bump_panel_id ;;
  next <- gets panel_id ;;
  ret {| p_id := next - 1; p_title := title; p_type := "bargauge";
         p_datasource_uid := prometheus_uid; p_gridPos := gridPos;
         p_targets := targets;
         p_decor := Thresholds "watt"
                      [("green", 0); ("yellow", 15); ("red", 25)]
                      (Some ("basic", "horizontal")) |}.

Definition _disk_panel_template
    (title : string) (targets : list Target) (gridPos : GridPos) : M Gen Panel :=
  bump_panel_id ;;
  next <- gets panel_id ;;
  ret {| p_id := next - 1; p_title := title; p_type := "timeseries";
         p_datasource_uid := prometheus_uid; p_gridPos := gridPos;
         p_targets := targets; p_decor := BpsSeries "/.*Write.*/" |}.

Definition _network_panel_template
    (title : string) (targets : list Target) (gridPos : GridPos) : M Gen Panel :=
  panel <- _disk_panel_template title targets gridPos ;;
  ret {| p_id := p_id panel; p_title := p_title panel; p_type := p_type panel;
         p_datasource_uid := p_datasource_uid panel; p_gridPos := p_gridPos panel;
         p_targets := p_targets panel; p_decor := BpsSeries "/.*TX.*/" |}.

Definition _process_panel_template
    (title : string) (targets : list Target) (gridPos : GridPos) : M Gen Panel :=
  bump_panel_id ;;
  next <- gets panel_id ;;
  ret {| p_id := next - 1; p_title := title; p_type := "table";
         p_datasource_uid := prometheus_uid; p_gridPos := gridPos;
         p_targets := targets; p_decor := JoinTable "full_command" |}.

(** *** Sections of the dashboard *)

Definition _add_row (dashboard : Dashboard) (title : string) : M Gen Dashboard :=
  y <- gets current_y ;;
  n <- gets panel_id ;;
  let dashboard := append_panel dashboard
    {| p_id := n; p_title := title; p_type := "row"; p_datasource_uid := None;
       p_gridPos := {| pos_h := 1; pos_w := 24; pos_x := 0; pos_y := y |};
       p_targets := []; p_decor := RowDecor |} in
  bump_panel_id ;;
  advance_y 1 ;;
  ret dashboard.

Definition _add_overview_panels (dashboard : Dashboard) : M Gen Dashboard :=
  let x_pos := 0 in
  let panel_width := 6 in
  (* Temperature gauges *)
  has_t <- gets _has_temperature ;;
  st <- (if has_t then
           temp_targets <- gets _build_temperature_targets ;;
           if list_truthy temp_targets then
             y <- gets current_y ;;
             p <- _temperature_panel_template "🌡️ Temperatures" temp_targets
                    {| pos_h := 5; pos_w := panel_width; pos_x := x_pos; pos_y := y |} ;;
             ret (append_panel dashboard p, x_pos + panel_width)
           else ret (dashboard, x_pos)
         else ret (dashboard, x_pos)) ;;
  let dashboard := fst st in
  let x_pos := snd st in
  (* Power gauges *)
  has_p <- gets _has_power ;;
  st <- (if has_p then
           power_targets <- gets _build_power_targets ;;
           if list_truthy power_targets then
             y <- gets current_y ;;
             p <- _power_panel_template "⚡ Power Usage" power_targets
                    {| pos_h := 5; pos_w := panel_width; pos_x := x_pos; pos_y := y |} ;;
             ret (append_panel dashboard p, x_pos + panel_width)
           else ret (dashboard, x_pos)
         else ret (dashboard, x_pos)) ;;
  let dashboard := fst st in
  let x_pos := snd st in
  (* NPU gauge *)
  has_n <- gets _has_npu ;;
  st <- (if has_n then
           let npu_targets := [target "intel_npu_usage_percent" "Intel NPU"] in
           n <- gets panel_id ;;
           y <- gets current_y ;;
           let dashboard := append_panel dashboard
             {| p_id := n; p_title := "🧠 NPU Usage"; p_type := "bargauge";
                p_datasource_uid := prometheus_uid;
                p_gridPos := {| pos_h := 5; pos_w := panel_width;
                                pos_x := x_pos; pos_y := y |};
                p_targets := npu_targets;
                p_decor := Thresholds "percent"
                             [("green", 0); ("yellow", 50); ("red", 80)] None |} in
           bump_panel_id ;;
           ret (dashboard, x_pos + panel_width)
         else ret (dashboard, x_pos)) ;;
  let dashboard := fst st in
  let x_pos := snd st in
  if 0 <? x_pos then advance_y 6 ;; ret dashboard
  else ret dashboard.

Definition _add_gpu_panels (dashboard : Dashboard) : M Gen Dashboard :=
  targets <- gets gpu_targets ;;
  if list_truthy targets then
    self <- gets (fun g => g) ;;
    let dashboard := append_panel dashboard
      (_gpu_panel_template self "GPU & Accelerator Utilization" targets
         {| pos_h := 10; pos_w := 24; pos_x := 0; pos_y := current_y self |}) in
    advance_y 11 ;;
    ret dashboard
  else ret dashboard.

Definition _add_cpu_memory_panels (dashboard : Dashboard) : M Gen Dashboard :=
  cpu_targets <- gets _build_cpu_targets ;;
  dashboard <- (if list_truthy cpu_targets then
                  self <- gets (fun g => g) ;;
                  ret (append_panel dashboard
                         (_cpu_panel_template self "CPU Utilization" cpu_targets
                            {| pos_h := 10; pos_w := 12; pos_x := 0;
                               pos_y := current_y self |}))
                else ret dashboard) ;;
  mem_targets <- gets _build_memory_targets ;;
  dashboard <- (if list_truthy mem_targets then
                  self <- gets (fun g => g) ;;
                  ret (append_panel dashboard
                         (_memory_panel_template self "Memory Usage" mem_targets
                            {| pos_h := 10; pos_w := 12; pos_x := 12;
                               pos_y := current_y self |}))
                else ret dashboard) ;;
  advance_y 11 ;;
  ret dashboard.

Definition _add_disk_panels (dashboard : Dashboard) : M Gen Dashboard :=
  io_targets <- _build_disk_io_targets ;;
  dashboard <- (if list_truthy io_targets then
                  y <- gets current_y ;;
                  p <- _disk_panel_template "💾 Disk I/O" io_targets
                         {| pos_h := 10; pos_w := 12; pos_x := 0; pos_y := y |} ;;
                  ret (append_panel dashboard p)
                else ret dashboard) ;;
  usage_targets <- _build_disk_usage_targets ;;
  dashboard <- (if list_truthy usage_targets then
                  n <- gets panel_id ;;
                  y <- gets current_y ;;
                  let dashboard := append_panel dashboard
                    {| p_id := n; p_title := "📊 Disk Usage"; p_type := "bargauge";
                       p_datasource_uid := prometheus_uid;
                       p_gridPos := {| pos_h := 10; pos_w := 12;
                                       pos_x := 12; pos_y := y |};
                       p_targets := usage_targets;
                       p_decor := Thresholds "percent"
                                    [("green", 0); ("yellow", 70); ("red", 90)]
                                    (Some ("lcd", "horizontal")) |} in
                  bump_panel_id ;;
                  ret dashboard
                else ret dashboard) ;;
  advance_y 11 ;;
  ret dashboard.

Definition _add_network_panels (dashboard : Dashboard) : M Gen Dashboard :=
  net_targets <- _build_network_targets ;;
  if list_truthy net_targets then
    y <- gets current_y ;;
    p <- _network_panel_template "🌐 Network Traffic" net_targets
           {| pos_h := 10; pos_w := 24; pos_x := 0; pos_y := y |} ;;
    let dashboard := append_panel dashboard p in
    advance_y 11 ;;
    ret dashboard
  else ret dashboard.

Definition _add_process_panels (dashboard : Dashboard) : M Gen Dashboard :=
  let process_targets := _build_process_targets in
  if list_truthy process_targets then
    y <- gets current_y ;;
    p <- _process_panel_template "🔥 Top Processes" process_targets
           {| pos_h := 12; pos_w := 24; pos_x := 0; pos_y := y |} ;;
    let dashboard := append_panel dashboard p in
    advance_y 13 ;;
    ret dashboard
  else ret dashboard.

Definition empty_dashboard : Dashboard :=
  {| d_title := "🚀 SCRYPTED Telemetry (Auto-Generated)";
     d_uid := "scrypted-auto"; d_refresh := "5s"; panels := [] |}.

Definition _build_smart_dashboard : M Gen Dashboard :=
  let dashboard := empty_dashboard in
  dashboard <- _add_row dashboard "🎯 System Overview" ;;
  dashboard <- _add_overview_panels dashboard ;;
  any_gpu <- gets _has_any_gpu ;;
  dashboard <- (if any_gpu then
                  dashboard <- _add_row dashboard "🚀 GPU & Accelerators" ;;
                  _add_gpu_panels dashboard
                else ret dashboard) ;;
  dashboard <- _add_row dashboard "💻 CPU & Memory" ;;
  dashboard <- _add_cpu_memory_panels dashboard ;;
  disk <- gets _has_disk_metrics ;;
  dashboard <- (if disk then
                  dashboard <- _add_row dashboard "💾 Storage" ;;
                  _add_disk_panels dashboard
                else ret dashboard) ;;
  network <- gets _has_network_metrics ;;
  dashboard <- (if network then
                  dashboard <- _add_row dashboard "🌐 Network" ;;
                  _add_network_panels dashboard
                else ret dashboard) ;;
  process <- gets _has_process_metrics ;;
  dashboard <- (if process then
                  dashboard <- _add_row dashboard "📊 Processes" ;;
                  _add_process_panels dashboard
                else ret dashboard) ;;
  ret dashboard.

Definition discover_all : M Gen Dashboard :=
  _discover_metrics ;;
  _identify_nodes ;;
  _detect_hardware ;;
  _build_smart_dashboard.

End WithNetwork.

End Tteck.

(** ** plugin_api.py: the REST facade

    The handlers [discover], [generate], [import_to_grafana] and
    [validate_setup]. A handler is given what [request.json] does: it
    raises, or it yields the decoded body. The fields of an object are read
    at the types the plugin sends them with; the [include_*] and
    [force_refresh] switches, which the handlers only test for truth, are
    any JSON value. What a handler hands to
    Flask is the HTTP status together with the JSON body. The discovery
    cache is the state of [/discover] alone. *)

Module PluginApi.

Import Tteck.

Record Served (B : Type) : Type := { code : Z; body : B }.
Arguments code {B} s.
Arguments body {B} s.

(** [{"status": "error", "error": ..., "traceback": ..., "response": ...}] *)
Record ErrorBody : Type := {
  e_status : string;
  e_error : string;
  e_traceback : option string;
  e_response : option string
}.

(** The body served from the [except] clause of every handler. *)
Definition internal_error {B} (wrap : ErrorBody -> B) (e : exn) : Served B :=
  {| code := 500;
     body := wrap {| e_status := "error"; e_error := exn_message e;
                     e_traceback := Some (exn_traceback e);
                     e_response := None |} |}.

(** What [request.json] yields when it does not raise: an object, given by
    its fields; a falsy value ([null], [false], zero, the empty string, list
    or object), which [or {}] replaces by the empty dictionary; or another
    value (a list, a string, a number, [true]), on which the first
    [data.get] raises [e]. *)
Inductive Body (R : Type) : Type :=
| Object (fields : R)
| Falsy
| NotObject (e : exn).
Arguments Object {R} fields.
Arguments Falsy {R}.
Arguments NotObject {R} e.

(** [data = request.json or {}], up to the first [data.get]. [empty] is
    the record of the empty dictionary: every field absent. *)
Definition request_data {S R} (empty : R) (request_json : Outcome (Body R)) : M S R :=
  body <- lift request_json ;;
  match body with
  | Object fields => ret fields
  | Falsy => ret empty
  | NotObject e => raise e
  end.

(** *** /generate *)

Record GenerateRequest : Type := {
  g_prometheus_url : option string;
  g_dashboard_name : option string;
  g_include_gpu : option json;
  g_include_processes : option json;
  g_include_disk : option json;
  g_include_network : option json;
  g_refresh_interval : option string;
  g_uid : option string;
  g_datasource_uid : option string
}.

Definition no_generate_fields : GenerateRequest :=
  {| g_prometheus_url := None; g_dashboard_name := None; g_include_gpu := None;
     g_include_processes := None; g_include_disk := None; g_include_network := None;
     g_refresh_interval := None; g_uid := None; g_datasource_uid := None |}.

Record Options : Type := {
  name : string;
  include_gpu : json;
  include_processes : json;
  include_disk : json;
  include_network : json;
  refresh_interval : string;
  uid : string;
  datasource_uid : string
}.

Definition read_options (data : GenerateRequest) : Options :=
  {| name := default "Scrypted Telemetry" (g_dashboard_name data);
     include_gpu := default (JBool true) (g_include_gpu data);
     include_processes := default (JBool true) (g_include_processes data);
     include_disk := default (JBool true) (g_include_disk data);
     include_network := default (JBool true) (g_include_network data);
     refresh_interval := default "5s" (g_refresh_interval data);
     uid := default "scrypted-auto" (g_uid data);
     datasource_uid := default "prometheus-uid" (g_datasource_uid data) |}.

(** [if "datasource" in panel: panel["datasource"]["uid"] = uid] *)
Definition set_datasource_uid (u : string) (p : Panel) : Panel :=
  {| p_id := p_id p; p_title := p_title p; p_type := p_type p;
     p_datasource_uid :=
       match p_datasource_uid p with Some _ => Some u | None => None end;
     p_gridPos := p_gridPos p; p_targets := p_targets p; p_decor := p_decor p |}.

(** The four title filters, in the order of the source. *)
Definition filter_panels (options : Options) (ps : list Panel) : list Panel :=
  let ps :=
    if negb (truthy (include_gpu options)) then
      List.filter (fun p => negb (contains "GPU" (p_title p))
                            && negb (contains "Accelerator" (p_title p))) ps
    else ps in
  let ps :=
    if negb (truthy (include_processes options)) then
      List.filter (fun p => negb (contains "Process" (p_title p))) ps
    else ps in
  let ps :=
    if negb (truthy (include_disk options)) then
      List.filter (fun p => negb (contains "Disk" (p_title p))
                            && negb (contains "Storage" (p_title p))) ps
    else ps in
  if negb (truthy (include_network options)) then
    List.filter (fun p => negb (contains "Network" (p_title p))) ps
  else ps.

Definition apply_options (options : Options) (dashboard : Dashboard) : Dashboard :=
  {| d_title := name options;
     d_uid := uid options;
     d_refresh := refresh_interval options;
     panels := filter_panels options
                 (map (set_datasource_uid (datasource_uid options))
                      (panels dashboard)) |}.

Record GenerateOk : Type := {
  go_status : string;
  go_dashboard : Dashboard;
  go_panel_count : Z;
  go_options_applied : Options
}.

Inductive GenerateBody : Type :=
| Generated (ok : GenerateOk)
| GenerateFailed (err : ErrorBody).

(** *** /import *)

Record ImportRequest : Type := {
  i_grafana_url : option string;
  i_api_key : option string;
  i_dashboard : option (dict json)
}.

Definition no_import_fields : ImportRequest :=
  {| i_grafana_url := None; i_api_key := None; i_dashboard := None |}.

Record ImportOk : Type := {
  io_status : string;
  io_grafana_response : json;
  io_url : string
}.

Inductive ImportBody : Type :=
| Imported (ok : ImportOk)
| ImportFailed (err : ErrorBody).

(** Truth value of an optional string and of an optional dictionary:
    an absent field, the empty string and the empty dictionary are falsy. *)
Definition opt_str_truthy (o : option string) : bool :=
  match o with Some s => str_truthy s | None => false end.

Definition opt_dict_truthy {V} (o : option (dict V)) : bool :=
  match o with Some d => list_truthy d | None => false end.

(** *** /validate *)

Record ValidateRequest : Type := {
  v_prometheus_url : option string;
  v_grafana_url : option string
}.

Definition no_validate_fields : ValidateRequest :=
  {| v_prometheus_url := None; v_grafana_url := None |}.

Record Check : Type := { c_status : string; c_issues : list string }.

Record Validation : Type := {
  prometheus : Check;
  grafana : Check;
  exporters_found : list string;
  exporters_missing : list string;
  recommendations : list string;
  ready : option bool;
  message : option string
}.

Inductive ValidateBody : Type :=
| Validated (v : Validation)
| ValidateFailed (err : ErrorBody).

Definition with_prometheus (c : Check) (v : Validation) : Validation :=
  {| prometheus := c; grafana := grafana v;
     exporters_found := exporters_found v;
     exporters_missing := exporters_missing v;
     recommendations := recommendations v;
     ready := ready v; message := message v |}.

Definition with_grafana (c : Check) (v : Validation) : Validation :=
  {| prometheus := prometheus v; grafana := c;
     exporters_found := exporters_found v;
     exporters_missing := exporters_missing v;
     recommendations := recommendations v;
     ready := ready v; message := message v |}.

Definition found (e : string) (v : Validation) : Validation :=
  {| prometheus := prometheus v; grafana := grafana v;
     exporters_found := exporters_found v ++ [e];
     exporters_missing := exporters_missing v;
     recommendations := recommendations v;
     ready := ready v; message := message v |}.

Definition missing (e : string) (v : Validation) : Validation :=
  {| prometheus := prometheus v; grafana := grafana v;
     exporters_found := exporters_found v;
     exporters_missing := exporters_missing v ++ [e];
     recommendations := recommendations v;
     ready := ready v; message := message v |}.

Definition recommend (r : string) (v : Validation) : Validation :=
  {| prometheus := prometheus v; grafana := grafana v;
     exporters_found := exporters_found v;
     exporters_missing := exporters_missing v;
     recommendations := recommendations v ++ [r];
     ready := ready v; message := message v |}.

Definition verdict (r : bool) (m : string) (v : Validation) : Validation :=
  {| prometheus := prometheus v; grafana := grafana v;
     exporters_found := exporters_found v;
     exporters_missing := exporters_missing v;
     recommendations := recommendations v;
     ready := Some r; message := Some m |}.

Definition status_is (s : string) (c : Check) : Check :=
  {| c_status := s; c_issues := c_issues c |}.

Definition issue (i : string) (c : Check) : Check :=
  {| c_status := c_status c; c_issues := c_issues c ++ [i] |}.

Definition grafana_hint : string :=
  "Install and start Grafana: docker run -p 3000:3000 grafana/grafana".

Definition prometheus_hint : string :=
  "Install and start Prometheus: docker run -p 9090:9090 prom/prometheus".

(** The exporter checks on the catalogue of metric names. *)
Definition check_exporters (metrics : gset string) (v : Validation) : Validation :=
  let v :=
    if any_metric (fun m => startswith m "node_") metrics then
      found "node-exporter" v
    else recommend "Install node-exporter for system metrics"
           (missing "node-exporter" v) in
  let v :=
    if any_metric (fun m => startswith_any m ["nvidia_"; "DCGM_"]) metrics then
      found "nvidia-exporter" v
    else v in
  let v :=
    if any_metric (fun m => startswith m "intel_npu_") metrics then
      found "intel-npu-exporter" v
    else v in
  let v :=
    if any_metric (fun m => startswith m "mac_") metrics then
      found "mac-exporter" v
    else v in
  if negb (list_truthy (exporters_found v)) then
    recommend "No exporters found - run the setup script to install them" v
  else v.

(** *** /discover *)

Record DiscoverRequest : Type := {
  dr_prometheus_url : option string;
  dr_force_refresh : option json
}.

Definition no_discover_fields : DiscoverRequest :=
  {| dr_prometheus_url := None; dr_force_refresh := None |}.

(** One entry of [results["nodes"]]. *)
Record NodeSummary : Type := {
  ns_hostname : string;
  ns_ip : string;
  ns_port : string;
  ns_hardware : Hardware;
  ns_metric_count : Z;
  ns_key_metrics : list string
}.

Record Results : Type := {
  r_nodes : dict NodeSummary;
  r_total_metrics : Z;
  r_capabilities : dict bool
}.

(** [discovery_cache], the module-level dictionary every request shares.
    A [datetime] is a count of microseconds, its resolution. *)
Record Cache : Type := {
  c_timestamp : option Z;
  c_results : option Results;
  c_ttl : Z
}.

Definition discovery_cache : Cache :=
  {| c_timestamp := None; c_results := None; c_ttl := 300 |}.

(** [age_micros] is [age_seconds] counted in microseconds: the source
    divides the difference of the two clock readings by [10**6]. *)
Record DiscoverOk : Type := {
  do_status : string;
  do_cached : bool;
  do_age_micros : option Z;
  do_data : Results
}.

Inductive DiscoverBody : Type :=
| Discovered (ok : DiscoverOk)
| DiscoverFailed (err : ErrorBody).

(** [node.hardware.get(k)] *)
Definition hardware_get (k : string) (h : Hardware) : bool :=
  if String.eqb k "nvidia_gpu" then nvidia_gpu h
  else if String.eqb k "intel_gpu" then intel_gpu h
  else if String.eqb k "intel_npu" then intel_npu h
  else if String.eqb k "mac" then mac h
  else if String.eqb k "node_exporter" then node_exporter h
  else if String.eqb k "telegraf" then telegraf h
  else if String.eqb k "has_temp" then has_temp h
  else if String.eqb k "has_power" then has_power h
  else if String.eqb k "has_process" then has_process h
  else false.

Definition initial_capabilities (generator : Gen) : dict bool :=
  [("has_nvidia", false); ("has_intel_gpu", false); ("has_intel_npu", false);
   ("has_mac", false);
   ("has_multiple_nodes", 1 <? Z.of_nat (length (nodes generator)));
   ("has_temperature", false); ("has_power", false); ("has_disk", false);
   ("has_network", false); ("has_processes", false)].

(** The capability updates of one turn of the loop over the nodes. *)
Definition node_capabilities (node : NodeInfo) (caps : dict bool) : dict bool :=
  let caps :=
    foldl (fun caps cap =>
             if hardware_get cap (hardware node) then
               dict_set ("has_" +:+ replace cap "_gpu" "") true caps
             else caps)
          caps ["nvidia_gpu"; "intel_gpu"; "intel_npu"; "mac"] in
  let caps :=
    if hardware_get "has_temp" (hardware node) then dict_set "has_temperature" true caps
    else caps in
  let caps :=
    if hardware_get "has_power" (hardware node) then dict_set "has_power" true caps
    else caps in
  if hardware_get "has_process" (hardware node) then dict_set "has_processes" true caps
  else caps.

Definition node_summary (node : NodeInfo) : NodeSummary :=
  {| ns_hostname := hostname node; ns_ip := ip node; ns_port := port node;
     ns_hardware := hardware node;
     ns_metric_count := Z.of_nat (size (metrics node));
     ns_key_metrics := take 20 (elements (metrics node)) |}.

(** The results [/discover] formats from a generator that has run. *)
Definition discover_results (generator : Gen) : Results :=
  let results :=
    foldl (fun results entry =>
             {| r_nodes := dict_set (fst entry) (node_summary (snd entry)) (r_nodes results);
                r_total_metrics := r_total_metrics results;
                r_capabilities := node_capabilities (snd entry) (r_capabilities results) |})
          {| r_nodes := [];
             r_total_metrics := Z.of_nat (size (all_metrics generator));
             r_capabilities := initial_capabilities generator |}
          (nodes generator) in
  let caps :=
    dict_set "has_disk"
      (any_metric (fun m => contains "disk" m) (all_metrics generator))
      (r_capabilities results) in
  let caps :=
    dict_set "has_network"
      (any_metric (fun m => contains "network" m || contains "net_" m)
         (all_metrics generator))
      caps in
  {| r_nodes := r_nodes results; r_total_metrics := r_total_metrics results;
     r_capabilities := caps |}.

Section WithNetwork.

Variable net : Network.

(** [str(v)] of a decoded JSON value that is not a string. *)
Variable str_json : json -> string.

Definition generate (request_json : Outcome (Body GenerateRequest))
  : M unit (Served GenerateBody) :=
  try_except
    (data <- request_data no_generate_fields request_json ;;
     let prometheus_url :=
       default "http://localhost:9090" (g_prometheus_url data) in
     let options := read_options data in
     r <- on_object (__init__ prometheus_url) (discover_all net) ;;
     let dashboard := apply_options options (fst r) in
     ret {| code := 200;
            body := Generated
              {| go_status := "success";
                 go_dashboard := dashboard;
                 go_panel_count := Z.of_nat (length (panels dashboard));
                 go_options_applied := options |} |})
    (fun e => ret (internal_error GenerateFailed e)).

(** [now] is the clock reading [datetime.now()], as printed. *)
Definition import_to_grafana (now : string) (request_json : Outcome (Body ImportRequest))
  : M unit (Served ImportBody) :=
  try_except
    (data <- request_data no_import_fields request_json ;;
     let grafana_url := default "http://localhost:3000" (i_grafana_url data) in
     let api_key := i_api_key data in
     let dashboard := i_dashboard data in
     if negb (opt_str_truthy api_key) then
       ret {| code := 400;
              body := ImportFailed
                {| e_status := "error"; e_error := "API key required for import";
                   e_traceback := None; e_response := None |} |}
     else if negb (opt_dict_truthy dashboard) then
       ret {| code := 400;
              body := ImportFailed
                {| e_status := "error"; e_error := "Dashboard JSON required";
                   e_traceback := None; e_response := None |} |}
     else
       let api_key := default EmptyString api_key in
       let dashboard := default [] dashboard in
       response <- send (dashboards_db net)
         {| method := POST;
            url := grafana_url +:+ "/api/dashboards/db";
            params := [];
            headers := [("Authorization", "Bearer " +:+ api_key);
                        ("Content-Type", "application/json")];
            payload := Some (JDict
              [("dashboard", JDict dashboard);
               ("overwrite", JBool true);
               ("message",
                JStr ("Auto-imported by Scrypted Telemetry Plugin at " +:+ now))]);
            timeout := None |} ;;
       if status_code response =? 200 then
         result <- lift (json_body response) ;;
         ret {| code := 200;
                body := Imported
                  {| io_status := "success";
                     io_grafana_response := result;
                     io_url := grafana_url +:+ "/d/" +:+
                       match dict_get "uid" dashboard with
                       | Some (JStr s) => s
                       | Some v => str_json v
                       | None => "unknown"
                       end |} |}
       else
         ret {| code := 500;
                body := ImportFailed
                  {| e_status := "error";
                     e_error := "Grafana returned " +:+ str_int (status_code response);
                     e_traceback := None;
                     e_response := Some (text response) |} |})
    (fun e => ret (internal_error ImportFailed e)).

Definition health_request (u : string) : Request :=
  {| method := GET; url := u; params := []; headers := [];
     payload := None; timeout := Some 5 |}.

Definition validate_setup (request_json : Outcome (Body ValidateRequest))
  : M unit (Served ValidateBody) :=
  try_except
    (data <- request_data no_validate_fields request_json ;;
     let prometheus_url :=
       default "http://localhost:9090" (v_prometheus_url data) in
     let grafana_url := default "http://localhost:3000" (v_grafana_url data) in
     let validation :=
       {| prometheus := {| c_status := "unknown"; c_issues := [] |};
          grafana := {| c_status := "unknown"; c_issues := [] |};
          exporters_found := []; exporters_missing := [];
          recommendations := []; ready := None; message := None |} in
     (* Check Prometheus *)
     validation <-
       try_except
         (resp <- send (health_check net)
                    (health_request (prometheus_url +:+ "/-/healthy")) ;;
          if status_code resp =? 200 then
            ret (with_prometheus (status_is "healthy" (prometheus validation))
                   validation)
          else
            ret (with_prometheus
                   (issue ("Health check returned " +:+ str_int (status_code resp))
                      (status_is "unhealthy" (prometheus validation)))
                   validation))
         (fun e =>
            ret (recommend prometheus_hint
                   (with_prometheus
                      (issue (exn_message e)
                         (status_is "unreachable" (prometheus validation)))
                      validation))) ;;
     (* Check Grafana *)
     validation <-
       try_except
         (resp <- send (health_check net)
                    (health_request (grafana_url +:+ "/api/health")) ;;
          if status_code resp =? 200 then
            ret (with_grafana (status_is "healthy" (grafana validation))
                   validation)
          else
            ret (with_grafana
                   (issue ("Health check returned " +:+ str_int (status_code resp))
                      (status_is "unhealthy" (grafana validation)))
                   validation))
         (fun e =>
            ret (recommend grafana_hint
                   (with_grafana
                      (issue (exn_message e)
                         (status_is "unreachable" (grafana validation)))
                      validation))) ;;
     (* Check for exporters if Prometheus is healthy *)
     validation <-
       (if String.eqb (c_status (prometheus validation)) "healthy" then
          try_except
            (resp <- send (label_values net)
                       (get_request
                          (prometheus_url +:+ "/api/v1/label/__name__/values")) ;;
             if status_code resp =? 200 then
               names <- lift (json_body resp) ;;
               ret (check_exporters
                      (list_to_set (default [] (lv_data names))) validation)
             else ret validation)
            (fun e =>
               ret (with_prometheus
                      (issue ("Could not query metrics: " +:+ exn_message e)
                         (prometheus validation))
                      validation))
        else ret validation) ;;
     (* Overall status *)
     let validation :=
       if String.eqb (c_status (prometheus validation)) "healthy"
          && String.eqb (c_status (grafana validation)) "healthy"
          && (0 <? Z.of_nat (length (exporters_found validation))) then
         verdict true "System is ready for dashboard generation" validation
       else
         verdict false "Setup incomplete - check recommendations" validation in
     ret {| code := 200; body := Validated validation |})
    (fun e => ret (internal_error ValidateFailed e)).

(** [now] and [now'] are the two readings of the clock: at the cache test
    and when the results are stored. The source compares the age in
    seconds, a float, with [ttl]; on counts of microseconds that is
    [age < ttl * 10**6]. The stored results are a dictionary that is never
    empty, so their truth value is their presence. *)
Definition discover (now now' : Z) (request_json : Outcome (Body DiscoverRequest))
  : M Cache (Served DiscoverBody) :=
  try_except
    (data <- request_data no_discover_fields request_json ;;
     let prometheus_url :=
       default "http://localhost:9090" (dr_prometheus_url data) in
     let force_refresh := default (JBool false) (dr_force_refresh data) in
     cache <- gets (fun c => c) ;;
     let hit :=
       if negb (truthy force_refresh) then
         match c_results cache, c_timestamp cache with
         | Some cached, Some timestamp =>
             let age := now - timestamp in
             if age <? c_ttl cache * 1000000 then Some (age, cached) else None
         | _, _ => None
         end
       else None in
     match hit with
     | Some (age, cached) =>
         ret {| code := 200;
                body := Discovered
                  {| do_status := "success"; do_cached := true;
                     do_age_micros := Some age; do_data := cached |} |}
     | None =>
         r <- on_object (__init__ prometheus_url)
                (_discover_metrics net ;; _identify_nodes net ;; _detect_hardware net) ;;
         let results := discover_results (snd r) in
         modify (fun c => {| c_timestamp := c_timestamp c; c_results := Some results;
                             c_ttl := c_ttl c |}) ;;
         modify (fun c => {| c_timestamp := Some now'; c_results := c_results c;
                             c_ttl := c_ttl c |}) ;;
         ret {| code := 200;
                body := Discovered
                  {| do_status := "success"; do_cached := false;
                     do_age_micros := None; do_data := results |} |}
     end)
    (fun e => ret (internal_error DiscoverFailed e)).

End WithNetwork.

End PluginApi.

Import Tteck PluginApi.

(** ** Vocabulary of the properties *)

(** *** Results of a run *)

Definition outcome {S A} (r : Outcome A * S * Log) : Outcome A := fst (fst r).
Definition final_state {S A} (r : Outcome A * S * Log) : S := snd (fst r).
Definition final_log {S A} (r : Outcome A * S * Log) : Log := snd r.

(** [m] returns a value, and the value, the state and the log it ends in
    satisfy [Q]. *)
Definition wp {S A} (m : M S A) (Q : A -> S -> Log -> Prop) (s : S) (l : Log) : Prop :=
  match m s l with
  | (Return a, s', l') => Q a s' l'
  | (Raise _, _, _) => False
  end.

(** [m] always returns a value and leaves the object as it found it. *)
Definition reads {S A} (m : M S A) : Prop :=
  forall s l, exists a l', m s l = (Return a, s, l').

(** [m] always returns a value: no exception leaves it. *)
Definition total {S A} (m : M S A) : Prop :=
  forall s l, exists a s' l', m s l = (Return a, s', l').

(** [P] survives [m], whether [m] returns or raises. *)
Definition keeps {S A} (P : S -> Prop) (m : M S A) : Prop :=
  forall s l, P s -> P (final_state (m s l)).

(** *** Strings *)

Definition StartsWith (pre s : string) : Prop := exists t, s = pre +:+ t.

Definition Contains (needle s : string) : Prop := exists a b, s = a +:+ needle +:+ b.

(** *** The requests the generator and the facade send *)

Definition query_request (g : Gen) (query : string) : Request :=
  {| method := GET; url := prometheus_url g +:+ "/api/v1/query";
     params := [("query", query)]; headers := [];
     payload := None; timeout := None |}.

Definition names_request (g : Gen) : Request :=
  get_request (prometheus_url g +:+ "/api/v1/label/__name__/values").


(** *** Upstream failures *)

(** The call raised (network failure), the status is not 200, or decoding
    the body raised. *)
Definition upstream_failed {B} (r : Reply B) : Prop :=
  match r with
  | Raise _ => True
  | Return resp => status_code resp <> 200 \/ exists e, json_body resp = Raise e
  end.

(** An instant query fails in those ways, or answers 200 with a status
    other than [success]. *)
Definition query_unsuccessful (r : Reply QueryBody) : Prop :=
  upstream_failed r \/
  exists resp body, r = Return resp /\ json_body resp = Return body
                    /\ q_status body <> Some "success".

(** *** Panel ids *)

Definition strictly_increasing (ids : list Z) : Prop :=
  forall (i j : nat) a b, (i < j)%nat -> ids !! i = Some a -> ids !! j = Some b -> a < b.

Definition never_decreasing (ids : list Z) : Prop :=
  forall (i j : nat) a b, (i < j)%nat -> ids !! i = Some a -> ids !! j = Some b -> a <= b.

(** The same, by recursion on the list. *)
Fixpoint ascending (ids : list Z) : Prop :=
  match ids with
  | [] => True
  | a :: rest => Forall (fun b => a <= b) rest /\ ascending rest
  end.

(** The id of [p] was handed out between two values of the counter. *)
Definition id_between (lo hi : Z) (p : Panel) : Prop := lo <= p_id p <= hi.

(** *** Grid rectangles *)

(** Two rectangles overlap when they share a cell of the grid. *)
Definition overlap (a b : GridPos) : Prop :=
  pos_x a < pos_x b + pos_w b /\ pos_x b < pos_x a + pos_w a /\
  pos_y a < pos_y b + pos_h b /\ pos_y b < pos_y a + pos_h a.

Definition no_overlap (ps : list Panel) : Prop :=
  forall (i j : nat) p q, i <> j -> ps !! i = Some p -> ps !! j = Some q ->
    ~ overlap (p_gridPos p) (p_gridPos q).

(** The same, by recursion on the list. *)
Fixpoint disjoint_list (ps : list Panel) : Prop :=
  match ps with
  | [] => True
  | p :: rest =>
      Forall (fun q => ~ overlap (p_gridPos p) (p_gridPos q)) rest /\ disjoint_list rest
  end.

(** [p] lies in the rows [lo, hi) of the grid. *)
Definition band (lo hi : Z) (p : Panel) : Prop :=
  lo <= pos_y (p_gridPos p) /\ pos_y (p_gridPos p) + pos_h (p_gridPos p) <= hi.

(** *** The layout cursor, read off the assembled document *)

Definition is_row (p : Panel) : bool := String.eqb (p_type p) "row".

Definition titled (t : string) (p : Panel) : bool := String.eqb (p_title p) t.

Definition overview_gauge (p : Panel) : bool :=
  titled "🌡️ Temperatures" p || titled "⚡ Power Usage" p || titled "🧠 NPU Usage" p.

(** What a panel accounts for in the cursor: 1 for a row separator, 11 for
    the GPU panel, 11 for the Storage section (carried by its row: the
    section advances whether or not it placed a panel), 11 for the network
    panel, 13 for the process table. *)
Definition weight (p : Panel) : Z :=
  (if is_row p then 1 else 0)
  + (if titled "GPU & Accelerator Utilization" p then 11 else 0)
  + (if titled "💾 Storage" p then 11 else 0)
  + (if titled "🌐 Network Traffic" p then 11 else 0)
  + (if titled "🔥 Top Processes" p then 13 else 0).

Definition tally (ps : list Panel) : Z := foldr (fun p n => weight p + n) 0 ps.

(** The advance of the cursor over an assembly: the weights of the panels,
    6 for the overview strip when it holds at least one gauge, and 11 for
    the CPU & Memory section, which always advances. *)
Definition cursor_advance (ps : list Panel) : Z :=
  tally ps + (if existsb overview_gauge ps then 6 else 0) + 11.

(** The cursor as the specification words it: every included section
    (Overview and CPU & Memory always, the others by their inclusion
    predicate) adds its fixed height increment, on top of what its row
    separator adds. [row] is the latter: 1 as [_add_row] has it, or 0 when
    the increment is read as the section's height + 1 alone. *)
Definition spec_cursor (row : Z) (g : Gen) : Z :=
  (row + 6)
  + (if _has_any_gpu g then row + 11 else 0)
  + (row + 11)
  + (if _has_disk_metrics g then row + 11 else 0)
  + (if _has_network_metrics g then row + 11 else 0)
  + (if _has_process_metrics g then row + 13 else 0).

(** Discovery results are not touched by the assembly. *)
Definition same_env (g g' : Gen) : Prop :=
  prometheus_url g' = prometheus_url g /\ nodes g' = nodes g
  /\ all_metrics g' = all_metrics g.

(** One stretch of the assembly, from generator state [g] to [g'], that
    appended the panels [N]: they lie between the two cursor positions, do
    not overlap, and the cursor moved by their tally, by 6 if the overview
    strip is among them ([ov]), and by [fixed]; their ids lie between the
    two values of the id counter and do not decrease. *)
Record Step (g g' : Gen) (N : list Panel) (fixed : Z) (ov : bool) : Prop := {
  step_env : same_env g g';
  step_mono : current_y g <= current_y g';
  step_band : Forall (band (current_y g) (current_y g')) N;
  step_disjoint : disjoint_list N;
  step_id_mono : panel_id g <= panel_id g';
  step_ids : Forall (id_between (panel_id g) (panel_id g')) N;
  step_ascending : ascending (map p_id N);
  step_ov : existsb overview_gauge N = ov;
  step_cursor : current_y g' = current_y g + tally N + (if ov then 6 else 0) + fixed
}.

(** The row separator [_add_row] appends in state [g]. *)
Definition row_panel (g : Gen) (title : string) : Panel :=
  {| p_id := panel_id g; p_title := title; p_type := "row"; p_datasource_uid := None;
     p_gridPos := {| pos_h := 1; pos_w := 24; pos_x := 0; pos_y := current_y g |};
     p_targets := []; p_decor := RowDecor |}.

(** *** The query formulas, letter by letter *)

(** The double quote around a label value. *)
Definition dq : string := String "034"%char EmptyString.

(** 100 minus the idle gauge:
    [100 - cpu_usage_idle{cpu=<dq>cpu-total<dq>,instance=<dq>I<dq>}]. *)
Definition spec_idle_gauge_formula (instance : string) : string :=
  "100 - cpu_usage_idle{cpu=" +:+ dq +:+ "cpu-total" +:+ dq +:+ ",instance=" +:+ dq
    +:+ instance +:+ dq +:+ "}".

(** The rate-based expression: 100 minus the mean idle rate over 5 minutes,
    in percent. *)
Definition spec_rate_formula (instance : string) : string :=
  "100 - (avg by(instance) (rate(node_cpu_seconds_total{mode=" +:+ dq +:+ "idle" +:+ dq
    +:+ ",instance=" +:+ dq +:+ instance +:+ dq +:+ "}[5m])) * 100)".

(** The mean of the performance-core and efficiency-core gauges. *)
Definition spec_core_mean_formula (instance : string) : string :=
  "(mac_pcpu_usage_percent{instance=" +:+ dq +:+ instance +:+ dq
    +:+ "} + mac_ecpu_usage_percent{instance=" +:+ dq +:+ instance +:+ dq +:+ "}) / 2".

(** Percent of memory used: 1 minus available over total, times 100. *)
Definition spec_percent_used_formula (instance : string) : string :=
  "(1 - (node_memory_MemAvailable_bytes{instance=" +:+ dq +:+ instance +:+ dq
    +:+ "} / node_memory_MemTotal_bytes{instance=" +:+ dq +:+ instance +:+ dq
    +:+ "})) * 100".

(** *** The CPU formula of one node, by priority *)

Definition spec_cpu_choice (instance : string) (node : NodeInfo) (ts : list Target) : Prop :=
  ("cpu_usage_idle" ∈ metrics node ->
     ts = [{| expr := spec_idle_gauge_formula instance;
              legendFormat := Some (hostname node +:+ " CPU"); format := None |}]) /\
  ("cpu_usage_idle" ∉ metrics node -> "node_cpu_seconds_total" ∈ metrics node ->
     ts = [{| expr := spec_rate_formula instance;
              legendFormat := Some (hostname node +:+ " CPU"); format := None |}]) /\
  ("cpu_usage_idle" ∉ metrics node -> "node_cpu_seconds_total" ∉ metrics node ->
   mac (hardware node) = true -> "mac_pcpu_usage_percent" ∈ metrics node ->
     ts = [{| expr := spec_core_mean_formula instance;
              legendFormat := Some (hostname node +:+ " Mac CPU"); format := None |}]) /\
  ("cpu_usage_idle" ∉ metrics node -> "node_cpu_seconds_total" ∉ metrics node ->
   (mac (hardware node) = false \/ "mac_pcpu_usage_percent" ∉ metrics node) ->
     ts = []).

(** *** Request bodies *)

(** The request carried the fields [data]: its body is that object, or it
    is a falsy value and [data] has no field. *)
Definition decoded {R} (empty : R) (request_json : Outcome (Body R)) (data : R) : Prop :=
  request_json = Return (Object data) \/ (request_json = Return Falsy /\ data = empty).

(** [request.json] raised [e], or yielded a value that has no [get], which
    raised [e]. *)
Definition undecodable {R} (request_json : Outcome (Body R)) (e : exn) : Prop :=
  request_json = Raise e \/ request_json = Return (NotObject e).

(** A switch of a request, as Python reads it: [dflt] when the field is
    absent; off when it is [false], [null], [0], a float equal to zero, or
    an empty string, list or object; on for every other value. *)
Definition spec_flag (dflt : bool) (field : option json) : bool :=
  match field with
  | None => dflt
  | Some (JBool false) | Some JNull | Some (JInt 0) | Some (JStr EmptyString)
  | Some (JList []) | Some (JDict []) => false
  | Some (JFloat x) => negb (PrimFloat.eqb x PrimFloat.zero)
  | Some _ => true
  end.

(** *** The keyword sets of the title filters *)

(** The keywords of the categories a request switches off. *)
Definition spec_removed_keywords (data : GenerateRequest) : list string :=
  (if spec_flag true (g_include_gpu data) then [] else ["GPU"; "Accelerator"])
  ++ (if spec_flag true (g_include_processes data) then [] else ["Process"])
  ++ (if spec_flag true (g_include_disk data) then [] else ["Disk"; "Storage"])
  ++ (if spec_flag true (g_include_network data) then [] else ["Network"]).

Definition spec_kept (data : GenerateRequest) (p : Panel) : bool :=
  negb (existsb (fun k => contains k (p_title p)) (spec_removed_keywords data)).

(** *** Discovery, builders and sections *)

(** What [_identify_nodes] stores for an instance: the key has a colon and is
    the node's ip, a colon and its port; the port has no colon; nothing was
    probed yet; the host name is a label that is not empty, or the ip. *)
Definition well_split (entry : string * NodeInfo) : Prop :=
  contains ":" (fst entry) = true
  /\ fst entry = ip (snd entry) +:+ ":" +:+ port (snd entry)
  /\ contains ":" (port (snd entry)) = false
  /\ metrics (snd entry) = ∅
  /\ hardware (snd entry) = no_hardware
  /\ (hostname (snd entry) = ip (snd entry) \/ hostname (snd entry) <> EmptyString).

(** The node map after identification: one entry per key, each split. *)
Definition identified (g : Gen) : Prop :=
  NoDup (map fst (nodes g)) /\ Forall well_split (nodes g).

(** Requests that are all instant queries to the generator's server. *)
Definition queries_only (g : Gen) (extra : Log) : Prop :=
  Forall (fun r => exists q, r = query_request g q) extra.

(** What [_detect_hardware] makes of an entry of the node map: same key,
    same host name, ip and port; the metrics found are catalogued ones and
    the flags are the table's for them. *)
Definition probed (catalog : gset string) (e e' : string * NodeInfo) : Prop :=
  fst e' = fst e
  /\ hostname (snd e') = hostname (snd e)
  /\ ip (snd e') = ip (snd e)
  /\ port (snd e') = port (snd e)
  /\ metrics (snd e') ⊆ catalog
  /\ hardware (snd e') = hardware_flags (metrics (snd e')).

(** Only the node map differs. *)
Definition same_but_nodes (g g' : Gen) : Prop :=
  prometheus_url g' = prometheus_url g /\ all_metrics g' = all_metrics g
  /\ panel_id g' = panel_id g /\ current_y g' = current_y g.

(** An entry of the node map as [discover_all] leaves it. *)
Definition consistent (catalog : gset string) (entry : string * NodeInfo) : Prop :=
  contains ":" (fst entry) = true
  /\ fst entry = ip (snd entry) +:+ ":" +:+ port (snd entry)
  /\ contains ":" (port (snd entry)) = false
  /\ metrics (snd entry) ⊆ catalog
  /\ hardware (snd entry) = hardware_flags (metrics (snd entry)).

(** The disk-usage target of a mount point of a node: 1 minus available
    over size, times 100, for that instance and mount point. *)
Definition usage_target (instance : string) (node : NodeInfo) (mount : string) : Target :=
  {| expr :=
       "(1 - node_filesystem_avail_bytes{instance=" +:+ dq +:+ instance +:+ dq
         +:+ ",mountpoint=" +:+ dq +:+ mount +:+ dq
         +:+ "} / node_filesystem_size_bytes{instance=" +:+ dq +:+ instance +:+ dq
         +:+ ",mountpoint=" +:+ dq +:+ mount +:+ dq +:+ "}) * 100";
     legendFormat := Some (hostname node +:+ " " +:+ mount);
     format := None |}.

(** The mount points the disk-usage panel shows. *)
Definition main_mounts : list string := ["/"; "/home"; "/var"; "/mnt"].

(** The two traffic targets of an interface of a node. *)
Definition traffic_targets (instance : string) (node : NodeInfo) (device : string)
  : list Target :=
  [{| expr := "rate(node_network_receive_bytes_total{instance=" +:+ dq +:+ instance
                +:+ dq +:+ ",device=" +:+ dq +:+ device +:+ dq +:+ "}[5m])";
      legendFormat := Some (hostname node +:+ " " +:+ device +:+ " RX");
      format := None |};
   {| expr := "rate(node_network_transmit_bytes_total{instance=" +:+ dq +:+ instance
                +:+ dq +:+ ",device=" +:+ dq +:+ device +:+ dq +:+ "}[5m])";
      legendFormat := Some (hostname node +:+ " " +:+ device +:+ " TX");
      format := None |}].

(** An interface the network panel may show. *)
Definition physical (device : string) : Prop :=
  device <> EmptyString
  /\ ~ StartsWith "lo" device /\ ~ StartsWith "docker" device /\ ~ StartsWith "veth" device.

(** A panel lies on the 24 columns of the grid. *)
Definition on_grid (p : Panel) : Prop :=
  0 <= pos_x (p_gridPos p) /\ 0 < pos_w (p_gridPos p)
  /\ pos_x (p_gridPos p) + pos_w (p_gridPos p) <= 24 /\ 0 < pos_h (p_gridPos p).

(** A row separator titled [title]: one line over the whole width, with no
    query and no datasource. *)
Definition separator (title : string) (p : Panel) : Prop :=
  is_row p = true /\ p_title p = title /\ p_targets p = [] /\ p_datasource_uid p = None
  /\ pos_x (p_gridPos p) = 0 /\ pos_w (p_gridPos p) = 24 /\ pos_h (p_gridPos p) = 1.

(** A content panel: it queries something, from the datasource [u]. *)
Definition content (u : option string) (p : Panel) : Prop :=
  is_row p = false /\ p_targets p <> [] /\ p_datasource_uid p = u /\ on_grid p.

(** A section: its separator, then content panels whose titles are taken,
    in order and at most once each, from the titles of the section. *)
Definition section_of (u : option string) (sec : string * list string) (N : list Panel)
  : Prop :=
  exists row body,
    N = row :: body /\ separator (fst sec) row /\ Forall (content u) body
    /\ sublist (map p_title body) (snd sec).

(** The sections: the title of the separator and the titles of the
    content panels, in the order of the document. *)
Definition overview_section : string * list string :=
  ("🎯 System Overview", ["🌡️ Temperatures"; "⚡ Power Usage"; "🧠 NPU Usage"]).
Definition gpu_section : string * list string :=
  ("🚀 GPU & Accelerators", ["GPU & Accelerator Utilization"]).
Definition cpu_section : string * list string :=
  ("💻 CPU & Memory", ["CPU Utilization"; "Memory Usage"]).
Definition storage_section : string * list string :=
  ("💾 Storage", ["💾 Disk I/O"; "📊 Disk Usage"]).
Definition network_section : string * list string :=
  ("🌐 Network", ["🌐 Network Traffic"]).
Definition process_section : string * list string :=
  ("📊 Processes", ["🔥 Top Processes"]).

(** [x] when [b] holds, nothing otherwise. *)
Definition optional {A} (b : bool) (x : A) : list A := if b then [x] else [].

(** The sections discovery calls for, in the order of the document. *)
Definition included_sections (g : Gen) : list (string * list string) :=
  [overview_section]
  ++ optional (_has_any_gpu g) gpu_section
  ++ [cpu_section]
  ++ optional (_has_disk_metrics g) storage_section
  ++ optional (_has_network_metrics g) network_section
  ++ optional (_has_process_metrics g) process_section.


(** What one method of the assembly appends. *)
Definition appended (allowed : list string) (d d' : Dashboard) (g g' : Gen) : Prop :=
  exists N, panels d' = panels d ++ N /\ Forall (content prometheus_uid) N
            /\ sublist (map p_title N) allowed /\ same_env g g'.


(** The metric-name prefixes by which [/validate] recognises an exporter. *)
Definition exporter_prefixes : list string :=
  ["node_"; "nvidia_"; "DCGM_"; "intel_npu_"; "mac_"].

(** The keys a node can switch on, each with the flag that does it. *)
Definition capability_switches : list (string * (Hardware -> bool)) :=
  [("has_processes", has_process); ("has_power", has_power);
   ("has_temperature", has_temp); ("has_mac", mac); ("has_intel_npu", intel_npu);
   ("has_intel", intel_gpu); ("has_nvidia", nvidia_gpu)].

(** [node] writes [True] under the key [k]. *)
Definition capability_written (k : string) (node : NodeInfo) : bool :=
  existsb (fun kf => snd kf (hardware node) && String.eqb k (fst kf)) capability_switches.

(** The memory formula of one node, by priority. *)
Definition spec_memory_choice (instance : string) (node : NodeInfo) (ts : list Target)
  : Prop :=
  ("node_memory_MemAvailable_bytes" ∈ metrics node ->
     ts = [{| expr := spec_percent_used_formula instance;
              legendFormat := Some (hostname node +:+ " Memory"); format := None |}]) /\
  ("node_memory_MemAvailable_bytes" ∉ metrics node -> "mem_used_percent" ∈ metrics node ->
     ts = [{| expr := "mem_used_percent{instance=" +:+ dq +:+ instance +:+ dq +:+ "}";
              legendFormat := Some (hostname node +:+ " Memory"); format := None |}]) /\
  ("node_memory_MemAvailable_bytes" ∉ metrics node -> "mem_used_percent" ∉ metrics node ->
     ts = []).

(** The read and write targets of a disk of a node. *)
Definition io_targets (instance : string) (node : NodeInfo) (disk : string) : list Target :=
  [{| expr := "rate(diskio_read_bytes{instance=" +:+ dq +:+ instance +:+ dq
                +:+ ",name=" +:+ dq +:+ disk +:+ dq +:+ "}[5m])";
      legendFormat := Some (hostname node +:+ " " +:+ disk +:+ " Read");
      format := None |};
   {| expr := "rate(diskio_write_bytes{instance=" +:+ dq +:+ instance +:+ dq
                +:+ ",name=" +:+ dq +:+ disk +:+ dq +:+ "}[5m])";
      legendFormat := Some (hostname node +:+ " " +:+ disk +:+ " Write");
      format := None |}].

(** ** Scenarios *)

(** The end-to-end scenario: a node exporter on [10.0.0.5:9100] that
    exposes CPU seconds and the two memory gauges, and nothing else. *)
Definition minimal_catalog : gset string :=
  {[ "node_cpu_seconds_total"; "node_memory_MemAvailable_bytes";
     "node_memory_MemTotal_bytes" ]}.

Definition minimal_state (host : string) : Gen :=
  {| prometheus_url := "http://localhost:9090";
     nodes := [("10.0.0.5:9100",
                {| hostname := host; ip := "10.0.0.5"; port := "9100";
                   metrics := minimal_catalog;
                   hardware := hardware_flags minimal_catalog |})];
     all_metrics := minimal_catalog;
     panel_id := 1;
     current_y := 0 |}.

Definition connection_refused : exn :=
  Exn "ConnectionError" "Connection refused" "Traceback (most recent call last)".

(** A network on which nothing answers. *)
Definition silent_net : Network :=
  {| label_values := fun _ _ => Raise connection_refused;
     instant_query := fun _ _ => Raise connection_refused;
     health_check := fun _ _ => Raise connection_refused;
     dashboards_db := fun _ _ => Raise connection_refused |}.

Definition ok_response {B} (b : B) : response B :=
  {| status_code := 200; text := "OK"; json_body := Return b |}.


(** The instance endpoint lists one [ip:port] target and one bare host name. *)
Definition two_instances_net : Network :=
  {| label_values := fun _ _ =>
       Return (ok_response {| lv_data := Some ["10.0.0.5:9100"; "localhost"] |});
     instant_query := fun _ _ => Raise connection_refused;
     health_check := fun _ _ => Raise connection_refused;
     dashboards_db := fun _ _ => Raise connection_refused |}.



(** The same two metric names, collected in two different orders. *)
Definition probe_a : gset string := {[ "nvidia_smi_temp"; "mac_cpu_power_watts" ]}.

Definition probe_b : gset string :=
  {[ "mac_cpu_power_watts" ]} ∪ {[ "mac_cpu_power_watts"; "nvidia_smi_temp" ]}.

(** A forced [/discover], and a later request for another server that
    leaves the cache in charge. *)
Definition forced_discover : DiscoverRequest :=
  {| dr_prometheus_url := None; dr_force_refresh := Some (JBool true) |}.

Definition plain_discover : DiscoverRequest :=
  {| dr_prometheus_url := Some "http://10.0.0.9:9090"; dr_force_refresh := None |}.

(** A server with one DCGM exporter: one metric name, one instance, and a
    series for every query. *)
Definition gpu_net : Network :=
  {| label_values := fun _ r =>
       if contains "__name__" (url r) then
         Return (ok_response {| lv_data := Some ["DCGM_FI_DEV_GPU_UTIL"] |})
       else Return (ok_response {| lv_data := Some ["10.0.0.7:9400"] |});
     instant_query := fun _ _ =>
       Return (ok_response
         {| q_status := Some "success";
            q_data := Some {| result :=
              Some [ {| metric := Some [("instance", "10.0.0.7:9400")] |} ] |} |});
     health_check := fun _ _ => Raise connection_refused;
     dashboards_db := fun _ _ => Raise connection_refused |}.

(** A [/generate] request that switches the GPU category off. *)
Definition no_gpu_request : GenerateRequest :=
  {| g_prometheus_url := None; g_dashboard_name := None;
     g_include_gpu := Some (JBool false);
     g_include_processes := None; g_include_disk := None; g_include_network := None;
     g_refresh_interval := None; g_uid := None; g_datasource_uid := None |}.

(** A node that exposes file systems, interfaces and disks, and a server
    whose every instant query lists the same two series. *)
Definition storage_catalog : gset string :=
  {[ "node_filesystem_size_bytes"; "node_network_receive_bytes_total";
     "diskio_read_bytes" ]}.

Definition storage_state : Gen :=
  {| prometheus_url := "http://localhost:9090";
     nodes := [("10.0.0.5:9100",
                {| hostname := "pve"; ip := "10.0.0.5"; port := "9100";
                   metrics := storage_catalog;
                   hardware := hardware_flags storage_catalog |})];
     all_metrics := storage_catalog;
     panel_id := 1;
     current_y := 0 |}.

Definition storage_net : Network :=
  {| label_values := fun _ _ => Raise connection_refused;
     instant_query := fun _ _ =>
       Return (ok_response
         {| q_status := Some "success";
            q_data := Some {| result :=
              Some [ {| metric := Some [("mountpoint", "/boot"); ("device", "lo");
                                        ("name", "loop0")] |};
                     {| metric := Some [("mountpoint", "/"); ("device", "eth0");
                                        ("name", "sda")] |} ] |} |});
     health_check := fun _ _ => Raise connection_refused;
     dashboards_db := fun _ _ => Raise connection_refused |}.

(** ** Strings and metric sets *)

Lemma append_assoc_r (a b c : string) : (a +:+ b) +:+ c = a +:+ (b +:+ c).
Proof.
  induction a as [|x a IH]; [reflexivity|].
  change (String x ((a +:+ b) +:+ c) = String x (a +:+ (b +:+ c))).
  rewrite IH. reflexivity.
Qed.

(** A formula the code builds is a formula written out. *)
Ltac formula :=
  cbv [target cpu_idle_expr cpu_rate_expr cpu_mac_expr mem_available_expr by_instance
       quoted quote dq spec_idle_gauge_formula spec_rate_formula spec_core_mean_formula
       spec_percent_used_formula usage_target traffic_targets io_targets];
  rewrite ?append_assoc_r; reflexivity.

Lemma prefix_StartsWith (pre s : string) :
  String.prefix pre s = true <-> StartsWith pre s.
Proof.
  revert s. induction pre as [|c pre IH]; intros s.
  - split; [intros _; now exists s | now destruct s].
  - destruct s as [|d s]; simpl.
    + split; [discriminate | intros [t Ht]; discriminate].
    + destruct (ascii_dec c d) as [->|Hne].
      * rewrite IH. split; intros [t Ht]; exists t.
        -- simpl. now rewrite Ht.
        -- simpl in Ht. now injection Ht.
      * split; [discriminate | intros [t Ht]; simpl in Ht; injection Ht as Hd _; now subst].
Qed.

Lemma contains_unfold (needle s : string) :
  contains needle s =
  String.prefix needle s
  || match s with EmptyString => false | String _ s' => contains needle s' end.
Proof. destruct s; reflexivity. Qed.

Lemma contains_Contains (needle s : string) :
  contains needle s = true <-> Contains needle s.
Proof.
  induction s as [|c s IH]; rewrite contains_unfold.
  - rewrite orb_false_r, prefix_StartsWith. split.
    + intros [t Ht]. exists EmptyString, t. exact Ht.
    + intros [a [b Hab]]. destruct a as [|? ?]; [|discriminate].
      exists b. exact Hab.
  - rewrite orb_true_iff, IH, prefix_StartsWith. split.
    + intros [[t Ht]|[a [b Hab]]].
      * exists EmptyString, t. exact Ht.
      * exists (String c a), b. simpl. now rewrite Hab.
    + intros [a [b Hab]]. destruct a as [|d a].
      * left. exists b. exact Hab.
      * right. simpl in Hab. injection Hab as -> Hs. now exists a, b.
Qed.

Lemma any_metric_spec (p : string -> bool) (s : gset string) :
  any_metric p s = true <-> exists m, m ∈ s /\ p m = true.
Proof.
  unfold any_metric. rewrite existsb_exists. split.
  - intros [m [Hin Hp]]. exists m. split; [|exact Hp].
    apply elem_of_elements. now apply list_elem_of_In.
  - intros [m [Hin Hp]]. exists m. split; [|exact Hp].
    apply list_elem_of_In. now apply elem_of_elements.
Qed.

Lemma mem_true (x : string) (s : gset string) : mem x s = true <-> x ∈ s.
Proof. unfold mem. apply bool_decide_eq_true. Qed.

Lemma mem_false (x : string) (s : gset string) : mem x s = false <-> x ∉ s.
Proof. unfold mem. apply bool_decide_eq_false. Qed.

(** C3. The capability flags derived from the metric names of an instance
    follow the table: [nvidia_gpu] iff some name starts with [nvidia_] or
    [DCGM_]; [intel_npu] iff [intel_npu_usage_percent] is in the set; [mac]
    iff some name starts with [mac_]; [has_temp] iff some name contains
    [temp]; [has_power] iff some name contains [power] or [watts]. The flags
    depend on the set of names alone: two sets with the same members give
    the same flags. *)
Theorem hardware_flags_table (ms ms' : gset string)
    (Hsame : forall m, m ∈ ms <-> m ∈ ms') :
  let hw := hardware_flags ms in
  (nvidia_gpu hw = true <->
     exists m, m ∈ ms /\ (StartsWith "nvidia_" m \/ StartsWith "DCGM_" m)) /\
  (intel_npu hw = true <-> "intel_npu_usage_percent" ∈ ms) /\
  (mac hw = true <-> exists m, m ∈ ms /\ StartsWith "mac_" m) /\
  (has_temp hw = true <-> exists m, m ∈ ms /\ Contains "temp" m) /\
  (has_power hw = true <->
     exists m, m ∈ ms /\ (Contains "power" m \/ Contains "watts" m)) /\
  hardware_flags ms' = hw.
Proof.
  simpl. repeat split.
  1-2: rewrite any_metric_spec.
  - intros [m [Hin Hp]]. exists m. split; [exact Hin|].
    unfold startswith_any in Hp. simpl in Hp. rewrite orb_false_r, orb_true_iff in Hp.
    unfold startswith in Hp. now rewrite !prefix_StartsWith in Hp.
  - intros [m [Hin Hp]]. exists m. split; [exact Hin|].
    unfold startswith_any. simpl. rewrite orb_false_r, orb_true_iff.
    unfold startswith. now rewrite !prefix_StartsWith.
  - apply mem_true.
  - apply mem_true.
  - rewrite any_metric_spec. intros [m [Hin Hp]]. exists m. split; [exact Hin|].
    now apply prefix_StartsWith.
  - rewrite any_metric_spec. intros [m [Hin Hp]]. exists m. split; [exact Hin|].
    now apply prefix_StartsWith.
  - rewrite any_metric_spec. intros [m [Hin Hp]]. exists m. split; [exact Hin|].
    now apply contains_Contains.
  - rewrite any_metric_spec. intros [m [Hin Hp]]. exists m. split; [exact Hin|].
    now apply contains_Contains.
  - rewrite any_metric_spec. intros [m [Hin Hp]]. exists m. split; [exact Hin|].
    rewrite orb_true_iff in Hp. now rewrite !contains_Contains in Hp.
  - rewrite any_metric_spec. intros [m [Hin Hp]]. exists m. split; [exact Hin|].
    rewrite orb_true_iff. now rewrite !contains_Contains.
  - assert (ms' = ms) as -> by (apply set_eq; intros m; symmetry; apply Hsame).
    reflexivity.
Qed.

Lemma hardware_flags_table_witness :
  hardware_flags probe_b = hardware_flags probe_a
  /\ (nvidia_gpu (hardware_flags probe_a) = true <->
        exists m, m ∈ probe_a /\ (StartsWith "nvidia_" m \/ StartsWith "DCGM_" m)).
Proof.
  assert (H : forall m, m ∈ probe_a <-> m ∈ probe_b).
  { assert (E : probe_b = probe_a) by (vm_compute; reflexivity).
    intros m. rewrite E. reflexivity. }
  pose proof (hardware_flags_table probe_a probe_b H) as T. simpl in T.
  split; apply T.
Defined.

(** ** Reasoning about methods *)

Section MethodLogic.
Context {S : Type}.

Lemma wp_ret {A} (a : A) (Q : A -> S -> Log -> Prop) s l : Q a s l -> wp (ret a) Q s l.
Proof. exact (fun H => H). Qed.

Lemma wp_bind {A B} (m : M S A) (f : A -> M S B) (Q : B -> S -> Log -> Prop) s l :
  wp m (fun a s' l' => wp (f a) Q s' l') s l -> wp (bind m f) Q s l.
Proof.
  unfold wp, bind. destruct (m s l) as [[[a|e] s'] l']; [exact (fun H => H) | tauto].
Qed.

Lemma wp_gets {A} (f : S -> A) (Q : A -> S -> Log -> Prop) s l :
  Q (f s) s l -> wp (gets f) Q s l.
Proof. exact (fun H => H). Qed.

Lemma wp_modify (f : S -> S) (Q : unit -> S -> Log -> Prop) s l :
  Q tt (f s) l -> wp (modify f) Q s l.
Proof. exact (fun H => H). Qed.

Lemma wp_reads {A} (m : M S A) (Q : A -> S -> Log -> Prop) s l :
  reads m -> (forall a l', Q a s l') -> wp m Q s l.
Proof.
  intros R H. unfold wp. destruct (R s l) as (a & l' & ->). apply H.
Qed.

Lemma wp_mono {A} (m : M S A) (Q Q' : A -> S -> Log -> Prop) s l :
  wp m Q s l -> (forall a s' l', Q a s' l' -> Q' a s' l') -> wp m Q' s l.
Proof.
  unfold wp. destruct (m s l) as [[[a|e] s'] l']; [|tauto]. intros H HQ. now apply HQ.
Qed.

Lemma wp_elim {A} (m : M S A) (Q : A -> S -> Log -> Prop) s l :
  wp m Q s l -> exists a s' l', m s l = (Return a, s', l') /\ Q a s' l'.
Proof.
  unfold wp. destruct (m s l) as [[[a|e] s'] l']; [|tauto]. intros H. eauto.
Qed.

Lemma reads_ret {A} (a : A) : reads (ret (S:=S) a).
Proof. intros s l. now exists a, l. Qed.

Lemma reads_gets {A} (f : S -> A) : reads (gets f).
Proof. intros s l. now exists (f s), l. Qed.

Lemma reads_bind {A B} (m : M S A) (f : A -> M S B) :
  reads m -> (forall a, reads (f a)) -> reads (bind m f).
Proof.
  intros Rm Rf s l. unfold bind. destruct (Rm s l) as (a & l' & ->). apply Rf.
Qed.

Lemma reads_fold_m {X A} (body : A -> X -> M S A) (xs : list X) :
  (forall acc x, reads (body acc x)) -> forall acc, reads (fold_m body xs acc).
Proof.
  intros Rb. induction xs as [|x xs IH]; intros acc; simpl.
  - apply reads_ret.
  - apply reads_bind; [apply Rb | exact IH].
Qed.

Lemma total_ret {A} (a : A) : total (ret (S:=S) a).
Proof. intros s l. now exists a, s, l. Qed.

Lemma total_bind {A B} (m : M S A) (f : A -> M S B) :
  total m -> (forall a, total (f a)) -> total (bind m f).
Proof.
  intros Tm Tf s l. unfold bind. destruct (Tm s l) as (a & s' & l' & ->). apply Tf.
Qed.

Lemma total_try_except {A} (body : M S A) (handler : exn -> M S A) :
  (forall e, total (handler e)) -> total (try_except body handler).
Proof.
  intros Th s l. unfold try_except.
  destruct (body s l) as [[[a|e] s'] l']; [eauto | apply Th].
Qed.

Lemma total_reads {A} (m : M S A) : reads m -> total m.
Proof. intros R s l. destruct (R s l) as (a & l' & ->). eauto. Qed.

Lemma total_modify (f : S -> S) : total (modify f).
Proof. intros s l. now exists tt, (f s), l. Qed.

Lemma total_for_each {X} (xs : list X) (body : X -> M S unit) :
  (forall x, total (body x)) -> total (for_each xs body).
Proof.
  intros Tb. induction xs as [|x xs IH]; simpl; [apply total_ret|].
  apply total_bind; [apply Tb | intros _; exact IH].
Qed.

Variable P : S -> Prop.

Lemma keeps_ret {A} (a : A) : keeps P (ret a).
Proof. intros s l H. exact H. Qed.

Lemma keeps_bind {A B} (m : M S A) (f : A -> M S B) :
  keeps P m -> (forall a, keeps P (f a)) -> keeps P (bind m f).
Proof.
  intros Km Kf s l H. specialize (Km s l H). unfold bind.
  destruct (m s l) as [[[a|e] s'] l']; [apply Kf, Km | exact Km].
Qed.

Lemma keeps_try_except {A} (body : M S A) (handler : exn -> M S A) :
  keeps P body -> (forall e, keeps P (handler e)) -> keeps P (try_except body handler).
Proof.
  intros Kb Kh s l H. specialize (Kb s l H). unfold try_except.
  destruct (body s l) as [[[a|e] s'] l']; [exact Kb | apply Kh, Kb].
Qed.

Lemma keeps_reads {A} (m : M S A) : reads m -> keeps P m.
Proof. intros R s l H. destruct (R s l) as (a & l' & E). now rewrite E. Qed.

Lemma keeps_send {B} (endpoint : Log -> Request -> Reply B) (r : Request) :
  keeps P (send endpoint r).
Proof. intros s l H. exact H. Qed.

Lemma keeps_lift {A} (o : Outcome A) : keeps P (lift o).
Proof. intros s l H. exact H. Qed.

Lemma keeps_raise {A} (e : exn) : keeps P (raise (A:=A) e).
Proof. intros s l H. exact H. Qed.

Lemma keeps_modify (f : S -> S) : (forall s, P s -> P (f s)) -> keeps P (modify f).
Proof. intros Hf s l H. apply Hf, H. Qed.

Lemma keeps_for_each {X} (xs : list X) (body : X -> M S unit) :
  (forall x, keeps P (body x)) -> keeps P (for_each xs body).
Proof.
  intros Kb. induction xs as [|x xs IH]; simpl; [apply keeps_ret|].
  apply keeps_bind; [apply Kb | intros _; exact IH].
Qed.

End MethodLogic.

(** ** The metric catalog client *)

Section CatalogClient.
Variable net : Network.

Lemma query_metric_failed (query : string) (g : Gen) (l : Log) :
  query_unsuccessful (instant_query net l (query_request g query)) ->
  _query_metric net query g l = (Return None, g, l ++ [query_request g query]).
Proof.
  intros H. unfold _query_metric, try_except, bind, gets, send, lift, ret.
  fold (query_request g query).
  destruct (instant_query net l (query_request g query)) as [resp|e]; [|reflexivity].
  destruct (Z.eqb_spec (status_code resp) 200) as [E|E]; [|reflexivity].
  destruct (json_body resp) as [body|e] eqn:B; [|reflexivity].
  case_bool_decide as D; [|reflexivity].
  exfalso. destruct H as [[H|[e H]]|(resp' & body' & R & B' & H)].
  - contradiction.
  - congruence.
  - injection R as <-. congruence.
Qed.

(** Whatever the server does, a query returns, leaves the generator as it
    was and has sent exactly one request. *)
Lemma query_metric_total (query : string) (g : Gen) (l : Log) :
  exists r, _query_metric net query g l = (Return r, g, l ++ [query_request g query]).
Proof.
  unfold _query_metric, try_except, bind, gets, send, lift, ret.
  fold (query_request g query).
  destruct (instant_query net l (query_request g query)) as [resp|e]; [|eauto].
  destruct (status_code resp =? 200); [|eauto].
  destruct (json_body resp) as [body|e]; [|eauto].
  case_bool_decide; eauto.
Qed.

Lemma reads_query_metric (query : string) : reads (_query_metric net query).
Proof. intros g l. destruct (query_metric_total query g l) as [r H]. eauto. Qed.

Lemma discover_metrics_failed (g : Gen) (l : Log) :
  upstream_failed (label_values net l (names_request g)) ->
  _discover_metrics net g l = (Return tt, g, l ++ [names_request g]).
Proof.
  intros H. unfold _discover_metrics, try_except, bind, gets, send, lift, ret, modify.
  fold (names_request g).
  destruct (label_values net l (names_request g)) as [resp|e]; [|reflexivity].
  destruct (Z.eqb_spec (status_code resp) 200) as [E|E]; [|reflexivity].
  destruct (json_body resp) as [body|e] eqn:B; [|reflexivity].
  exfalso. destruct H as [H|[e H]]; [contradiction | congruence].
Qed.

(** C4. When the upstream call of a query fails (the call raises, the
    status is not 200, decoding the body raises, or the envelope's status
    is not success), [_query_metric] returns [None] and raises nothing: the
    outcome is a returned value, the generator is unchanged and one request
    was sent. [None] is the result without samples: its callers test it as
    they test the empty list, and read no sample from it. Likewise a failed
    catalogue request makes [_discover_metrics] return with the generator
    unchanged, so that the catalogue of a fresh generator stays empty. *)
Theorem catalog_client_failures_are_empty (g : Gen) (l : Log) (query base : string) :
  (query_unsuccessful (instant_query net l (query_request g query)) ->
   _query_metric net query g l = (Return None, g, l ++ [query_request g query])
   /\ result_truthy None = result_truthy (Some [])
   /\ default [] (None : option (list Sample)) = [])
  /\ (upstream_failed (label_values net l (names_request g)) ->
      _discover_metrics net g l = (Return tt, g, l ++ [names_request g]))
  /\ (upstream_failed (label_values net l (names_request (__init__ base))) ->
      all_metrics (final_state (_discover_metrics net (__init__ base) l)) = ∅).
Proof.
  split; [|split].
  - intros H. split; [now apply query_metric_failed | split; reflexivity].
  - apply discover_metrics_failed.
  - intros H. rewrite (discover_metrics_failed _ _ H). reflexivity.
Qed.

(** X2. Whatever the server does, [_query_metric] raises nothing: it
    returns, leaves the generator as it was and has sent exactly one
    request, the instant query for its expression. *)
Theorem query_metric_never_raises (query : string) (g : Gen) (l : Log) :
  exists r, _query_metric net query g l = (Return r, g, l ++ [query_request g query]).
Proof. apply query_metric_total. Qed.

End CatalogClient.

Lemma catalog_client_failures_witness :
  _query_metric silent_net "up" (__init__ "http://localhost:9090") []
  = (Return None, __init__ "http://localhost:9090",
     [query_request (__init__ "http://localhost:9090") "up"])
  /\ all_metrics (final_state
       (_discover_metrics silent_net (__init__ "http://localhost:9090") [])) = ∅.
Proof.
  pose proof (catalog_client_failures_are_empty silent_net
                (__init__ "http://localhost:9090") [] "up" "http://localhost:9090") as T.
  split.
  - apply T. left. exact I.
  - apply T. exact I.
Defined.

(** ** Target builders *)

(** A loop body that only appends makes the loop a concatenation, one group
    of targets per node, in the order of the nodes. *)
Lemma over_nodes_concat (self : Gen)
    (body : list Target -> string -> NodeInfo -> list Target)
    (f : string -> NodeInfo -> list Target) :
  (forall targets instance node, body targets instance node = targets ++ f instance node) ->
  over_nodes self body = concat (map (fun entry => f (fst entry) (snd entry)) (nodes self)).
Proof.
  intros Hb. unfold over_nodes.
  enough (G : forall acc,
            foldl (fun targets entry => body targets (fst entry) (snd entry)) acc (nodes self)
            = acc ++ concat (map (fun entry => f (fst entry) (snd entry)) (nodes self)))
    by apply (G []).
  induction (nodes self) as [|e ns IH]; intros acc; simpl.
  - now rewrite app_nil_r.
  - rewrite IH, Hb, app_assoc. reflexivity.
Qed.

(** C5. The CPU target builder emits, for every node and in the order of
    the nodes, the one formula chosen by priority: 100 minus the idle gauge
    when the node has [cpu_usage_idle]; else the rate-based expression when
    it has [node_cpu_seconds_total]; else the mean of the performance-core
    and efficiency-core gauges when it is a mac with
    [mac_pcpu_usage_percent]; else nothing. *)
Theorem cpu_targets_by_priority (self : Gen) :
  exists groups : list (list Target),
    Forall2 (fun entry ts => spec_cpu_choice (fst entry) (snd entry) ts) (nodes self) groups
    /\ _build_cpu_targets self = concat groups.
Proof.
  set (f := fun (instance : string) (node : NodeInfo) =>
    if mem "cpu_usage_idle" (metrics node) then
      [target (cpu_idle_expr instance) (hostname node +:+ " CPU")]
    else if mem "node_cpu_seconds_total" (metrics node) then
      [target (cpu_rate_expr instance) (hostname node +:+ " CPU")]
    else if mac (hardware node) && mem "mac_pcpu_usage_percent" (metrics node) then
      [target (cpu_mac_expr instance) (hostname node +:+ " Mac CPU")]
    else []).
  exists (map (fun entry => f (fst entry) (snd entry)) (nodes self)). split.
  - induction (nodes self) as [|[instance node] ns IH]; simpl; constructor; [|exact IH].
    unfold spec_cpu_choice, f. simpl.
    destruct (mem "cpu_usage_idle" (metrics node)) eqn:Ei;
      [apply mem_true in Ei | apply mem_false in Ei];
    (destruct (mem "node_cpu_seconds_total" (metrics node)) eqn:Es;
      [apply mem_true in Es | apply mem_false in Es]);
    (destruct (mac (hardware node)) eqn:Em);
    (destruct (mem "mac_pcpu_usage_percent" (metrics node)) eqn:Ep;
      [apply mem_true in Ep | apply mem_false in Ep]);
    simpl; repeat split; intros; try reflexivity; try contradiction; try discriminate;
    try (destruct H1; [discriminate | contradiction]); formula.
  - unfold _build_cpu_targets. apply over_nodes_concat.
    intros targets instance node. unfold f.
    destruct (mem "cpu_usage_idle" _); [reflexivity|].
    destruct (mem "node_cpu_seconds_total" _); [reflexivity|].
    destruct (mac _ && mem _ _); [reflexivity | now rewrite app_nil_r].
Qed.

Section Builders.
Variable net : Network.

Lemma reads_over_nodes_m (body : list Target -> string -> NodeInfo -> M Gen (list Target)) :
  (forall targets instance node, reads (body targets instance node)) ->
  reads (over_nodes_m body).
Proof.
  intros Rb. unfold over_nodes_m. apply reads_bind; [apply reads_gets|].
  intros ns. apply reads_fold_m. intros acc x. apply Rb.
Qed.

Lemma reads_disk_io : reads (_build_disk_io_targets net).
Proof.
  apply reads_over_nodes_m. intros targets instance node.
  destruct (mem _ _); [|apply reads_ret].
  apply reads_bind; [apply reads_query_metric|]. intros r.
  destruct (result_truthy r); apply reads_ret.
Qed.

Lemma reads_disk_usage : reads (_build_disk_usage_targets net).
Proof.
  apply reads_bind; [|intros; apply reads_ret].
  apply reads_over_nodes_m. intros targets instance node.
  destruct (mem _ _); [|apply reads_ret].
  apply reads_bind; [apply reads_query_metric|]. intros r.
  destruct (result_truthy r); apply reads_ret.
Qed.

Lemma reads_network : reads (_build_network_targets net).
Proof.
  apply reads_over_nodes_m. intros targets instance node.
  destruct (mem _ _); [|apply reads_ret].
  apply reads_bind; [apply reads_query_metric|]. intros r.
  destruct (result_truthy r); [|apply reads_ret].
  destruct (first_interface _); apply reads_ret.
Qed.

End Builders.

(** ** Layout *)

Lemma same_env_refl (g : Gen) : same_env g g.
Proof. now repeat split. Qed.

Lemma same_env_trans (g1 g2 g3 : Gen) : same_env g1 g2 -> same_env g2 g3 -> same_env g1 g3.
Proof. intros (A & B & C) (D & E & F). repeat split; congruence. Qed.

Lemma tally_app (ps qs : list Panel) : tally (ps ++ qs) = tally ps + tally qs.
Proof. induction ps as [|p ps IH]; simpl; [reflexivity | rewrite IH; lia]. Qed.

Lemma band_widen (lo hi lo' hi' : Z) (p : Panel) :
  lo' <= lo -> hi <= hi' -> band lo hi p -> band lo' hi' p.
Proof. unfold band. lia. Qed.

(** Panels in successive bands of rows do not overlap. *)
Lemma band_apart (lo mid hi : Z) (p q : Panel) :
  band lo mid p -> band mid hi q -> ~ overlap (p_gridPos p) (p_gridPos q).
Proof. unfold band, overlap. lia. Qed.

Lemma disjoint_list_app (ps qs : list Panel) :
  disjoint_list ps -> disjoint_list qs ->
  (forall p q, In p ps -> In q qs -> ~ overlap (p_gridPos p) (p_gridPos q)) ->
  disjoint_list (ps ++ qs).
Proof.
  induction ps as [|p ps IH]; simpl; [tauto|].
  intros [Hp Hps] Hqs Hx. split.
  - apply Forall_app. split; [exact Hp|].
    apply Forall_forall. intros q Hq. apply Hx; [now left | now apply list_elem_of_In].
  - apply IH; [exact Hps | exact Hqs |]. intros a b Ha Hb. apply Hx; [now right | exact Hb].
Qed.

Lemma disjoint_list_no_overlap (ps : list Panel) : disjoint_list ps -> no_overlap ps.
Proof.
  induction ps as [|a ps IH]; intros D i j p q Hij Hi Hj.
  - discriminate.
  - destruct D as [Da Dps]. rewrite Forall_forall in Da.
    destruct i as [|i], j as [|j]; simpl in Hi, Hj.
    + congruence.
    + injection Hi as <-. apply Da. eapply list_elem_of_lookup_2. exact Hj.
    + injection Hj as <-. intros O. eapply Da.
      * eapply list_elem_of_lookup_2. exact Hi.
      * unfold overlap in *. tauto.
    + eapply (IH Dps i j); [congruence | exact Hi | exact Hj].
Qed.

Lemma ascending_app (xs ys : list Z) :
  ascending xs -> ascending ys ->
  (forall a b, In a xs -> In b ys -> a <= b) ->
  ascending (xs ++ ys).
Proof.
  induction xs as [|x xs IH]; simpl; [tauto|].
  intros [Hx Hxs] Hys Hc. split.
  - apply Forall_app. split; [exact Hx|].
    apply Forall_forall. intros b Hb. apply Hc; [now left | now apply list_elem_of_In].
  - apply IH; [exact Hxs | exact Hys |]. intros a b Ha Hb. apply Hc; [now right | exact Hb].
Qed.

Lemma ascending_never_decreasing (ids : list Z) : ascending ids -> never_decreasing ids.
Proof.
  induction ids as [|x ids IH]; intros A i j a b Hij Hi Hj.
  - discriminate.
  - destruct A as [Ax Aids]. rewrite Forall_forall in Ax.
    destruct i as [|i], j as [|j]; simpl in Hi, Hj; try lia.
    + injection Hi as <-. apply Ax. eapply list_elem_of_lookup_2. exact Hj.
    + eapply (IH Aids i j); [lia | exact Hi | exact Hj].
Qed.

Lemma step_nil (g : Gen) : Step g g [] 0 false.
Proof.
  constructor; simpl;
    [apply same_env_refl | lia | constructor | exact I | lia | constructor | exact I
    | reflexivity | lia].
Qed.

(** Two stretches in a row make one, provided the overview strip is in at
    most one of them. *)
Lemma step_app (g g1 g2 : Gen) (N1 N2 : list Panel) (f1 f2 : Z) (b1 b2 : bool) :
  Step g g1 N1 f1 b1 -> Step g1 g2 N2 f2 b2 -> b1 && b2 = false ->
  Step g g2 (N1 ++ N2) (f1 + f2) (b1 || b2).
Proof.
  intros [E1 M1 B1 D1 I1 J1 A1 O1 C1] [E2 M2 B2 D2 I2 J2 A2 O2 C2] Hb. constructor.
  - eapply same_env_trans; eassumption.
  - lia.
  - apply Forall_app. split.
    + eapply Forall_impl; [exact B1|]. intros p. apply band_widen; lia.
    + eapply Forall_impl; [exact B2|]. intros p. apply band_widen; lia.
  - apply disjoint_list_app; [exact D1 | exact D2 |].
    intros p q Hp Hq. eapply band_apart.
    + rewrite Forall_forall in B1. apply B1. now apply list_elem_of_In.
    + rewrite Forall_forall in B2. apply B2. now apply list_elem_of_In.
  - lia.
  - apply Forall_app. split.
    + eapply Forall_impl; [exact J1|]. unfold id_between. intros p. lia.
    + eapply Forall_impl; [exact J2|]. unfold id_between. intros p. lia.
  - rewrite map_app. apply ascending_app; [exact A1 | exact A2 |].
    intros a b Ha Hb'. apply in_map_iff in Ha, Hb'.
    destruct Ha as (p & <- & Hp), Hb' as (q & <- & Hq).
    rewrite Forall_forall in J1, J2.
    apply list_elem_of_In, J1 in Hp. apply list_elem_of_In, J2 in Hq.
    unfold id_between in *. lia.
  - rewrite existsb_app, O1, O2. reflexivity.
  - rewrite tally_app, C2, C1. destruct b1, b2; simpl in *; try discriminate; lia.
Qed.

(** Run a method symbolically, splitting on every test it makes. *)
Ltac wp_go :=
  repeat (cbv beta;
    match goal with
    | |- wp (bind _ _) _ _ _ => apply wp_bind
    | |- wp (ret _) _ _ _ => apply wp_ret
    | |- wp (gets _) _ _ _ => apply wp_gets
    | |- wp (modify _) _ _ _ => apply wp_modify
    | |- wp (_build_disk_io_targets _) _ _ _ =>
        apply wp_reads; [apply reads_disk_io | intros ? ?]
    | |- wp (_build_disk_usage_targets _) _ _ _ =>
        apply wp_reads; [apply reads_disk_usage | intros ? ?]
    | |- wp (_build_network_targets _) _ _ _ =>
        apply wp_reads; [apply reads_network | intros ? ?]
    | |- wp (if ?b then _ else _) _ _ _ => destruct b eqn:?
    end).

Ltac eval_tally :=
  repeat match goal with
  | |- context [tally ?N] =>
      let v := eval lazy in (tally N) in change (tally N) with v
  end.

(** The six facts of a [Step] for an explicit list of appended panels. *)
Ltac step_done :=
  constructor;
  cbn [current_y panel_id set_current_y set_panel_id prometheus_url nodes all_metrics];
  [ repeat split
  | lia
  | repeat constructor; unfold band; cbn; lia
  | cbn; repeat split; repeat constructor; unfold overlap; cbn; lia
  | lia
  | repeat constructor; unfold id_between; cbn; lia
  | cbn; repeat split; repeat constructor; cbn; lia
  | lazy; reflexivity
  | eval_tally; cbv iota; lia ].

Ltac section_done :=
  cbn [fst snd append_panel panels] in *;
  rewrite <- ?app_assoc; try discriminate;
  (eexists; split; [first [reflexivity | symmetry; apply app_nil_r]|]);
  cbn [app]; step_done.

Section Layout.
Variable net : Network.

Lemma add_row_step (title : string) (d : Dashboard) (g : Gen) (l : Log) :
  overview_gauge (row_panel g title) = false ->
  wp (_add_row d title)
     (fun d' g' _ =>
        panels d' = panels d ++ [row_panel g title]
        /\ Step g g' [row_panel g title] (1 - tally [row_panel g title]) false) g l.
Proof.
  intros Hov. unfold _add_row, bump_panel_id, advance_y. wp_go.
  split; [reflexivity|].
  constructor;
    cbn [current_y panel_id set_current_y set_panel_id prometheus_url nodes all_metrics].
  - repeat split.
  - lia.
  - repeat constructor; unfold band; cbn; lia.
  - cbn. repeat split; repeat constructor.
  - lia.
  - repeat constructor; unfold id_between; cbn; lia.
  - cbn. repeat split; repeat constructor.
  - cbn [existsb]. rewrite Hov. reflexivity.
  - lia.
Qed.

Lemma add_overview_step (d : Dashboard) (g : Gen) (l : Log) :
  wp (_add_overview_panels d)
     (fun d' g' _ => exists N b, panels d' = panels d ++ N /\ Step g g' N 0 b) g l.
Proof.
  unfold _add_overview_panels, _temperature_panel_template, _power_panel_template,
    bump_panel_id, advance_y.
  wp_go; cbn [fst snd append_panel panels] in *;
    rewrite <- ?app_assoc; try discriminate;
    (eexists; eexists; split; [first [reflexivity | symmetry; apply app_nil_r]|]).
  all: cbn [app]; step_done.
Qed.

Lemma add_gpu_step (d : Dashboard) (g : Gen) (l : Log) :
  wp (_add_gpu_panels d)
     (fun d' g' _ => exists N, panels d' = panels d ++ N /\ Step g g' N 0 false) g l.
Proof. unfold _add_gpu_panels, advance_y. wp_go; section_done. Qed.

Lemma add_cpu_memory_step (d : Dashboard) (g : Gen) (l : Log) :
  wp (_add_cpu_memory_panels d)
     (fun d' g' _ => exists N, panels d' = panels d ++ N /\ Step g g' N 11 false) g l.
Proof. unfold _add_cpu_memory_panels, advance_y. wp_go; section_done. Qed.

Lemma add_disk_step (d : Dashboard) (g : Gen) (l : Log) :
  wp (_add_disk_panels net d)
     (fun d' g' _ => exists N, panels d' = panels d ++ N /\ Step g g' N 11 false) g l.
Proof.
  unfold _add_disk_panels, _disk_panel_template, bump_panel_id, advance_y.
  wp_go; section_done.
Qed.

Lemma add_network_step (d : Dashboard) (g : Gen) (l : Log) :
  wp (_add_network_panels net d)
     (fun d' g' _ => exists N, panels d' = panels d ++ N /\ Step g g' N 0 false) g l.
Proof.
  unfold _add_network_panels, _network_panel_template, _disk_panel_template,
    bump_panel_id, advance_y.
  wp_go; section_done.
Qed.

Lemma add_process_step (d : Dashboard) (g : Gen) (l : Log) :
  wp (_add_process_panels d)
     (fun d' g' _ => exists N, panels d' = panels d ++ N /\ Step g g' N 0 false) g l.
Proof.
  unfold _add_process_panels, _process_panel_template, bump_panel_id, advance_y.
  cbn [list_truthy _build_process_targets]. wp_go; section_done.
Qed.

(** A row separator followed by its section, when the section is included. *)
Lemma titled_section_step (included : bool) (title : string) (fixed : Z)
    (body : Dashboard -> M Gen Dashboard) (d : Dashboard) (g : Gen) (l : Log) :
  (forall g0, overview_gauge (row_panel g0 title) = false) ->
  (forall g0, tally [row_panel g0 title] + fixed = 1) ->
  (forall d0 g0 l0,
     wp (body d0)
        (fun d' g' _ => exists N, panels d' = panels d0 ++ N
                         /\ Step g0 g' N (- fixed) false) g0 l0) ->
  wp (if included then bind (_add_row d title) body else ret d)
     (fun d' g' _ => exists N, panels d' = panels d ++ N /\ Step g g' N 0 false) g l.
Proof.
  intros Hov Htally Hbody. destruct included.
  - apply wp_bind. eapply wp_mono; [apply add_row_step, Hov|].
    cbv beta. intros d1 g1 l1 (P1 & S1).
    eapply wp_mono; [apply Hbody|].
    cbv beta. intros d2 g2 l2 (N2 & P2 & S2).
    exists ([row_panel g title] ++ N2). split; [rewrite P2, P1, <- app_assoc; reflexivity|].
    pose proof (step_app _ _ _ _ _ _ _ _ _ S1 S2 eq_refl) as S12.
    cbn [orb] in S12.
    replace (1 - tally [row_panel g title] + - fixed) with 0 in S12
      by (specialize (Htally g); lia).
    exact S12.
  - apply wp_ret. exists []. split; [now rewrite app_nil_r | apply step_nil].
Qed.

(** The whole assembly is one stretch: it returns, and its panels and
    cursor are related as [Step] says, with the 11 of CPU & Memory fixed. *)
Lemma build_smart_dashboard_step (g : Gen) (l : Log) :
  wp (_build_smart_dashboard net)
     (fun d g' _ => exists b, Step g g' (panels d) 11 b) g l.
Proof.
  unfold _build_smart_dashboard.
  apply wp_bind. eapply wp_mono; [apply add_row_step; reflexivity|].
  cbv beta. intros d1 g1 l1 (P1 & S1).
  apply wp_bind. eapply wp_mono; [apply add_overview_step|].
  cbv beta. intros d2 g2 l2 (N2 & b & P2 & S2).
  apply wp_bind, wp_gets, wp_bind.
  eapply wp_mono;
    [apply (titled_section_step _ _ 0 _add_gpu_panels);
     [reflexivity | reflexivity | intros; apply add_gpu_step]|].
  cbv beta. intros d3 g3 l3 (N3 & P3 & S3).
  apply wp_bind. eapply wp_mono; [apply add_row_step; reflexivity|].
  cbv beta. intros d4 g4 l4 (P4 & S4).
  apply wp_bind. eapply wp_mono; [apply add_cpu_memory_step|].
  cbv beta. intros d5 g5 l5 (N5 & P5 & S5).
  apply wp_bind, wp_gets, wp_bind.
  eapply wp_mono;
    [apply (titled_section_step _ _ (-11) (_add_disk_panels net));
     [reflexivity | reflexivity | intros; apply add_disk_step]|].
  cbv beta. intros d6 g6 l6 (N6 & P6 & S6).
  apply wp_bind, wp_gets, wp_bind.
  eapply wp_mono;
    [apply (titled_section_step _ _ 0 (_add_network_panels net));
     [reflexivity | reflexivity | intros; apply add_network_step]|].
  cbv beta. intros d7 g7 l7 (N7 & P7 & S7).
  apply wp_bind, wp_gets, wp_bind.
  eapply wp_mono;
    [apply (titled_section_step _ _ 0 _add_process_panels);
     [reflexivity | reflexivity | intros; apply add_process_step]|].
  cbv beta. intros d8 g8 l8 (N8 & P8 & S8).
  apply wp_ret. exists b.
  rewrite P8, P7, P6, P5, P4, P3, P2, P1. cbn [panels empty_dashboard].
  rewrite app_nil_l, <- !app_assoc.
  pose proof (step_app _ _ _ _ _ _ _ _ _ S1 S2 eq_refl) as T.
  pose proof (step_app _ _ _ _ _ _ _ _ _ T S3 (andb_false_r _)) as T3.
  pose proof (step_app _ _ _ _ _ _ _ _ _ T3 S4 (andb_false_r _)) as T4.
  pose proof (step_app _ _ _ _ _ _ _ _ _ T4 S5 (andb_false_r _)) as T5.
  pose proof (step_app _ _ _ _ _ _ _ _ _ T5 S6 (andb_false_r _)) as T6.
  pose proof (step_app _ _ _ _ _ _ _ _ _ T6 S7 (andb_false_r _)) as T7.
  pose proof (step_app _ _ _ _ _ _ _ _ _ T7 S8 (andb_false_r _)) as T8.
  rewrite !orb_false_r in T8. cbn [orb] in T8.
  match type of T8 with Step _ _ ?N ?f _ =>
    let v := eval lazy in f in change f with v in T8 end.
  rewrite <- !app_assoc in T8. exact T8.
Qed.

(** C2 (amended). Whatever was discovered and whatever the server answers
    during the assembly, [_build_smart_dashboard] returns a document in
    which no two panels have overlapping grid rectangles, and the cursor has
    advanced by [cursor_advance] of the document: 1 for each row separator,
    6 for the overview strip when it holds a gauge, 11 for the GPU panel
    when it was placed, 11 for CPU & Memory, 11 for Storage when it is
    included, 11 for the network panel and 13 for the process table when
    they were placed. *)
Theorem layout_disjoint_and_cursor (g : Gen) (l : Log) :
  exists d g' l',
    _build_smart_dashboard net g l = (Return d, g', l')
    /\ no_overlap (panels d)
    /\ current_y g' = current_y g + cursor_advance (panels d).
Proof.
  destruct (wp_elim _ _ _ _ (build_smart_dashboard_step g l))
    as (d & g' & l' & E & b & St).
  exists d, g', l'. split; [exact E|]. split.
  - apply disjoint_list_no_overlap, St.
  - unfold cursor_advance.
    rewrite (step_ov _ _ _ _ _ St), (step_cursor _ _ _ _ _ St). lia.
Qed.

(** X1. The ids of the assembled panels never decrease along the document,
    and each lies between the value of the id counter before the assembly
    and its value after. *)
Theorem panel_ids_never_decrease (g : Gen) (l : Log) :
  exists d g' l',
    _build_smart_dashboard net g l = (Return d, g', l')
    /\ never_decreasing (map p_id (panels d))
    /\ Forall (id_between (panel_id g) (panel_id g')) (panels d).
Proof.
  destruct (wp_elim _ _ _ _ (build_smart_dashboard_step g l))
    as (d & g' & l' & E & b & St).
  exists d, g', l'. split; [exact E|]. split.
  - apply ascending_never_decreasing, St.
  - apply St.
Qed.

(** C6. From the discovery state of the end-to-end scenario the assembly
    sends no request and produces exactly four panels, in this order: the
    System Overview row, with no overview gauge after it; the CPU & Memory
    row; the CPU panel with the rate-based formula; the memory panel with
    the percent-used formula. There is no GPU, Storage, Network or
    Processes row or panel. *)
Theorem minimal_dashboard (host : string) (l : Log) :
  exists d g',
    _build_smart_dashboard net (minimal_state host) l = (Return d, g', l)
    /\ panels d =
       [ {| p_id := 1; p_title := "🎯 System Overview"; p_type := "row";
            p_datasource_uid := None;
            p_gridPos := {| pos_h := 1; pos_w := 24; pos_x := 0; pos_y := 0 |};
            p_targets := []; p_decor := RowDecor |};
         {| p_id := 2; p_title := "💻 CPU & Memory"; p_type := "row";
            p_datasource_uid := None;
            p_gridPos := {| pos_h := 1; pos_w := 24; pos_x := 0; pos_y := 1 |};
            p_targets := []; p_decor := RowDecor |};
         {| p_id := 3; p_title := "CPU Utilization"; p_type := "timeseries";
            p_datasource_uid := Some "prometheus-uid";
            p_gridPos := {| pos_h := 10; pos_w := 12; pos_x := 0; pos_y := 2 |};
            p_targets :=
              [{| expr :=
                    "100 - (avg by(instance) (rate(node_cpu_seconds_total{mode="
                      +:+ dq +:+ "idle" +:+ dq +:+ ",instance=" +:+ dq
                      +:+ "10.0.0.5:9100" +:+ dq +:+ "}[5m])) * 100)";
                  legendFormat := Some (host +:+ " CPU"); format := None |}];
            p_decor := PercentSeries 30 |};
         {| p_id := 3; p_title := "Memory Usage"; p_type := "timeseries";
            p_datasource_uid := Some "prometheus-uid";
            p_gridPos := {| pos_h := 10; pos_w := 12; pos_x := 12; pos_y := 2 |};
            p_targets :=
              [{| expr :=
                    "(1 - (node_memory_MemAvailable_bytes{instance=" +:+ dq
                      +:+ "10.0.0.5:9100" +:+ dq
                      +:+ "} / node_memory_MemTotal_bytes{instance=" +:+ dq
                      +:+ "10.0.0.5:9100" +:+ dq +:+ "})) * 100";
                  legendFormat := Some (host +:+ " Memory"); format := None |}];
            p_decor := PercentSeries 30 |} ].
Proof. eexists _, _. split; vm_compute; reflexivity. Qed.

End Layout.

(** C2 (as stated). In the end-to-end scenario the Overview section is
    included and empty: the cursor ends at 13, while the fixed increments of
    the included sections add up to 19 with their rows, and to 17 without. *)
Lemma cursor_is_not_the_sum_of_section_increments :
  current_y (final_state (_build_smart_dashboard silent_net (minimal_state "10.0.0.5") []))
  = 13
  /\ current_y (minimal_state "10.0.0.5") + spec_cursor 1 (minimal_state "10.0.0.5") = 19
  /\ current_y (minimal_state "10.0.0.5") + spec_cursor 0 (minimal_state "10.0.0.5") = 17
  /\ current_y (final_state
       (_build_smart_dashboard silent_net (minimal_state "10.0.0.5") []))
     <> current_y (minimal_state "10.0.0.5") + spec_cursor 1 (minimal_state "10.0.0.5")
  /\ current_y (final_state
       (_build_smart_dashboard silent_net (minimal_state "10.0.0.5") []))
     <> current_y (minimal_state "10.0.0.5") + spec_cursor 0 (minimal_state "10.0.0.5").
Proof. repeat split; vm_compute; (reflexivity || discriminate). Qed.

(** C1 (failing input). In the end-to-end scenario the ids of the four
    panels are 1, 2, 3, 3: the CPU and the memory panel share an id, because
    [_cpu_panel_template] reads [panel_id] and does not advance it. *)
Lemma cpu_and_memory_panels_share_an_id :
  map p_id (panels (match outcome (_build_smart_dashboard silent_net
                                     (minimal_state "10.0.0.5") [])
                    with Return d => d | Raise _ => empty_dashboard end))
  = [1; 2; 3; 3]
  /\ ~ strictly_increasing [1; 2; 3; 3].
Proof.
  split; [vm_compute; reflexivity|].
  intros H. specialize (H 2%nat 3%nat 3 3). cbn in H.
  assert (3 < 3) by (apply H; [lia | reflexivity | reflexivity]). lia.
Qed.

(** ** Discovery *)

Lemma dict_get_set_ne {V} (k k' : string) (v : V) (d : dict V) :
  k <> k' -> dict_get k (dict_set k' v d) = dict_get k d.
Proof.
  intros Hne. induction d as [|[k0 v0] d IH]; simpl.
  - destruct (String.eqb_spec k k'); [contradiction | reflexivity].
  - destruct (String.eqb_spec k' k0) as [->|Hk0]; simpl.
    + destruct (String.eqb_spec k k0); [contradiction | reflexivity].
    + destruct (String.eqb_spec k k0); [reflexivity | exact IH].
Qed.

Section Discovery.
Variable net : Network.

Lemma reads_hostname_from (candidates : list string) (ip : string) :
  reads (hostname_from net candidates ip).
Proof.
  induction candidates as [|metric rest IH]; simpl; [apply reads_ret|].
  apply reads_bind; [apply reads_gets|]. intros known.
  destruct (mem metric known); [|exact IH].
  apply reads_bind; [apply reads_query_metric|]. intros r.
  destruct (result_truthy r); [|exact IH].
  destruct (first_hostname _); [apply reads_ret | exact IH].
Qed.

Lemma identify_colonless (instance : string) :
  contains ":" instance = false -> identify_instance net instance = ret tt.
Proof. intros H. unfold identify_instance. now rewrite H. Qed.

(** Identifying any instance leaves the entry of a colon-less key alone. *)
Lemma keeps_identify_instance (key : string) (v : option NodeInfo) (instance : string) :
  contains ":" key = false ->
  keeps (fun g => dict_get key (nodes g) = v) (identify_instance net instance).
Proof.
  intros Hkey. unfold identify_instance.
  destruct (contains ":" instance) eqn:Hc; [|apply keeps_ret].
  destruct (rsplit1 ":" instance) as [[ip port]|]; [|apply keeps_raise].
  apply keeps_bind; [apply keeps_reads, reads_hostname_from|]. intros found.
  apply keeps_modify. intros g Hg. cbn [nodes set_nodes].
  rewrite dict_get_set_ne; [exact Hg | congruence].
Qed.

(** C10. An instance string without a colon gets no node: whatever the
    instance endpoint answers, the node map of a fresh generator has no
    entry for it after [_identify_nodes], which in any generator leaves the
    entry of such a key as it was; and in the loop over the instances it is
    passed over, so that the run with it in the list ends in the same
    outcome, generator and request log as the run without it, and
    everything built from them afterwards is the same. *)
Theorem colonless_instance_is_skipped (instance base : string) (g : Gen) (l : Log)
    (before after : list string) :
  contains ":" instance = false ->
  dict_get instance (nodes (final_state (_identify_nodes net (__init__ base) l))) = None
  /\ dict_get instance (nodes (final_state (_identify_nodes net g l)))
     = dict_get instance (nodes g)
  /\ for_each (before ++ instance :: after) (identify_instance net) g l
     = for_each (before ++ after) (identify_instance net) g l.
Proof.
  intros Hc.
  assert (K : forall g0,
            dict_get instance (nodes (final_state (_identify_nodes net g0 l)))
            = dict_get instance (nodes g0)); [intros g0|split; [|split]].
  - apply (keeps_try_except
             (fun g' => dict_get instance (nodes g') = dict_get instance (nodes g0)));
      [|intros; apply keeps_ret | reflexivity].
    apply keeps_bind; [apply keeps_reads, reads_gets|]. intros base0.
    apply keeps_bind; [apply keeps_send|]. intros response.
    destruct (status_code response =? 200); [|apply keeps_ret].
    apply keeps_bind; [apply keeps_lift|]. intros body.
    apply keeps_for_each. intros x. now apply keeps_identify_instance.
  - rewrite K. reflexivity.
  - apply K.
  - clear K. revert g l. induction before as [|b before IH]; intros g l; simpl.
    + rewrite (identify_colonless _ Hc). reflexivity.
    + unfold bind. destruct (identify_instance net b g l) as [[[[]|e] g'] l'];
        [apply IH | reflexivity].
Qed.

Lemma total_discover_metrics : total (_discover_metrics net).
Proof. apply total_try_except. intros e. apply total_ret. Qed.

Lemma total_identify_nodes : total (_identify_nodes net).
Proof. apply total_try_except. intros e. apply total_ret. Qed.

Lemma total_detect_hardware : total (_detect_hardware net).
Proof.
  apply total_bind; [apply total_reads, reads_gets|]. intros ns.
  apply total_for_each. intros [instance node]. unfold detect_node.
  apply total_bind; [apply total_reads, reads_gets|]. intros known.
  apply total_bind; [|intros; apply total_modify].
  apply total_reads, reads_fold_m. intros acc metric.
  apply reads_bind; [apply reads_query_metric | intros; apply reads_ret].
Qed.

Lemma total_build_smart_dashboard : total (_build_smart_dashboard net).
Proof.
  intros g l.
  destruct (wp_elim _ _ _ _ (build_smart_dashboard_step net g l))
    as (d & g' & l' & E & _).
  eauto.
Qed.

(** On the replies of the embedding, discovery and assembly hand back a
    dashboard. *)
Lemma total_discover_all : total (discover_all net).
Proof.
  unfold discover_all.
  apply total_bind; [apply total_discover_metrics | intros _].
  apply total_bind; [apply total_identify_nodes | intros _].
  apply total_bind; [apply total_detect_hardware | intros _].
  apply total_build_smart_dashboard.
Qed.

End Discovery.

Lemma colonless_instance_witness :
  dict_get "localhost"
    (nodes (final_state
       (_identify_nodes two_instances_net (__init__ "http://localhost:9090") [])))
  = None
  /\ map fst (nodes (final_state
       (_identify_nodes two_instances_net (__init__ "http://localhost:9090") [])))
     = ["10.0.0.5:9100"].
Proof.
  split.
  - exact (proj1 (colonless_instance_is_skipped two_instances_net "localhost"
                    "http://localhost:9090" (__init__ "http://localhost:9090")
                    [] [] [] eq_refl)).
  - vm_compute. reflexivity.
Defined.

(** ** The facade *)

Lemma filter_filter {A} (f g : A -> bool) (l : list A) :
  List.filter f (List.filter g l) = List.filter (fun x => g x && f x) l.
Proof.
  induction l as [|a l IH]; simpl; [reflexivity|].
  destruct (g a); simpl; [destruct (f a); simpl; now rewrite IH | exact IH].
Qed.

Lemma filter_true {A} (l : list A) : List.filter (fun _ => true) l = l.
Proof. induction l as [|a l IH]; simpl; [reflexivity | now rewrite IH]. Qed.

Lemma filter_idem {A} (f : A -> bool) (l : list A) :
  List.filter f (List.filter f l) = List.filter f l.
Proof.
  rewrite filter_filter. apply filter_ext. intros a. now destruct (f a).
Qed.

(** A filter that is switched off keeps everything. *)
Lemma cond_filter {A} (inc : bool) (f : A -> bool) (l : list A) :
  (if negb inc then List.filter f l else l) = List.filter (fun x => inc || f x) l.
Proof. destruct inc; simpl; [now rewrite filter_true | reflexivity]. Qed.

(** The four filters in sequence are one filter on the keywords of the
    disabled categories. *)
Lemma truthy_default (dflt : bool) (field : option json) :
  truthy (default (JBool dflt) field) = spec_flag dflt field.
Proof.
  destruct field as [[|[]|[]| |[]|[]|[]]|]; reflexivity.
Qed.

Lemma filter_panels_spec (data : GenerateRequest) (ps : list Panel) :
  filter_panels (read_options data) ps = List.filter (spec_kept data) ps.
Proof.
  unfold filter_panels, read_options.
  cbn [include_gpu include_processes include_disk include_network].
  rewrite !truthy_default, !cond_filter, !filter_filter.
  apply filter_ext. intros p. unfold spec_kept, spec_removed_keywords.
  destruct (spec_flag true (g_include_gpu data)),
    (spec_flag true (g_include_processes data)),
    (spec_flag true (g_include_disk data)), (spec_flag true (g_include_network data));
    cbn [negb app existsb orb andb];
    repeat (destruct (contains _ (p_title p))); reflexivity.
Qed.

Lemma spec_kept_Contains (data : GenerateRequest) (p : Panel) :
  spec_kept data p = true <->
  forall k, In k (spec_removed_keywords data) -> ~ Contains k (p_title p).
Proof.
  unfold spec_kept. rewrite negb_true_iff. split.
  - intros H k Hk C. apply contains_Contains in C.
    assert (existsb (fun k => contains k (p_title p)) (spec_removed_keywords data) = true)
      by (apply existsb_exists; eauto).
    congruence.
  - intros H. destruct (existsb _ _) eqn:E; [|reflexivity].
    apply existsb_exists in E. destruct E as (k & Hk & C).
    apply contains_Contains in C. exfalso. eapply H; eassumption.
Qed.


Lemma check_exporters_grafana (ms : gset string) (v : Validation) :
  grafana (check_exporters ms v) = grafana v.
Proof.
  unfold check_exporters.
  repeat match goal with
         | |- context [if ?b then _ else _] => destruct b
         end; reflexivity.
Qed.

Section Facade.
Variable net : Network.
Variable str_json : json -> string.

(** When the body decodes and the generator returns a dashboard,
    [/generate] answers 200 with that dashboard, the options applied. *)
Lemma generate_served (request_json : Outcome (Body GenerateRequest))
    (data : GenerateRequest) (l : Log) (d : Dashboard) (g' : Gen) (l' : Log) :
  decoded no_generate_fields request_json data ->
  discover_all net
    (__init__ (default "http://localhost:9090" (g_prometheus_url data))) l
  = (Return d, g', l') ->
  generate net request_json tt l
  = (Return {| code := 200;
               body := Generated
                 {| go_status := "success";
                    go_dashboard := apply_options (read_options data) d;
                    go_panel_count :=
                      Z.of_nat (length (panels (apply_options (read_options data) d)));
                    go_options_applied := read_options data |} |}, tt, l').
Proof.
  intros [->|[-> ->]] E;
    unfold generate, request_data, try_except, bind, lift, on_object, ret;
    cbv beta iota; rewrite E; reflexivity.
Qed.

(** When [request.json] raises, or yields a value without [get], a
    handler answers from its [except] clause and has sent nothing. *)
Lemma undecodable_request {R B} (empty : R) (request_json : Outcome (Body R))
    (e : exn) (work : R -> M unit (Served B)) (wrap : ErrorBody -> B) (l : Log) :
  undecodable request_json e ->
  try_except (bind (request_data empty request_json) work)
             (fun e => ret (internal_error wrap e)) tt l
  = (Return (internal_error wrap e), tt, l).
Proof. intros [->| ->]; reflexivity. Qed.

(** C7. Whenever the generator returns a dashboard, [/generate] answers
    200 with the assembled panels (their datasource uid set) passed through
    the title filters of the request: it serves, in order, exactly the
    panels whose title contains no keyword of a category the request
    switches off (GPU, Accelerator for [include_gpu]; Process for
    [include_processes]; Disk, Storage for [include_disk]; Network for
    [include_network]). With [include_gpu] false and the other switches on,
    these are exactly the panels whose title contains neither GPU nor
    Accelerator. The same holds of the filters on any panel list, and
    filtering a filtered list again changes nothing. *)
Theorem generate_title_filter (data : GenerateRequest) (l : Log)
    (d : Dashboard) (g' : Gen) (l' : Log) (ps : list Panel) :
  discover_all net
    (__init__ (default "http://localhost:9090" (g_prometheus_url data))) l
  = (Return d, g', l') ->
  let assembled :=
    map (set_datasource_uid (default "prometheus-uid" (g_datasource_uid data)))
        (panels d) in
  let filtered := filter_panels (read_options data) in
  (exists served,
     generate net (Return (Object data)) tt l
     = (Return {| code := 200; body := Generated served |}, tt, l')
     /\ panels (go_dashboard served) = List.filter (spec_kept data) assembled
     /\ (forall p, In p (panels (go_dashboard served)) <->
           In p assembled
           /\ forall k, In k (spec_removed_keywords data) -> ~ Contains k (p_title p))
     /\ (g_include_gpu data = Some (JBool false) ->
         spec_flag true (g_include_processes data) = true ->
         spec_flag true (g_include_disk data) = true ->
         spec_flag true (g_include_network data) = true ->
         forall p, In p (panels (go_dashboard served)) <->
           In p assembled
           /\ ~ Contains "GPU" (p_title p) /\ ~ Contains "Accelerator" (p_title p))
     /\ filtered (panels (go_dashboard served)) = panels (go_dashboard served))
  /\ filtered ps = List.filter (spec_kept data) ps
  /\ (forall p, In p (filtered ps) <->
        In p ps /\ forall k, In k (spec_removed_keywords data) -> ~ Contains k (p_title p))
  /\ (g_include_gpu data = Some (JBool false) ->
      spec_flag true (g_include_processes data) = true ->
      spec_flag true (g_include_disk data) = true ->
      spec_flag true (g_include_network data) = true ->
      forall p, In p (filtered ps) <->
        In p ps /\ ~ Contains "GPU" (p_title p) /\ ~ Contains "Accelerator" (p_title p))
  /\ filtered (filtered ps) = filtered ps.
Proof.
  intros E assembled filtered.
  assert (Gpu : forall qs,
            g_include_gpu data = Some (JBool false) ->
            spec_flag true (g_include_processes data) = true ->
            spec_flag true (g_include_disk data) = true ->
            spec_flag true (g_include_network data) = true ->
            forall p, In p (filtered qs) <->
              In p qs /\ ~ Contains "GPU" (p_title p)
              /\ ~ Contains "Accelerator" (p_title p)).
  { intros qs Hg Hp Hd Hn p. unfold filtered.
    rewrite filter_panels_spec, filter_In, spec_kept_Contains.
    unfold spec_removed_keywords. rewrite Hg, Hp, Hd, Hn. cbn [spec_flag app].
    split; intros [Hin H]; (split; [exact Hin|]).
    - split; apply H; cbn; auto.
    - intros k [<-|[<-|[]]]; tauto. }
  assert (Served : panels (apply_options (read_options data) d) = filtered assembled)
    by reflexivity.
  split; [|split; [|split; [|split]]].
  - eexists. split; [apply (generate_served (Return (Object data)) data l d g' l');
                      [left; reflexivity | exact E]|].
    cbn [go_dashboard]. rewrite Served.
    split; [apply filter_panels_spec|]. split; [|split].
    + intros p. unfold filtered.
      rewrite filter_panels_spec, filter_In, spec_kept_Contains. reflexivity.
    + apply Gpu.
    + unfold filtered. rewrite !filter_panels_spec. apply filter_idem.
  - apply filter_panels_spec.
  - intros p. unfold filtered.
    rewrite filter_panels_spec, filter_In, spec_kept_Contains. reflexivity.
  - apply Gpu.
  - unfold filtered. rewrite !filter_panels_spec. apply filter_idem.
Qed.



End Facade.



Lemma generate_title_filter_witness :
  exists d g' l' served,
    discover_all gpu_net (__init__ "http://localhost:9090") [] = (Return d, g', l')
    /\ map p_title (panels d)
       = ["🎯 System Overview"; "🚀 GPU & Accelerators"; "GPU & Accelerator Utilization";
          "💻 CPU & Memory"]
    /\ generate gpu_net (Return (Object no_gpu_request)) tt []
       = (Return {| code := 200; body := Generated served |}, tt, l')
    /\ map p_title (panels (go_dashboard served))
       = ["🎯 System Overview"; "💻 CPU & Memory"].
Proof.
  eassert (E : discover_all gpu_net (__init__ "http://localhost:9090") []
               = (Return _, _, _)) by (vm_compute; reflexivity).
  destruct (proj1 (generate_title_filter gpu_net no_gpu_request [] _ _ _ [] E))
    as (served & G & F & _).
  do 3 eexists. exists served. split; [exact E|].
  split; [vm_compute; reflexivity|]. split; [exact G|].
  rewrite F. vm_compute. reflexivity.
Defined.


(** ** Identification of the nodes *)

Lemma contains_char_cons (c x : ascii) (s : string) :
  contains (String c EmptyString) (String x s)
  = if Ascii.eqb x c then true else contains (String c EmptyString) s.
Proof.
  rewrite contains_unfold. simpl.
  destruct (ascii_dec c x) as [->|Hne].
  - rewrite Ascii.eqb_refl. now destruct s.
  - destruct (Ascii.eqb_spec x c) as [->|_]; [contradiction | reflexivity].
Qed.

Lemma rsplit1_none (c : ascii) (s : string) :
  rsplit1 c s = None <-> contains (String c EmptyString) s = false.
Proof.
  induction s as [|x s IH]; [simpl; tauto|].
  rewrite contains_char_cons. simpl.
  destruct (rsplit1 c s) as [[a b]|].
  - split; [discriminate|]. destruct (Ascii.eqb x c); [discriminate|].
    intros H. apply IH in H. discriminate.
  - destruct (Ascii.eqb x c); [split; discriminate|].
    split; intros _; [now apply IH | reflexivity].
Qed.

Lemma rsplit1_spec (c : ascii) (s a b : string) :
  rsplit1 c s = Some (a, b) ->
  s = a +:+ String c b /\ contains (String c EmptyString) b = false.
Proof.
  revert a b. induction s as [|x s IH]; intros a b; simpl; [discriminate|].
  destruct (rsplit1 c s) as [[a' b']|] eqn:E.
  - intros H. injection H as <- <-. destruct (IH a' b' eq_refl) as [-> Hb].
    split; [reflexivity | exact Hb].
  - destruct (Ascii.eqb_spec x c) as [->|Hne]; [|discriminate].
    intros H. injection H as <- <-. split; [reflexivity|].
    now apply rsplit1_none.
Qed.

Lemma dict_get_set_eq {V} (k : string) (v : V) (d : dict V) :
  dict_get k (dict_set k v d) = Some v.
Proof.
  induction d as [|[k0 v0] d IH]; simpl.
  - now rewrite String.eqb_refl.
  - destruct (String.eqb_spec k k0) as [->|Hne]; simpl.
    + now rewrite String.eqb_refl.
    + destruct (String.eqb_spec k k0); [contradiction | exact IH].
Qed.

Lemma dict_set_keys_in {V} (k : string) (v : V) (d : dict V) :
  In k (map fst d) -> map fst (dict_set k v d) = map fst d.
Proof.
  induction d as [|[k0 v0] d IH]; simpl; [tauto|].
  destruct (String.eqb_spec k k0) as [->|Hne]; simpl; [reflexivity|].
  intros [H|H]; [congruence | now rewrite IH].
Qed.

Lemma dict_set_keys_notin {V} (k : string) (v : V) (d : dict V) :
  ~ In k (map fst d) -> map fst (dict_set k v d) = map fst d ++ [k].
Proof.
  induction d as [|[k0 v0] d IH]; simpl; [reflexivity|].
  intros H. destruct (String.eqb_spec k k0) as [->|Hne]; [tauto|].
  simpl. rewrite IH; tauto.
Qed.

Lemma dict_set_NoDup {V} (k : string) (v : V) (d : dict V) :
  NoDup (map fst d) -> NoDup (map fst (dict_set k v d)).
Proof.
  intros H. destruct (in_dec string_dec k (map fst d)) as [Hin|Hin].
  - now rewrite dict_set_keys_in.
  - rewrite dict_set_keys_notin by exact Hin.
    apply NoDup_app. split; [exact H|]. split.
    + intros x Hx Hk. apply list_elem_of_In in Hx. apply list_elem_of_In in Hk.
      destruct Hk as [<-|[]]. contradiction.
    + apply NoDup_singleton.
Qed.

Lemma dict_set_Forall {V} (P : string * V -> Prop) (k : string) (v : V) (d : dict V) :
  P (k, v) -> Forall P d -> Forall P (dict_set k v d).
Proof.
  intros Hk. induction d as [|[k0 v0] d IH]; simpl; intros H.
  - constructor; [exact Hk | constructor].
  - apply Forall_cons in H. destruct H as [H0 H].
    destruct (String.eqb k k0); constructor; auto.
Qed.

Section Identification.
Variable net : Network.

Lemma keeps_identified_instance (instance : string) :
  keeps identified (identify_instance net instance).
Proof.
  unfold identify_instance.
  destruct (contains ":" instance) eqn:Hc; [|apply keeps_ret].
  destruct (rsplit1 ":" instance) as [[i p]|] eqn:Hs; [|apply keeps_raise].
  apply rsplit1_spec in Hs. destruct Hs as [Hs Hp].
  apply keeps_bind; [apply keeps_reads, reads_hostname_from|]. intros found.
  apply keeps_modify. intros g [Hnd Hall]. split; cbn [nodes set_nodes].
  - now apply dict_set_NoDup.
  - apply dict_set_Forall; [|exact Hall].
    unfold well_split. cbn [fst snd ip port metrics hardware hostname].
    repeat split; try assumption.
    destruct found as [v|]; [|now left].
    destruct v as [|c v]; cbn [str_truthy]; [now left | right; discriminate].
Qed.

Lemma keeps_identify_nodes (P : Gen -> Prop) :
  (forall instance, keeps P (identify_instance net instance)) ->
  keeps P (_identify_nodes net).
Proof.
  intros K. apply keeps_try_except; [|intros; apply keeps_ret].
  apply keeps_bind; [apply keeps_reads, reads_gets|]. intros base.
  apply keeps_bind; [apply keeps_send|]. intros response.
  destruct (status_code response =? 200); [|apply keeps_ret].
  apply keeps_bind; [apply keeps_lift|]. intros body.
  apply keeps_for_each. exact K.
Qed.


Lemma hostname_from_requests (candidates : list string) (ip : string) (g : Gen) (l : Log) :
  exists r extra,
    hostname_from net candidates ip g l = (Return r, g, l ++ extra)
    /\ (length extra <= length candidates)%nat
    /\ queries_only g extra
    /\ (Forall (fun m => mem m (all_metrics g) = false) candidates ->
        r = None /\ extra = []).
Proof.
  revert l. induction candidates as [|metric rest IH]; intros l.
  - exists None, []. rewrite app_nil_r. repeat split; [simpl; lia | constructor].
  - cbn [hostname_from]. unfold bind at 1, gets at 1.
    destruct (mem metric (all_metrics g)) eqn:Em.
    + unfold bind at 1.
      destruct (query_metric_total net
                  (metric +:+ "{instance=~" +:+ quoted (".*" +:+ ip +:+ ".*") +:+ "}") g l)
        as [r1 ->].
      set (q := query_request g _).
      assert (Again : exists r extra,
                hostname_from net rest ip g (l ++ [q]) = (Return r, g, l ++ extra)
                /\ (length extra <= length (metric :: rest))%nat
                /\ queries_only g extra
                /\ (Forall (fun m => mem m (all_metrics g) = false) (metric :: rest) ->
                    r = None /\ extra = [])).
      { destruct (IH (l ++ [q])) as (r & extra & E & Hlen & Hq & _).
        exists r, ([q] ++ extra). rewrite app_assoc. split; [exact E|].
        split; [simpl; lia|]. split.
        - apply Forall_app. split; [|exact Hq]. repeat constructor. unfold q. eauto.
        - intros F. apply Forall_cons in F. destruct F as [F _]. congruence. }
      destruct (result_truthy r1); [|exact Again].
      destruct (first_hostname (default [] r1)) as [v|]; [|exact Again].
      exists (Some v), [q]. split; [reflexivity|]. split; [simpl; lia|]. split.
      * repeat constructor. unfold q. eauto.
      * intros F. apply Forall_cons in F. destruct F as [F _]. congruence.
    + destruct (IH l) as (r & extra & E & Hlen & Hq & Hnone).
      exists r, extra. split; [exact E|]. split; [simpl; lia|]. split; [exact Hq|].
      intros F. apply Forall_cons in F. destruct F as [_ F]. now apply Hnone.
Qed.

(** X4. [_get_hostname_for_ip] leaves the generator as it is and sends at
    most two requests, all of them instant queries to the generator's
    server; when the catalogue has neither [node_uname_info] nor [host] it
    sends nothing and returns no name. *)
Theorem hostname_lookup_requests (ip : string) (g : Gen) (l : Log) :
  let run := _get_hostname_for_ip net ip g l in
  final_state run = g
  /\ (exists extra,
        final_log run = l ++ extra /\ (length extra <= 2)%nat /\ queries_only g extra)
  /\ ("node_uname_info" ∉ all_metrics g -> "host" ∉ all_metrics g ->
      run = (Return None, g, l)).
Proof.
  intros run. subst run.
  destruct (hostname_from_requests ["node_uname_info"; "host"] ip g l)
    as (r & extra & E & Hlen & Hq & Hnone).
  unfold _get_hostname_for_ip. rewrite E. unfold final_state, final_log. cbn [fst snd].
  split; [reflexivity|]. split; [exists extra; auto|].
  intros H1 H2. destruct Hnone as [-> ->].
  - repeat constructor; now apply mem_false.
  - now rewrite app_nil_r.
Qed.
End Identification.

(** ** Detection of the hardware *)

Lemma queries_only_app g a b : queries_only g a -> queries_only g b -> queries_only g (a ++ b).
Proof. intros A B. apply Forall_app. now split. Qed.


Lemma dict_set_middle {V} (k : string) (v v0 : V) (done rest : dict V) :
  ~ In k (map fst done) ->
  dict_set k v (done ++ (k, v0) :: rest) = done ++ (k, v) :: rest.
Proof.
  induction done as [|[k1 v1] done IH]; simpl; intros H.
  - now rewrite String.eqb_refl.
  - destruct (String.eqb_spec k k1) as [->|Hne]; [tauto|]. rewrite IH; tauto.
Qed.

Section Detection.
Variable net : Network.

Lemma probe_fold (instance : string) (xs : list string) (acc : gset string)
    (g : Gen) (l : Log) :
  exists acc' extra,
    fold_m (fun (acc : gset string) metric =>
              bind (_query_metric net (metric +:+ "{instance=" +:+ quoted instance +:+ "}"))
                   (fun r => ret (if result_truthy r then acc ∪ {[metric]} else acc)))
           xs acc g l
    = (Return acc', g, l ++ extra)
    /\ length extra = length xs
    /\ queries_only g extra
    /\ acc' ⊆ acc ∪ list_to_set xs.
Proof.
  revert acc l. induction xs as [|x xs IH]; intros acc l.
  - exists acc, []. rewrite app_nil_r. repeat split; [constructor|].
    apply union_subseteq_l.
  - cbn [fold_m]. unfold bind at 1. unfold bind at 1.
    destruct (query_metric_total net (x +:+ "{instance=" +:+ quoted instance +:+ "}") g l)
      as [r ->].
    unfold ret at 1.
    destruct (IH (if result_truthy r then acc ∪ {[x]} else acc)
                (l ++ [query_request g (x +:+ "{instance=" +:+ quoted instance +:+ "}")]))
      as (acc' & extra & E & Hlen & Hq & Hsub).
    exists acc', ([query_request g (x +:+ "{instance=" +:+ quoted instance +:+ "}")] ++ extra).
    rewrite app_assoc. split; [exact E|]. split; [simpl; lia|]. split.
    + apply queries_only_app; [|exact Hq]. repeat constructor. eauto.
    + intros m Hm. apply Hsub in Hm. cbn [list_to_set foldr].
      rewrite !elem_of_union in *. rewrite elem_of_singleton.
      destruct (result_truthy r); [rewrite elem_of_union, elem_of_singleton in Hm|]; tauto.
Qed.

Lemma detect_node_spec (instance : string) (node : NodeInfo) (g : Gen) (l : Log) :
  exists ms extra,
    detect_node net (instance, node) g l
    = (Return tt,
       set_nodes (dict_set instance
                    {| hostname := hostname node; ip := ip node; port := port node;
                       metrics := ms; hardware := hardware_flags ms |}
                    (nodes g)) g,
       l ++ extra)
    /\ length extra = size (all_metrics g)
    /\ queries_only g extra
    /\ ms ⊆ all_metrics g.
Proof.
  unfold detect_node. unfold bind at 1, gets at 1. unfold bind at 1.
  destruct (probe_fold instance (elements (all_metrics g)) ∅ g l)
    as (ms & extra & -> & Hlen & Hq & Hsub).
  exists ms, extra. split; [reflexivity|]. split; [exact Hlen|]. split; [exact Hq|].
  intros m Hm. apply Hsub in Hm. rewrite elem_of_union, elem_of_list_to_set in Hm.
  destruct Hm as [Hm|Hm]; [now apply not_elem_of_empty in Hm | now apply elem_of_elements].
Qed.

Lemma detect_loop (todo done : dict NodeInfo) (g : Gen) (l : Log) :
  nodes g = done ++ todo ->
  NoDup (map fst (done ++ todo)) ->
  exists todo' g' extra,
    for_each todo (detect_node net) g l = (Return tt, g', l ++ extra)
    /\ nodes g' = done ++ todo'
    /\ Forall2 (probed (all_metrics g)) todo todo'
    /\ same_but_nodes g g'.
Proof.
  revert done g l. induction todo as [|[k n] rest IH]; intros done g l Hn Hnd.
  - exists [], g, []. rewrite !app_nil_r in *. repeat split; [exact Hn | constructor].
  - cbn [for_each]. unfold bind.
    destruct (detect_node_spec k n g l) as (ms & extra & -> & Hlen & Hq & Hsub).
    set (n1 := {| hostname := hostname n; ip := ip n; port := port n;
                  metrics := ms; hardware := hardware_flags ms |}).
    assert (Hk : ~ In k (map fst done)).
    { rewrite map_app in Hnd. apply NoDup_app in Hnd. destruct Hnd as (_ & Hx & _).
      intros Hin. apply (Hx k); [now apply list_elem_of_In | simpl; left]. }
    rewrite Hn, dict_set_middle by exact Hk.
    destruct (IH (done ++ [(k, n1)]) (set_nodes (done ++ (k, n1) :: rest) g) (l ++ extra))
      as (todo' & g' & extra' & E & Hn' & HF & Hs).
    { cbn [nodes set_nodes]. now rewrite <- app_assoc. }
    { rewrite <- app_assoc. simpl. rewrite !map_app in *. exact Hnd. }
    exists ((k, n1) :: todo'), g', (extra ++ extra'). rewrite app_assoc.
    split; [exact E|]. split; [rewrite Hn', <- app_assoc; reflexivity|]. split.
    + constructor; [|exact HF]. unfold probed. cbn. repeat split. exact Hsub.
    + destruct Hs as (A & B & C & D). repeat split; assumption.
Qed.



Lemma detect_hardware_nodes (g : Gen) (l : Log) :
  NoDup (map fst (nodes g)) ->
  exists g' l',
    _detect_hardware net g l = (Return tt, g', l')
    /\ Forall2 (probed (all_metrics g)) (nodes g) (nodes g')
    /\ same_but_nodes g g'.
Proof.
  intros Hnd. unfold _detect_hardware, bind, gets.
  destruct (detect_loop (nodes g) [] g l eq_refl Hnd) as (todo' & g' & extra & E & Hn & HF & Hs).
  exists g', (l ++ extra). split; [exact E|]. split; [now rewrite Hn | exact Hs].
Qed.

(** X6. When the keys of the node map are distinct (as in a Python
    dictionary), [_detect_hardware] keeps the entries in their order and
    each entry's key, host name, ip and port; the metrics it records for a
    node are catalogued names, and the node's flags are the capability
    table applied to exactly those metrics. *)
Theorem detect_hardware_probes_every_node (g : Gen) (l : Log) :
  NoDup (map fst (nodes g)) ->
  exists g' l',
    _detect_hardware net g l = (Return tt, g', l')
    /\ Forall2 (probed (all_metrics g)) (nodes g) (nodes g')
    /\ same_but_nodes g g'.
Proof.
  intros Hnd. unfold _detect_hardware, bind, gets.
  destruct (detect_loop (nodes g) [] g l eq_refl Hnd) as (todo' & g' & extra & E & Hn & HF & Hs).
  exists g', (l ++ extra). split; [exact E|]. split; [now rewrite Hn | exact Hs].
Qed.

End Detection.

(** ** Loops over the nodes, and the state discovery ends in *)

Section DiscoveryState.
Variable net : Network.

(** A loop over the nodes whose every turn appends a group of targets, each
    group being one of [groups entry], appends such groups in node order. *)
Lemma over_nodes_m_groups (G : string * NodeInfo -> list Target -> Prop)
    (body : list Target -> string -> NodeInfo -> M Gen (list Target)) :
  (forall targets instance node g l,
     exists new l', body targets instance node g l = (Return (targets ++ new), g, l')
                    /\ G (instance, node) new) ->
  forall g l,
    exists groups l',
      over_nodes_m body g l = (Return (concat groups), g, l')
      /\ Forall2 G (nodes g) groups.
Proof.
  intros Hb g l. unfold over_nodes_m, bind, gets.
  enough (H : forall ns acc l, exists groups l',
            fold_m (fun targets entry => body targets (fst entry) (snd entry)) ns acc g l
            = (Return (acc ++ concat groups), g, l') /\ Forall2 G ns groups)
    by apply (H (nodes g) [] l).
  clear l. induction ns as [|[instance node] ns IH]; intros acc l.
  - exists [], l. simpl. rewrite app_nil_r. split; [reflexivity | constructor].
  - cbn [fold_m fst snd]. unfold bind.
    destruct (Hb acc instance node g l) as (new & l1 & -> & HG).
    destruct (IH (acc ++ new) l1) as (groups & l' & E & HF).
    exists (new :: groups), l'. simpl. rewrite app_assoc. split; [exact E|].
    constructor; assumption.
Qed.

Lemma disk_usage_item_spec (instance : string) (node : NodeInfo) (item : Sample) :
  disk_usage_item instance node item = []
  \/ exists mount, In mount main_mounts
       /\ disk_usage_item instance node item = [usage_target instance node mount].
Proof.
  unfold disk_usage_item.
  destruct (str_truthy (label item "mountpoint")); [|now left]. cbn [andb].
  destruct (existsb _ _) eqn:E; [|now left].
  right. exists (label item "mountpoint"). split; [|formula].
  apply existsb_exists in E. destruct E as (m & Hin & Heq).
  apply String.eqb_eq in Heq. now subst.
Qed.

Lemma build_disk_usage_targets_run (g : Gen) (l : Log) :
  exists targets l',
    _build_disk_usage_targets net g l = (Return targets, g, l')
    /\ (length targets <= 6)%nat
    /\ Forall (fun t => exists instance node mount,
                 In (instance, node) (nodes g)
                 /\ mem "node_filesystem_size_bytes" (metrics node) = true
                 /\ In mount main_mounts
                 /\ t = usage_target instance node mount) targets.
Proof.
  unfold _build_disk_usage_targets. unfold bind at 1.
  match goal with
  | |- context [over_nodes_m ?b] =>
      destruct (over_nodes_m_groups
                  (fun entry new =>
                     Forall (fun t => exists mount,
                               mem "node_filesystem_size_bytes" (metrics (snd entry)) = true
                               /\ In mount main_mounts
                               /\ t = usage_target (fst entry) (snd entry) mount) new)
                  b) with (g := g) (l := l) as (groups & l' & E & HF)
  end.
  - intros targets instance node g0 l0. cbn [fst snd].
    destruct (mem "node_filesystem_size_bytes" (metrics node)) eqn:Em.
    + unfold bind.
      destruct (query_metric_total net
                  ("node_filesystem_size_bytes{instance=" +:+ quoted instance
                     +:+ ",fstype!=" +:+ quoted "tmpfs" +:+ "}") g0 l0) as [r ->].
      destruct (result_truthy r).
      * do 2 eexists. split; [reflexivity|]. apply Forall_concat.
        apply Forall_forall. intros grp Hin. apply list_elem_of_In, in_map_iff in Hin.
        destruct Hin as (item & <- & _).
        destruct (disk_usage_item_spec instance node item) as [->|(mount & Hm & ->)];
          [constructor|].
        constructor; [|constructor]. exists mount. auto.
      * exists []. eexists. rewrite app_nil_r. split; [reflexivity | constructor].
    + exists [], l0. rewrite app_nil_r. split; [reflexivity | constructor].
  - rewrite E. exists (take 6 (concat groups)), l'. split; [reflexivity|]. split.
    + rewrite length_take. lia.
    + apply Forall_take. apply Forall_concat.
      clear -HF. induction HF as [|[instance node] new ns groups H HF IH]; constructor.
      * eapply Forall_impl; [exact H|]. cbn. intros t (mount & Hm & Hin & ->).
        exists instance, node, mount. repeat split; auto; now left.
      * eapply Forall_impl; [exact IH|]. cbn. intros grp Hg.
        eapply Forall_impl; [exact Hg|]. cbn.
        intros t (i & n & m & Hin & rest). exists i, n, m. split; [now right | exact rest].
Qed.

(** X8. Whenever [_build_disk_usage_targets] returns, it has left the
    generator as it is and yields at most six targets, whatever the number
    of nodes and of file systems the server reports; each is the usage
    formula, written out, of a node of the map that has
    [node_filesystem_size_bytes], for one of the mount points [/], [/home],
    [/var], [/mnt]. *)
Theorem disk_usage_targets_capped (g : Gen) (l : Log)
    (targets : list Target) (g' : Gen) (l' : Log) :
  _build_disk_usage_targets net g l = (Return targets, g', l') ->
  g' = g
  /\ (length targets <= 6)%nat
  /\ Forall (fun t => exists instance node mount,
               In (instance, node) (nodes g)
               /\ "node_filesystem_size_bytes" ∈ metrics node
               /\ In mount main_mounts
               /\ t = usage_target instance node mount) targets.
Proof.
  intros E. destruct (build_disk_usage_targets_run g l) as (ts & l0 & E0 & Hlen & HF).
  rewrite E0 in E. injection E as <- <- <-.
  split; [reflexivity|]. split; [exact Hlen|].
  eapply Forall_impl; [exact HF|]. cbn.
  intros t (instance & node & mount & Hin & Hm & Hmount & Ht).
  exists instance, node, mount. apply mem_true in Hm. auto.
Qed.

Lemma first_interface_physical (items : list Sample) (device : string) :
  first_interface items = Some device -> physical device.
Proof.
  induction items as [|item rest IH]; cbn [first_interface]; [discriminate|].
  destruct (str_truthy (label item "device")) eqn:E1; cbn [andb]; [|exact IH].
  destruct (startswith_any (label item "device") ["lo"; "docker"; "veth"]) eqn:E2;
    cbn [negb]; [exact IH|].
  intros H. injection H as <-.
  unfold startswith_any in E2. cbn [existsb] in E2.
  rewrite !orb_false_iff in E2. destruct E2 as (A & B & C & _). unfold startswith in *.
  repeat split.
  - intros Hd. rewrite Hd in E1. discriminate.
  - intros S. apply prefix_StartsWith in S. congruence.
  - intros S. apply prefix_StartsWith in S. congruence.
  - intros S. apply prefix_StartsWith in S. congruence.
Qed.

Lemma build_network_targets_run (g : Gen) (l : Log) :
  exists groups l',
    _build_network_targets net g l = (Return (concat groups), g, l')
    /\ Forall2 (fun entry new =>
                  new = []
                  \/ mem "node_network_receive_bytes_total" (metrics (snd entry)) = true
                     /\ exists device, physical device
                          /\ new = traffic_targets (fst entry) (snd entry) device)
               (nodes g) groups.
Proof.
  unfold _build_network_targets. apply over_nodes_m_groups.
  intros targets instance node g0 l0. cbn [fst snd].
  destruct (mem "node_network_receive_bytes_total" (metrics node)) eqn:Em.
  - unfold bind.
    destruct (query_metric_total net
                ("node_network_receive_bytes_total" +:+ by_instance instance) g0 l0) as [r ->].
    destruct (result_truthy r).
    + destruct (first_interface (default [] r)) as [device|] eqn:Ef.
      * do 2 eexists. split; [reflexivity|]. right. split; [reflexivity|].
        exists device. split; [eapply first_interface_physical; eassumption | formula].
      * exists []. eexists. rewrite app_nil_r. split; [reflexivity | now left].
    + exists []. eexists. rewrite app_nil_r. split; [reflexivity | now left].
  - exists [], l0. rewrite app_nil_r. split; [reflexivity | now left].
Qed.

(** X9. Whenever [_build_network_targets] returns, it has left the
    generator as it is, and its targets are, per node and in the order of
    the nodes, nothing or the receive and transmit targets, written out, of
    one interface, whose name is not empty and starts with none of [lo],
    [docker], [veth]; only a node that has
    [node_network_receive_bytes_total] gets targets. *)
Theorem network_targets_one_interface_per_node (g : Gen) (l : Log)
    (targets : list Target) (g' : Gen) (l' : Log) :
  _build_network_targets net g l = (Return targets, g', l') ->
  g' = g
  /\ exists groups,
       targets = concat groups
       /\ Forall2 (fun entry new =>
                     new = []
                     \/ "node_network_receive_bytes_total" ∈ metrics (snd entry)
                        /\ exists device, physical device
                             /\ new = traffic_targets (fst entry) (snd entry) device)
                  (nodes g) groups.
Proof.
  intros E. destruct (build_network_targets_run g l) as (groups & l0 & E0 & HF).
  rewrite E0 in E. injection E as <- <- <-. split; [reflexivity|].
  exists groups. split; [reflexivity|].
  eapply Forall2_impl; [exact HF|]. cbn.
  intros entry new [->|[Hm H]]; [now left|]. right. apply mem_true in Hm. auto.
Qed.

Lemma keeps_discover_metrics_nodes (ns : dict NodeInfo) :
  keeps (fun g => nodes g = ns) (_discover_metrics net).
Proof.
  apply keeps_try_except; [|intros; apply keeps_ret].
  apply keeps_bind; [apply keeps_reads, reads_gets|]. intros base.
  apply keeps_bind; [apply keeps_send|]. intros response.
  destruct (status_code response =? 200); [|apply keeps_ret].
  apply keeps_bind; [apply keeps_lift|]. intros body.
  apply keeps_modify. intros g H. exact H.
Qed.

Lemma probed_consistent (catalog : gset string) (ns ns' : dict NodeInfo) :
  Forall well_split ns -> Forall2 (probed catalog) ns ns' ->
  map fst ns' = map fst ns /\ Forall (consistent catalog) ns'.
Proof.
  intros W F. induction F as [|e e' ns ns' P F IH]; [split; constructor|].
  apply Forall_cons in W. destruct W as [We W]. destruct (IH W) as [Hk Hc].
  destruct P as (Pk & _ & Pi & Pp & Pm & Ph).
  destruct We as (Wc & Ws & Wp & _).
  split; [cbn [map]; now rewrite Pk, Hk|].
  constructor; [|exact Hc].
  unfold consistent. rewrite Pk, Pi, Pp. auto.
Qed.

Lemma discover_all_run (base : string) (l : Log) :
  exists d g' l',
    discover_all net (__init__ base) l = (Return d, g', l')
    /\ NoDup (map fst (nodes g'))
    /\ Forall (consistent (all_metrics g')) (nodes g').
Proof.
  destruct (total_discover_metrics net (__init__ base) l) as ([] & g1 & l1 & E1).
  assert (N1 : nodes g1 = []).
  { pose proof (keeps_discover_metrics_nodes [] (__init__ base) l eq_refl) as K.
    rewrite E1 in K. exact K. }
  destruct (total_identify_nodes net g1 l1) as ([] & g2 & l2 & E2).
  assert (I2 : identified g2).
  { assert (I1 : identified g1) by (split; rewrite N1; constructor).
    pose proof (keeps_identify_nodes net identified (keeps_identified_instance net) g1 l1 I1)
      as K.
    rewrite E2 in K. exact K. }
  destruct I2 as [Hnd Hws].
  destruct (detect_hardware_nodes net g2 l2 Hnd) as (g3 & l3 & E3 & F & _ & Hm & _).
  destruct (wp_elim _ _ _ _ (build_smart_dashboard_step net g3 l3))
    as (d & g4 & l4 & E4 & b & St).
  destruct (step_env _ _ _ _ _ St) as (_ & Hn4 & Hm4).
  exists d, g4, l4. split.
  - unfold discover_all, bind. now rewrite E1, E2, E3.
  - destruct (probed_consistent _ _ _ Hws F) as [Hk Hc].
    rewrite Hn4, Hm4, Hm, Hk. split; assumption.
Qed.

(** X7. Whenever [discover_all] on a fresh generator returns a dashboard,
    it leaves a consistent discovery state: the keys of the node map are
    distinct, each has a colon and is the entry's ip, a colon and its port;
    the metrics of every node are names of the catalogue; and the flags of
    every node are the capability table applied to its metrics. *)
Theorem discovery_consistent (base : string) (l : Log)
    (d : Dashboard) (g' : Gen) (l' : Log) :
  discover_all net (__init__ base) l = (Return d, g', l') ->
  NoDup (map fst (nodes g'))
  /\ Forall (consistent (all_metrics g')) (nodes g').
Proof.
  intros E. destruct (discover_all_run base l) as (d0 & g0 & l0 & E0 & H).
  rewrite E0 in E. injection E as <- <- <-. exact H.
Qed.
End DiscoveryState.

(** ** The sections of the document *)


Ltac sublist_done :=
  cbn [map p_title _cpu_panel_template _gpu_panel_template _memory_panel_template];
  repeat first [apply sublist_nil | apply sublist_skip | apply sublist_cons].

Ltac content_done :=
  repeat (apply List.Forall_cons; [|]); try apply List.Forall_nil;
  unfold content, on_grid, is_row;
  cbn [p_gridPos pos_x pos_w pos_h pos_y p_targets p_datasource_uid p_type
       _cpu_panel_template _gpu_panel_template _memory_panel_template];
  (split; [reflexivity|split; [|split; [reflexivity | lia]]]);
  intros E; first [discriminate E | rewrite E in *; discriminate].

Ltac appended_done :=
  unfold appended; cbn [fst snd append_panel panels] in *;
  rewrite <- ?app_assoc; try discriminate;
  (eexists; split; [first [reflexivity | symmetry; apply app_nil_r]|]);
  cbn [app];
  (split; [content_done | split; [sublist_done | repeat split]]).

Section DocumentSections.
Variable net : Network.

Lemma add_row_separator (title : string) (d : Dashboard) (g : Gen) (l : Log) :
  wp (_add_row d title)
     (fun d' g' _ => exists row, panels d' = panels d ++ [row] /\ separator title row
                                 /\ same_env g g') g l.
Proof.
  unfold _add_row, bump_panel_id, advance_y. wp_go.
  eexists. split; [reflexivity|]. repeat split.
Qed.

Lemma add_overview_appended (d : Dashboard) (g : Gen) (l : Log) :
  wp (_add_overview_panels d) (fun d' g' _ => appended (snd overview_section) d d' g g') g l.
Proof.
  unfold _add_overview_panels, _temperature_panel_template, _power_panel_template,
    bump_panel_id, advance_y.
  wp_go; appended_done.
Qed.

Lemma add_gpu_appended (d : Dashboard) (g : Gen) (l : Log) :
  wp (_add_gpu_panels d) (fun d' g' _ => appended (snd gpu_section) d d' g g') g l.
Proof. unfold _add_gpu_panels, advance_y. wp_go; appended_done. Qed.

Lemma add_cpu_memory_appended (d : Dashboard) (g : Gen) (l : Log) :
  wp (_add_cpu_memory_panels d) (fun d' g' _ => appended (snd cpu_section) d d' g g') g l.
Proof. unfold _add_cpu_memory_panels, advance_y. wp_go; appended_done. Qed.

Lemma add_disk_appended (d : Dashboard) (g : Gen) (l : Log) :
  wp (_add_disk_panels net d) (fun d' g' _ => appended (snd storage_section) d d' g g') g l.
Proof.
  unfold _add_disk_panels, _disk_panel_template, bump_panel_id, advance_y.
  wp_go; appended_done.
Qed.

Lemma add_network_appended (d : Dashboard) (g : Gen) (l : Log) :
  wp (_add_network_panels net d)
     (fun d' g' _ => appended (snd network_section) d d' g g') g l.
Proof.
  unfold _add_network_panels, _network_panel_template, _disk_panel_template,
    bump_panel_id, advance_y.
  wp_go; appended_done.
Qed.

Lemma add_process_appended (d : Dashboard) (g : Gen) (l : Log) :
  wp (_add_process_panels d) (fun d' g' _ => appended (snd process_section) d d' g g') g l.
Proof.
  unfold _add_process_panels, _process_panel_template, bump_panel_id, advance_y.
  cbn [list_truthy _build_process_targets]. wp_go; appended_done.
Qed.

(** A row separator followed by its section, when the section is included. *)
Lemma titled_section_appended (included : bool) (sec : string * list string)
    (body : Dashboard -> M Gen Dashboard) (d : Dashboard) (g : Gen) (l : Log) :
  (forall d0 g0 l0,
     wp (body d0) (fun d' g' _ => appended (snd sec) d0 d' g0 g') g0 l0) ->
  wp (if included then bind (_add_row d (fst sec)) body else ret d)
     (fun d' g' _ =>
        exists groups, panels d' = panels d ++ concat groups
          /\ Forall2 (section_of prometheus_uid) (optional included sec) groups
          /\ same_env g g') g l.
Proof.
  intros Hbody. destruct included.
  - apply wp_bind. eapply wp_mono; [apply add_row_separator|].
    cbv beta. intros d1 g1 l1 (row & P1 & R1 & E1).
    eapply wp_mono; [apply Hbody|].
    cbv beta. intros d2 g2 l2 (N & P2 & C2 & T2 & E2).
    exists [row :: N]. split; [|split].
    + rewrite P2, P1, <- app_assoc. cbn [concat app]. now rewrite app_nil_r.
    + constructor; [|constructor]. exists row, N. auto.
    + eapply same_env_trans; eassumption.
  - apply wp_ret. exists []. split; [now rewrite app_nil_r|].
    split; [constructor | apply same_env_refl].
Qed.

Lemma flags_same_env (g g' : Gen) :
  same_env g g' ->
  _has_any_gpu g' = _has_any_gpu g /\ _has_disk_metrics g' = _has_disk_metrics g
  /\ _has_network_metrics g' = _has_network_metrics g
  /\ _has_process_metrics g' = _has_process_metrics g.
Proof.
  intros (_ & Hn & Hm). unfold _has_any_gpu, _has_disk_metrics,
    _has_network_metrics, _has_process_metrics, any_node. now rewrite Hn, Hm.
Qed.

(** The assembled document is the included sections, one after the other. *)
Lemma build_smart_dashboard_sections (g : Gen) (l : Log) :
  wp (_build_smart_dashboard net)
     (fun d g' _ =>
        exists groups, panels d = concat groups
          /\ Forall2 (section_of prometheus_uid) (included_sections g) groups
          /\ same_env g g') g l.
Proof.
  unfold _build_smart_dashboard.
  apply wp_bind. eapply wp_mono; [apply add_row_separator|].
  cbv beta. intros d1 g1 l1 (row1 & P1 & R1 & E1).
  apply wp_bind. eapply wp_mono; [apply add_overview_appended|].
  cbv beta. intros d2 g2 l2 (N2 & P2 & C2 & T2 & E2).
  pose proof (same_env_trans _ _ _ E1 E2) as E02.
  apply wp_bind, wp_gets, wp_bind.
  eapply wp_mono;
    [apply (titled_section_appended _ gpu_section _add_gpu_panels);
     intros; apply add_gpu_appended|].
  cbv beta. intros d3 g3 l3 (G3 & P3 & F3 & E3).
  pose proof (same_env_trans _ _ _ E02 E3) as E03.
  apply wp_bind. eapply wp_mono; [apply add_row_separator|].
  cbv beta. intros d4 g4 l4 (row4 & P4 & R4 & E4).
  apply wp_bind. eapply wp_mono; [apply add_cpu_memory_appended|].
  cbv beta. intros d5 g5 l5 (N5 & P5 & C5 & T5 & E5).
  pose proof (same_env_trans _ _ _ E03 (same_env_trans _ _ _ E4 E5)) as E05.
  apply wp_bind, wp_gets, wp_bind.
  eapply wp_mono;
    [apply (titled_section_appended _ storage_section (_add_disk_panels net));
     intros; apply add_disk_appended|].
  cbv beta. intros d6 g6 l6 (G6 & P6 & F6 & E6).
  pose proof (same_env_trans _ _ _ E05 E6) as E06.
  apply wp_bind, wp_gets, wp_bind.
  eapply wp_mono;
    [apply (titled_section_appended _ network_section (_add_network_panels net));
     intros; apply add_network_appended|].
  cbv beta. intros d7 g7 l7 (G7 & P7 & F7 & E7).
  pose proof (same_env_trans _ _ _ E06 E7) as E07.
  apply wp_bind, wp_gets, wp_bind.
  eapply wp_mono;
    [apply (titled_section_appended _ process_section _add_process_panels);
     intros; apply add_process_appended|].
  cbv beta. intros d8 g8 l8 (G8 & P8 & F8 & E8).
  apply wp_ret.
  destruct (flags_same_env _ _ E02) as (H2 & _).
  destruct (flags_same_env _ _ E05) as (_ & H5 & _).
  destruct (flags_same_env _ _ E06) as (_ & _ & H6 & _).
  destruct (flags_same_env _ _ E07) as (_ & _ & _ & H7).
  rewrite H2 in F3. rewrite H5 in F6. rewrite H6 in F7. rewrite H7 in F8.
  exists ([row1 :: N2] ++ G3 ++ [row4 :: N5] ++ G6 ++ G7 ++ G8).
  split; [|split].
  - rewrite P8, P7, P6, P5, P4, P3, P2, P1. cbn [panels empty_dashboard].
    rewrite !concat_app. cbn [concat app]. rewrite ?app_nil_r, <- ?app_assoc.
    reflexivity.
  - unfold included_sections.
    repeat (apply Forall2_app; [|]); try assumption.
    + constructor; [|constructor]. exists row1, N2. auto.
    + constructor; [|constructor]. exists row4, N5. auto.
  - eapply same_env_trans; eassumption.
Qed.

(** X13. For every generator state and every server, the assembled
    document is the included sections one after the other, in the fixed
    order Overview, GPU, CPU & Memory, Storage, Network, Processes, the
    optional ones by their inclusion predicate on the state before
    assembly. Every section is its row separator (type [row], one line over
    the 24 columns, no query, no datasource) followed by content panels
    that each have a query, the Prometheus datasource and a place within
    the 24 columns, and whose titles are taken in order, at most once
    each, from the titles of that section. *)
Theorem dashboard_is_sectioned (g : Gen) (l : Log) :
  exists d g' l' groups,
    _build_smart_dashboard net g l = (Return d, g', l')
    /\ panels d = concat groups
    /\ Forall2 (section_of prometheus_uid) (included_sections g) groups.
Proof.
  destruct (wp_elim _ _ _ _ (build_smart_dashboard_sections g l))
    as (d & g' & l' & E & groups & P & F & _).
  exists d, g', l', groups. auto.
Qed.
End DocumentSections.

(** ** The title filters on a generated document *)








Section GenerateSections.
Variable net : Network.


End GenerateSections.

(** ** The answers of [/import] and [/validate] *)

Lemma check_exporters_prometheus (ms : gset string) (v : Validation) :
  prometheus (check_exporters ms v) = prometheus v.
Proof.
  unfold check_exporters.
  repeat match goal with
         | |- context [if ?b then _ else _] => destruct b
         end; reflexivity.
Qed.

Lemma any_metric_orb (p q : string -> bool) (s : gset string) :
  any_metric (fun m => p m || q m) s = any_metric p s || any_metric q s.
Proof.
  unfold any_metric. induction (elements s) as [|x xs IH]; [reflexivity|].
  cbn [existsb]. rewrite IH.
  destruct (p x), (q x), (existsb p xs), (existsb q xs); reflexivity.
Qed.

Lemma any_metric_ext (p q : string -> bool) (s : gset string) :
  (forall m, p m = q m) -> any_metric p s = any_metric q s.
Proof.
  intros H. unfold any_metric. induction (elements s) as [|x xs IH]; [reflexivity|].
  cbn [existsb]. now rewrite H, IH.
Qed.

(** Starting with no exporter recorded, [check_exporters] records one
    exactly when a metric name starts with one of the prefixes. *)
Lemma check_exporters_found (ms : gset string) (v : Validation) :
  exporters_found v = [] ->
  list_truthy (exporters_found (check_exporters ms v))
  = any_metric (fun m => startswith_any m exporter_prefixes) ms.
Proof.
  intros Hv.
  rewrite (any_metric_ext _
             (fun m => startswith m "node_"
                       || (startswith_any m ["nvidia_"; "DCGM_"]
                           || (startswith m "intel_npu_" || startswith m "mac_")))).
  2: { intros m. unfold startswith_any, exporter_prefixes. cbn [existsb].
       destruct (startswith m "node_"), (startswith m "nvidia_"), (startswith m "DCGM_"),
         (startswith m "intel_npu_"), (startswith m "mac_"); reflexivity. }
  rewrite !any_metric_orb. unfold check_exporters.
  destruct (any_metric (fun m => startswith m "node_") ms);
  destruct (any_metric (fun m => startswith_any m ["nvidia_"; "DCGM_"]) ms);
  destruct (any_metric (fun m => startswith m "intel_npu_") ms);
  destruct (any_metric (fun m => startswith m "mac_") ms);
  cbn [exporters_found found missing recommend]; rewrite Hv;
  cbn [app list_truthy negb exporters_found found missing recommend]; rewrite ?Hv;
  reflexivity.
Qed.

Lemma positive_length {A} (xs : list A) :
  (0 <? Z.of_nat (length xs)) = list_truthy xs.
Proof. destruct xs; reflexivity. Qed.

Lemma decoded_cases {R} (empty : R) (request_json : Outcome (Body R)) :
  (exists data, decoded empty request_json data)
  \/ (exists e, undecodable request_json e).
Proof.
  destruct request_json as [[data| |e]|e].
  - left. exists data. now left.
  - left. exists empty. now right.
  - right. exists e. now right.
  - right. exists e. now left.
Qed.

Lemma decoded_inj {R} (empty : R) (request_json : Outcome (Body R)) (d1 d2 : R) :
  decoded empty request_json d1 -> decoded empty request_json d2 -> d1 = d2.
Proof. intros [->|[-> ->]] [H|[H ->]]; congruence. Qed.

Lemma decoded_or_not {R} (empty : R) (request_json : Outcome (Body R)) (data : R) (e : exn) :
  decoded empty request_json data -> undecodable request_json e -> False.
Proof. intros [->|[-> ->]] [H|H]; discriminate. Qed.

(** A body that decodes is as good as the object of its fields. *)
Lemma request_data_decoded {S R} (empty : R) (request_json : Outcome (Body R)) (data : R) :
  decoded empty request_json data ->
  request_data (S:=S) empty request_json = ret data.
Proof. intros [->|[-> ->]]; reflexivity. Qed.

Lemma startswith_any_spec (s : string) (pres : list string) :
  startswith_any s pres = true <-> exists pre, In pre pres /\ StartsWith pre s.
Proof.
  unfold startswith_any, startswith. rewrite existsb_exists.
  split; intros (pre & Hin & H); exists pre; (split; [exact Hin|]);
    now apply prefix_StartsWith.
Qed.

Section FacadeAnswers.
Variable net : Network.
Variable str_json : json -> string.

(** X15. [/import] never raises and sends at most one request. It answers
    200 exactly when the request was sent, Grafana answered it 200 and the
    body of the answer decoded; that answer has status [success] and passes
    the decoded body on. It answers 400 exactly when the body of the
    request decoded and the key or the dashboard is absent or empty, and
    then nothing was sent. Every other answer is 500: when [request.json]
    raises or yields a value without [get] (nothing was sent), when the
    call to Grafana raised, when Grafana answered another code, or when its
    body could not be decoded. Every answer but the 200 has status
    [error]. The key of a request is a string and its dashboard an object,
    when it has them. *)
Theorem import_answers (now : string) (request_json : Outcome (Body ImportRequest))
    (l : Log) :
  exists served extra,
    import_to_grafana net str_json now request_json tt l = (Return served, tt, l ++ extra)
    /\ (extra = [] \/ exists request, extra = [request])
    /\ (code served = 200 <->
        exists request resp result,
          extra = [request] /\ dashboards_db net l request = Return resp
          /\ status_code resp = 200 /\ json_body resp = Return result)
    /\ (code served = 400 <->
        exists data,
          decoded no_import_fields request_json data
          /\ (i_api_key data = None \/ i_api_key data = Some EmptyString
              \/ i_dashboard data = None \/ i_dashboard data = Some []))
    /\ (code served = 200 \/ code served = 400 \/ code served = 500)
    /\ (code served = 400 -> extra = [])
    /\ (forall e, undecodable request_json e -> code served = 500 /\ extra = [])
    /\ match body served with
       | Imported ok =>
           code served = 200 /\ io_status ok = "success"
           /\ exists request resp,
                extra = [request] /\ dashboards_db net l request = Return resp
                /\ json_body resp = Return (io_grafana_response ok)
       | ImportFailed err => code served <> 200 /\ e_status err = "error"
       end.
Proof.
  assert (Missing : forall data : ImportRequest,
            i_api_key data = None \/ i_api_key data = Some EmptyString
            \/ i_dashboard data = None \/ i_dashboard data = Some []
            <-> opt_str_truthy (i_api_key data) = false
                \/ opt_dict_truthy (i_dashboard data) = false).
  { intros data. destruct (i_api_key data) as [[|c s]|], (i_dashboard data) as [[|kv d]|];
      cbn; split; intros H; try tauto;
      repeat match goal with
             | H : _ \/ _ |- _ => destruct H
             end; congruence. }
  setoid_rewrite Missing.
  destruct (decoded_cases no_import_fields request_json) as [[data D]|[e U]].
  - unfold import_to_grafana. rewrite (request_data_decoded _ _ data D).
    unfold try_except, bind, send, lift, ret, internal_error. cbv beta iota.
    destruct (opt_str_truthy (i_api_key data)) eqn:Ek; cbn [negb];
      [destruct (opt_dict_truthy (i_dashboard data)) eqn:Ed; cbn [negb]|].
    + match goal with
      | |- context [dashboards_db net l ?r] =>
          set (request := r); destruct (dashboards_db net l request) as [resp|e] eqn:Er
      end;
        [destruct (Z.eqb_spec (status_code resp) 200) as [E200|E200];
         [destruct (json_body resp) as [result|e] eqn:Ej|]|];
        (eexists; exists [request]; split; [reflexivity|]);
        cbn [code body io_status io_grafana_response e_status];
        (split; [right; eauto|]).
      * split; [split; [intros _; exists request, resp, result; auto | reflexivity]|].
        split; [split; [discriminate|]|].
        { intros (data' & D' & [H|H]); rewrite (decoded_inj _ _ _ _ D' D) in H; congruence. }
        split; [auto|]. split; [discriminate|].
        split; [intros e U; destruct (decoded_or_not _ _ _ _ D U)|].
        split; [reflexivity|]. split; [reflexivity|]. exists request, resp. auto.
      * split; [split; [discriminate|]|].
        { intros (r' & resp' & res' & H1 & H2 & H3 & H4).
          injection H1 as <-. congruence. }
        split; [split; [discriminate|]|].
        { intros (data' & D' & [H|H]); rewrite (decoded_inj _ _ _ _ D' D) in H; congruence. }
        split; [auto|]. split; [discriminate|].
        split; [intros e' U; destruct (decoded_or_not _ _ _ _ D U)|].
        split; [discriminate | reflexivity].
      * split; [split; [discriminate|]|].
        { intros (r' & resp' & res' & H1 & H2 & H3 & H4).
          injection H1 as <-. congruence. }
        split; [split; [discriminate|]|].
        { intros (data' & D' & [H|H]); rewrite (decoded_inj _ _ _ _ D' D) in H; congruence. }
        split; [auto|]. split; [discriminate|].
        split; [intros e' U; destruct (decoded_or_not _ _ _ _ D U)|].
        split; [discriminate | reflexivity].
      * split; [split; [discriminate|]|].
        { intros (r' & resp' & res' & H1 & H2 & H3 & H4).
          injection H1 as <-. congruence. }
        split; [split; [discriminate|]|].
        { intros (data' & D' & [H|H]); rewrite (decoded_inj _ _ _ _ D' D) in H; congruence. }
        split; [auto|]. split; [discriminate|].
        split; [intros e' U; destruct (decoded_or_not _ _ _ _ D U)|].
        split; [discriminate | reflexivity].
    + eexists; exists []; rewrite app_nil_r; split; [reflexivity|].
      cbn [code body e_status]. split; [now left|].
      split; [split; [discriminate | intros (r' & _ & _ & H & _); discriminate]|].
      split; [split; [intros _; exists data; auto | reflexivity]|].
      split; [auto|]. split; [reflexivity|].
      split; [intros e U; destruct (decoded_or_not _ _ _ _ D U)|].
      split; [discriminate | reflexivity].
    + eexists; exists []; rewrite app_nil_r; split; [reflexivity|].
      cbn [code body e_status]. split; [now left|].
      split; [split; [discriminate | intros (r' & _ & _ & H & _); discriminate]|].
      split; [split; [intros _; exists data; auto | reflexivity]|].
      split; [auto|]. split; [reflexivity|].
      split; [intros e U; destruct (decoded_or_not _ _ _ _ D U)|].
      split; [discriminate | reflexivity].
  - unfold import_to_grafana. rewrite (undecodable_request _ _ e) by exact U.
    eexists; exists []; rewrite app_nil_r; split; [reflexivity|].
    cbn [internal_error code body e_status]. split; [now left|].
    split; [split; [discriminate | intros (r' & _ & _ & H & _); discriminate]|].
    split; [split; [discriminate|]|].
    { intros (data' & D' & _). destruct (decoded_or_not _ _ _ _ D' U). }
    split; [auto|]. split; [discriminate|].
    split; [intros e' _; split; reflexivity|].
    split; [discriminate | reflexivity].
Qed.

(** X16. When [request.json] raises, or yields a value without [get],
    [/validate] answers 500 with status [error] and sends nothing. When the
    body decodes it answers 200: it sends the two health probes, each with
    a timeout of five seconds, then at most the catalogue request, and
    [ready] is set. It is true exactly when both probes were answered 200
    and the catalogue request was answered 200 with a body that decodes to
    a list of names, one of which starts with [node_], [nvidia_], [DCGM_],
    [intel_npu_] or [mac_]. *)
Theorem validate_ready_iff (request_json : Outcome (Body ValidateRequest)) (l : Log) :
  (forall e, undecodable request_json e ->
     exists err,
       validate_setup net request_json tt l
       = (Return {| code := 500; body := ValidateFailed err |}, tt, l)
       /\ e_status err = "error" /\ e_error err = exn_message e)
  /\ (forall data, decoded no_validate_fields request_json data ->
      let prometheus_url := default "http://localhost:9090" (v_prometheus_url data) in
      let grafana_url := default "http://localhost:3000" (v_grafana_url data) in
      let probe_prometheus :=
        {| method := GET; url := prometheus_url +:+ "/-/healthy"; params := [];
           headers := []; payload := None; timeout := Some 5 |} in
      let probe_grafana :=
        {| method := GET; url := grafana_url +:+ "/api/health"; params := [];
           headers := []; payload := None; timeout := Some 5 |} in
      let catalogue :=
        {| method := GET; url := prometheus_url +:+ "/api/v1/label/__name__/values";
           params := []; headers := []; payload := None; timeout := None |} in
      exists v extra,
        validate_setup net request_json tt l
        = (Return {| code := 200; body := Validated v |}, tt, l ++ extra)
        /\ (extra = [probe_prometheus; probe_grafana]
            \/ extra = [probe_prometheus; probe_grafana; catalogue])
        /\ (ready v = Some true \/ ready v = Some false)
        /\ (ready v = Some true <->
            (exists r, health_check net l probe_prometheus = Return r /\ status_code r = 200)
            /\ (exists r, health_check net (l ++ [probe_prometheus]) probe_grafana = Return r
                          /\ status_code r = 200)
            /\ (exists r names m pre,
                  label_values net (l ++ [probe_prometheus; probe_grafana]) catalogue
                  = Return r
                  /\ status_code r = 200 /\ json_body r = Return names
                  /\ In m (default [] (lv_data names))
                  /\ In pre exporter_prefixes /\ StartsWith pre m))).
Proof.
  split.
  { intros e U. eexists. split.
    - unfold validate_setup. rewrite (undecodable_request _ _ e) by exact U. reflexivity.
    - split; reflexivity. }
  intros data D prometheus_url grafana_url probe_prometheus probe_grafana catalogue.
  unfold validate_setup. rewrite (request_data_decoded _ _ data D).
  unfold try_except, bind, send, lift, ret, health_request, get_request. cbv beta iota.
  fold prometheus_url grafana_url. fold probe_prometheus probe_grafana. fold catalogue.
  clearbody probe_prometheus probe_grafana catalogue.
  destruct (health_check net l probe_prometheus) as [rp|ep] eqn:Hp;
    [destruct (Z.eqb_spec (status_code rp) 200) as [Ep|Ep]|];
    (destruct (health_check net (l ++ [probe_prometheus]) probe_grafana) as [rg|eg] eqn:Hg;
     [destruct (Z.eqb_spec (status_code rg) 200) as [Eg|Eg]|]);
    cbn -[String.append check_exporters];
    rewrite <- ?app_assoc; cbn [app];
    try (destruct (label_values net (l ++ [probe_prometheus; probe_grafana]) catalogue)
           as [rn|en] eqn:Hn;
         [destruct (Z.eqb_spec (status_code rn) 200) as [En|En];
          [destruct (json_body rn) as [names|ej] eqn:Hj|]|];
         cbn -[String.append check_exporters];
         rewrite ?check_exporters_prometheus, ?check_exporters_grafana;
         cbn -[String.append check_exporters]);
    rewrite ?andb_false_r, ?positive_length, ?check_exporters_found by reflexivity;
    change (0 <? Z.of_nat 0) with false in *; cbv iota;
    try (do 2 eexists; split; [reflexivity|];
         split; [first [left; reflexivity | right; reflexivity]|];
         split; [right; reflexivity|];
         split; [discriminate|];
         intros ((r1 & H1 & H2) & (r2 & H3 & H4)
                 & (r3 & names' & m & pre & H5 & H6 & H7 & H8 & H9 & H10));
         congruence).
  destruct (any_metric (fun m => startswith_any m exporter_prefixes)
              (list_to_set (default [] (lv_data names)))) eqn:Ea;
    (do 2 eexists; split; [reflexivity|]; split; [right; reflexivity|]).
  - split; [left; reflexivity|]. split; [intros _ | reflexivity].
    apply any_metric_spec in Ea. destruct Ea as (m & Hm & Hpre).
    apply elem_of_list_to_set, list_elem_of_In in Hm.
    apply startswith_any_spec in Hpre. destruct Hpre as (pre & Hin & Hsw).
    split; [eauto|]. split; [eauto|]. exists rn, names, m, pre. auto 10.
  - split; [right; reflexivity|]. split; [discriminate|].
    intros (_ & _ & (r3 & names' & m & pre & H5 & H6 & H7 & H8 & H9 & H10)).
    assert (any_metric (fun m => startswith_any m exporter_prefixes)
              (list_to_set (default [] (lv_data names))) = true) as Ht; [|congruence].
    apply any_metric_spec. exists m. split.
    + apply elem_of_list_to_set, list_elem_of_In. congruence.
    + apply startswith_any_spec. exists pre. auto.
Qed.
End FacadeAnswers.

(** ** [/discover] *)

Lemma dict_get_cond_set (k k' : string) (b : bool) (caps : dict bool) :
  dict_get k (if b then dict_set k' true caps else caps)
  = if b && String.eqb k k' then Some true else dict_get k caps.
Proof.
  destruct b; cbn [andb]; [|reflexivity].
  destruct (String.eqb_spec k k') as [->|Hne].
  - apply dict_get_set_eq.
  - now apply dict_get_set_ne.
Qed.

Lemma if_or {A} (a b : bool) (s x : A) :
  (if a then s else if b then s else x) = (if a || b then s else x).
Proof. now destruct a, b. Qed.

Lemma node_capabilities_get (k : string) (node : NodeInfo) (caps : dict bool) :
  dict_get k (node_capabilities node caps)
  = if capability_written k node then Some true else dict_get k caps.
Proof.
  unfold node_capabilities, capability_written, capability_switches.
  cbn [foldl existsb fst snd].
  change ("has_" +:+ replace "nvidia_gpu" "_gpu" "") with "has_nvidia".
  change ("has_" +:+ replace "intel_gpu" "_gpu" "") with "has_intel".
  change ("has_" +:+ replace "intel_npu" "_gpu" "") with "has_intel_npu".
  change ("has_" +:+ replace "mac" "_gpu" "") with "has_mac".
  change (hardware_get "nvidia_gpu" (hardware node)) with (nvidia_gpu (hardware node)).
  change (hardware_get "intel_gpu" (hardware node)) with (intel_gpu (hardware node)).
  change (hardware_get "intel_npu" (hardware node)) with (intel_npu (hardware node)).
  change (hardware_get "mac" (hardware node)) with (mac (hardware node)).
  change (hardware_get "has_temp" (hardware node)) with (has_temp (hardware node)).
  change (hardware_get "has_power" (hardware node)) with (has_power (hardware node)).
  change (hardware_get "has_process" (hardware node)) with (has_process (hardware node)).
  rewrite !dict_get_cond_set, !if_or, orb_false_r, ?orb_assoc. reflexivity.
Qed.

Lemma capabilities_fold (k : string) (ns : dict NodeInfo) (init : Results) :
  dict_get k
    (r_capabilities
       (foldl (fun results entry =>
                 {| r_nodes := dict_set (fst entry) (node_summary (snd entry))
                                 (r_nodes results);
                    r_total_metrics := r_total_metrics results;
                    r_capabilities :=
                      node_capabilities (snd entry) (r_capabilities results) |})
              init ns))
  = if existsb (fun entry => capability_written k (snd entry)) ns then Some true
    else dict_get k (r_capabilities init).
Proof.
  revert init. induction ns as [|entry ns IH]; intros init; [reflexivity|].
  cbn [foldl existsb]. rewrite IH. cbn [r_capabilities].
  rewrite node_capabilities_get.
  destruct (capability_written k (snd entry)); cbn [orb]; [|reflexivity].
  now destruct (existsb _ ns).
Qed.

Lemma existsb_pointwise {A} (f g : A -> bool) (l : list A) :
  (forall x, f x = g x) -> existsb f l = existsb g l.
Proof. intros H. induction l as [|x l IH]; [reflexivity|]. cbn. now rewrite H, IH. Qed.

Lemma existsb_never {A} (l : list A) : existsb (fun _ => false) l = false.
Proof. now induction l. Qed.

(** A key other than the two written last is on when a node writes it. *)
Lemma capability_of_flag (k : string) (flag : Hardware -> bool) (g : Gen) :
  (forall node, capability_written k node = flag (hardware node)) ->
  k <> "has_disk" -> k <> "has_network" ->
  dict_get k (r_capabilities (discover_results g))
  = if any_node (fun node => flag (hardware node)) g then Some true
    else dict_get k (initial_capabilities g).
Proof.
  intros Hw Hd Hn. unfold discover_results. cbn [r_capabilities].
  rewrite !dict_get_set_ne by assumption.
  rewrite capabilities_fold. cbn [r_capabilities]. unfold any_node.
  rewrite (existsb_pointwise _ (fun entry => flag (hardware (snd entry))));
    [reflexivity|]. intros entry. apply Hw.
Qed.

Ltac capability_flag :=
  intros node; unfold capability_written, capability_switches;
  cbn [existsb fst snd String.eqb Ascii.eqb Bool.eqb andb orb];
  rewrite ?andb_true_r, ?andb_false_r, ?orb_false_r; cbn [orb]; reflexivity.

(** X17. In the results [/discover] formats from a generator, every
    capability but one agrees with the generator: [has_nvidia],
    [has_intel_npu], [has_mac], [has_temperature], [has_power],
    [has_processes] are on exactly when some node has the flag,
    [has_disk] and [has_network] are the generator's predicates on the
    catalogue, [has_multiple_nodes] tells whether there is more than one
    node. [has_intel_gpu] is false whatever the nodes: a node with an Intel
    GPU writes the key [has_intel], which the results have only then. *)
Theorem discover_capabilities (g : Gen) :
  let caps := r_capabilities (discover_results g) in
  dict_get "has_intel_gpu" caps = Some false
  /\ dict_get "has_intel" caps
     = (if any_node (fun node => intel_gpu (hardware node)) g then Some true else None)
  /\ dict_get "has_nvidia" caps = Some (any_node (fun node => nvidia_gpu (hardware node)) g)
  /\ dict_get "has_intel_npu" caps = Some (_has_npu g)
  /\ dict_get "has_mac" caps = Some (any_node (fun node => mac (hardware node)) g)
  /\ dict_get "has_temperature" caps = Some (_has_temperature g)
  /\ dict_get "has_power" caps = Some (_has_power g)
  /\ dict_get "has_processes" caps = Some (_has_process_metrics g)
  /\ dict_get "has_disk" caps = Some (_has_disk_metrics g)
  /\ dict_get "has_network" caps = Some (_has_network_metrics g)
  /\ dict_get "has_multiple_nodes" caps = Some (1 <? Z.of_nat (length (nodes g))).
Proof.
  cbv zeta. repeat split.
  - rewrite (capability_of_flag _ (fun _ => false)); [|capability_flag|discriminate..].
    unfold any_node. rewrite existsb_never. reflexivity.
  - rewrite (capability_of_flag _ intel_gpu); [|capability_flag|discriminate..].
    now destruct (any_node _ g).
  - rewrite (capability_of_flag _ nvidia_gpu); [|capability_flag|discriminate..].
    now destruct (any_node _ g).
  - rewrite (capability_of_flag _ intel_npu); [|capability_flag|discriminate..].
    unfold _has_npu. now destruct (any_node _ g).
  - rewrite (capability_of_flag _ mac); [|capability_flag|discriminate..].
    now destruct (any_node _ g).
  - rewrite (capability_of_flag _ has_temp); [|capability_flag|discriminate..].
    unfold _has_temperature. now destruct (any_node _ g).
  - rewrite (capability_of_flag _ has_power); [|capability_flag|discriminate..].
    unfold _has_power. now destruct (any_node _ g).
  - rewrite (capability_of_flag _ has_process); [|capability_flag|discriminate..].
    unfold _has_process_metrics. now destruct (any_node _ g).
  - unfold discover_results. cbn [r_capabilities].
    rewrite dict_get_set_ne by discriminate. apply dict_get_set_eq.
  - unfold discover_results. cbn [r_capabilities]. apply dict_get_set_eq.
  - rewrite (capability_of_flag _ (fun _ => false)); [|capability_flag|discriminate..].
    unfold any_node. rewrite existsb_never. reflexivity.
Qed.

Section DiscoverHandler.
Variable net : Network.

(** The cache is used: nothing is sent and the cache stays as it is,
    whatever [prometheus_url] the request names. *)
Lemma discover_hit (now now' : Z) (request_json : Outcome (Body DiscoverRequest))
    (data : DiscoverRequest) (c : Cache) (l : Log) (cached : Results) (timestamp : Z) :
  decoded no_discover_fields request_json data ->
  spec_flag false (dr_force_refresh data) = false ->
  c_results c = Some cached -> c_timestamp c = Some timestamp ->
  now - timestamp < c_ttl c * 1000000 ->
  discover net now now' request_json c l
  = (Return {| code := 200;
               body := Discovered
                 {| do_status := "success"; do_cached := true;
                    do_age_micros := Some (now - timestamp); do_data := cached |} |},
     c, l).
Proof.
  intros D Hf Hr Ht Hage. unfold discover. rewrite (request_data_decoded _ _ data D).
  unfold try_except, bind, gets, ret. cbv beta iota.
  rewrite truthy_default, Hf, Hr, Ht. cbn [negb].
  destruct (Z.ltb_spec (now - timestamp) (c_ttl c * 1000000)); [reflexivity | lia].
Qed.

(** The cache is not used: discovery runs on a fresh generator, and when
    it returns its results replace the cache, stamped [now']. *)
Lemma discover_miss (now now' : Z) (request_json : Outcome (Body DiscoverRequest))
    (data : DiscoverRequest) (c : Cache) (l : Log) (g' : Gen) (l' : Log) :
  decoded no_discover_fields request_json data ->
  spec_flag false (dr_force_refresh data) = true
  \/ c_results c = None \/ c_timestamp c = None
  \/ (exists timestamp, c_timestamp c = Some timestamp
                        /\ c_ttl c * 1000000 <= now - timestamp) ->
  bind (_discover_metrics net)
    (fun _ => bind (_identify_nodes net) (fun _ => _detect_hardware net))
    (__init__ (default "http://localhost:9090" (dr_prometheus_url data))) l
  = (Return tt, g', l') ->
  discover net now now' request_json c l
  = (Return {| code := 200;
               body := Discovered
                 {| do_status := "success"; do_cached := false;
                    do_age_micros := None; do_data := discover_results g' |} |},
     {| c_timestamp := Some now'; c_results := Some (discover_results g');
        c_ttl := c_ttl c |}, l').
Proof.
  intros D H E. unfold discover. rewrite (request_data_decoded _ _ data D).
  unfold try_except, gets, ret. unfold bind at 1 2. cbv beta iota.
  rewrite truthy_default.
  assert ((if negb (spec_flag false (dr_force_refresh data)) then
             match c_results c, c_timestamp c with
             | Some cached, Some timestamp =>
                 if now - timestamp <? c_ttl c * 1000000
                 then Some (now - timestamp, cached) else None
             | _, _ => None
             end
           else None) = None) as ->.
  { destruct H as [->|[->|[H|(ts & -> & H)]]]; [reflexivity| |..].
    - now destruct (negb _).
    - rewrite H. destruct (negb _); [|reflexivity]. now destruct (c_results c).
    - destruct (negb _); [|reflexivity]. destruct (c_results c); [|reflexivity].
      destruct (Z.ltb_spec (now - ts) (c_ttl c * 1000000)); [lia | reflexivity]. }
  unfold bind, on_object, modify. unfold bind in E. rewrite E. reflexivity.
Qed.

(** X18. Take a [/discover] request that forces a refresh and a later one
    that does not, both with a body that decodes, and suppose the three
    discovery steps return on the fresh generator of each. The first
    request is answered 200, not cached, with the results formatted from
    the state its discovery ended in, having sent the requests of that
    discovery; the cache then holds these results, stamped with the second
    clock reading of the call. If the clock reading of the second request
    is less than [ttl] seconds after that stamp, it is answered 200 from
    the cache with the same results and the age, sends nothing and leaves
    the cache as it is, whatever [prometheus_url] it names. Otherwise its
    own discovery runs: it is answered 200, not cached, with the results of
    that discovery, which replace the cache, stamped anew. *)
Theorem discover_cache_round_trip (now1 now1' now2 now2' : Z)
    (request1 request2 : Outcome (Body DiscoverRequest))
    (data1 data2 : DiscoverRequest) (c0 : Cache) (l : Log)
    (g1 g2 : Gen) (l1 l2 : Log) :
  let discovery (data : DiscoverRequest) :=
    bind (_discover_metrics net)
      (fun _ => bind (_identify_nodes net) (fun _ => _detect_hardware net))
      (__init__ (default "http://localhost:9090" (dr_prometheus_url data))) in
  let answer (cached : bool) (age : option Z) (g : Gen) :=
    {| code := 200;
       body := Discovered
         {| do_status := "success"; do_cached := cached;
            do_age_micros := age; do_data := discover_results g |} |} in
  let stored (g : Gen) (stamp : Z) :=
    {| c_timestamp := Some stamp; c_results := Some (discover_results g);
       c_ttl := c_ttl c0 |} in
  decoded no_discover_fields request1 data1 ->
  decoded no_discover_fields request2 data2 ->
  spec_flag false (dr_force_refresh data1) = true ->
  spec_flag false (dr_force_refresh data2) = false ->
  discovery data1 l = (Return tt, g1, l1) ->
  discovery data2 l1 = (Return tt, g2, l2) ->
  discover net now1 now1' request1 c0 l
  = (Return (answer false None g1), stored g1 now1', l1)
  /\ (now2 - now1' < c_ttl c0 * 1000000 ->
      discover net now2 now2' request2 (stored g1 now1') l1
      = (Return (answer true (Some (now2 - now1')) g1), stored g1 now1', l1))
  /\ (c_ttl c0 * 1000000 <= now2 - now1' ->
      discover net now2 now2' request2 (stored g1 now1') l1
      = (Return (answer false None g2), stored g2 now2', l2)).
Proof.
  intros discovery answer stored D1 D2 F1 F2 E1 E2.
  split; [|split].
  - apply (discover_miss now1 now1' request1 data1 c0 l g1 l1 D1); [now left | exact E1].
  - intros Hin.
    apply (discover_hit now2 now2' request2 data2 (stored g1 now1') l1
             (discover_results g1) now1' D2 F2); [reflexivity | reflexivity | exact Hin].
  - intros Hout.
    apply (discover_miss now2 now2' request2 data2 (stored g1 now1') l1 g2 l2 D2);
      [|exact E2].
    right. right. right. exists now1'. split; [reflexivity | exact Hout].
Qed.
End DiscoverHandler.

(** ** More target builders, and the catalogue *)

(** X11. The memory target builder emits, for every node and in the order
    of the nodes, the one formula chosen by priority and written out: the
    available-memory ratio when the node has
    [node_memory_MemAvailable_bytes], else the [mem_used_percent] gauge
    when it has that, else nothing. So there is a memory target exactly
    when some node has one of the two metrics. *)
Theorem memory_targets_by_priority (self : Gen) :
  (exists groups : list (list Target),
     Forall2 (fun entry ts => spec_memory_choice (fst entry) (snd entry) ts)
             (nodes self) groups
     /\ _build_memory_targets self = concat groups)
  /\ (_build_memory_targets self <> [] <->
      exists instance node,
        In (instance, node) (nodes self)
        /\ ("node_memory_MemAvailable_bytes" ∈ metrics node
            \/ "mem_used_percent" ∈ metrics node)).
Proof.
  enough (H : (exists groups : list (list Target),
                 Forall2 (fun entry ts => spec_memory_choice (fst entry) (snd entry) ts)
                         (nodes self) groups
                 /\ _build_memory_targets self = concat groups)
              /\ list_truthy (_build_memory_targets self)
                 = any_node (fun node =>
                               mem "node_memory_MemAvailable_bytes" (metrics node)
                               || mem "mem_used_percent" (metrics node)) self).
  { destruct H as [H T]. split; [exact H|].
    assert (L : _build_memory_targets self <> []
                <-> list_truthy (_build_memory_targets self) = true)
      by (destruct (_build_memory_targets self); cbn; split; congruence).
    rewrite L, T. unfold any_node. rewrite existsb_exists. split.
    - intros ([instance node] & Hin & Hm). cbn [snd] in Hm.
      apply orb_true_iff in Hm. rewrite !mem_true in Hm. eauto.
    - intros (instance & node & Hin & Hm). exists (instance, node).
      split; [exact Hin|]. cbn [snd]. apply orb_true_iff. now rewrite !mem_true. }
  set (f := fun (instance : string) (node : NodeInfo) =>
    if mem "node_memory_MemAvailable_bytes" (metrics node) then
      [target (mem_available_expr instance) (hostname node +:+ " Memory")]
    else if mem "mem_used_percent" (metrics node) then
      [target ("mem_used_percent" +:+ by_instance instance) (hostname node +:+ " Memory")]
    else []).
  assert (E : _build_memory_targets self
              = concat (map (fun entry => f (fst entry) (snd entry)) (nodes self))).
  { unfold _build_memory_targets. apply over_nodes_concat.
    intros targets instance node. unfold f.
    destruct (mem "node_memory_MemAvailable_bytes" _); [reflexivity|].
    destruct (mem "mem_used_percent" _); [reflexivity | now rewrite app_nil_r]. }
  split.
  - exists (map (fun entry => f (fst entry) (snd entry)) (nodes self)).
    split; [|exact E].
    clear E. induction (nodes self) as [|[instance node] ns IH]; simpl; constructor;
      [|exact IH].
    unfold spec_memory_choice, f. simpl.
    destruct (mem "node_memory_MemAvailable_bytes" (metrics node)) eqn:Ea;
      [apply mem_true in Ea | apply mem_false in Ea];
    (destruct (mem "mem_used_percent" (metrics node)) eqn:Eu;
      [apply mem_true in Eu | apply mem_false in Eu]);
    repeat split; intros; try reflexivity; try contradiction; formula.
  - rewrite E. unfold any_node. clear E.
    induction (nodes self) as [|[instance node] ns IH]; [reflexivity|].
    cbn [map concat existsb fst snd]. unfold f at 1.
    destruct (mem "node_memory_MemAvailable_bytes" (metrics node)); [reflexivity|].
    destruct (mem "mem_used_percent" (metrics node)); [reflexivity|].
    cbn [app orb]. exact IH.
Qed.

Lemma disk_io_item_spec (instance : string) (node : NodeInfo) (item : Sample) :
  disk_io_item instance node item = []
  \/ exists disk, disk <> EmptyString /\ ~ StartsWith "loop" disk
       /\ disk_io_item instance node item = io_targets instance node disk.
Proof.
  unfold disk_io_item. cbv zeta.
  destruct (str_truthy (label item "name")) eqn:E1; cbn [andb]; [|now left].
  destruct (startswith (label item "name") "loop") eqn:E2; cbn [negb]; [now left|].
  right. exists (label item "name"). split; [|split; [|formula]].
  - intros H. rewrite H in E1. discriminate.
  - intros S. apply prefix_StartsWith in S. unfold startswith in E2. congruence.
Qed.

Section MoreBuilders.
Variable net : Network.

Lemma build_disk_io_targets_run (g : Gen) (l : Log) :
  exists groups l',
    _build_disk_io_targets net g l = (Return (concat groups), g, l')
    /\ Forall2 (fun entry new =>
                  exists disks,
                    Forall (fun disk => disk <> EmptyString /\ ~ StartsWith "loop" disk) disks
                    /\ new = concat (map (io_targets (fst entry) (snd entry)) disks)
                    /\ (disks <> [] ->
                        mem "diskio_read_bytes" (metrics (snd entry)) = true))
               (nodes g) groups.
Proof.
  unfold _build_disk_io_targets. apply over_nodes_m_groups.
  intros targets instance node g0 l0. cbn [fst snd].
  destruct (mem "diskio_read_bytes" (metrics node)) eqn:Em.
  - unfold bind.
    destruct (query_metric_total net ("diskio_read_bytes" +:+ by_instance instance) g0 l0)
      as [r ->].
    destruct (result_truthy r).
    + do 2 eexists. split; [reflexivity|].
      induction (default [] r) as [|item items IH].
      * exists []. split; [constructor|]. split; [reflexivity | congruence].
      * destruct IH as (disks & HF & HE & _). cbn [map concat]. rewrite HE.
        destruct (disk_io_item_spec instance node item) as [->|(disk & D1 & D2 & ->)].
        -- exists disks. split; [exact HF|]. split; [reflexivity | reflexivity].
        -- exists (disk :: disks). split; [constructor; auto|].
           split; [reflexivity | reflexivity].
    + exists []. eexists. rewrite app_nil_r. split; [reflexivity|].
      exists []. split; [constructor|]. split; [reflexivity | congruence].
  - exists []. exists l0. rewrite app_nil_r. split; [reflexivity|].
    exists []. split; [constructor|]. split; [reflexivity | congruence].
Qed.

(** X10. Whenever [_build_disk_io_targets] returns, it has left the
    generator as it is, and its targets are, per node and in the order of
    the nodes, the read and write targets, written out, of disks whose name
    is not empty and does not start with [loop]; only a node that has
    [diskio_read_bytes] gets targets. *)
Theorem disk_io_targets_skip_loop_devices (g : Gen) (l : Log)
    (targets : list Target) (g' : Gen) (l' : Log) :
  _build_disk_io_targets net g l = (Return targets, g', l') ->
  g' = g
  /\ exists groups,
       targets = concat groups
       /\ Forall2 (fun entry new =>
                     exists disks,
                       Forall (fun disk => disk <> EmptyString /\ ~ StartsWith "loop" disk)
                              disks
                       /\ new = concat (map (io_targets (fst entry) (snd entry)) disks)
                       /\ (disks <> [] -> "diskio_read_bytes" ∈ metrics (snd entry)))
                  (nodes g) groups.
Proof.
  intros E. destruct (build_disk_io_targets_run g l) as (groups & l0 & E0 & HF).
  rewrite E0 in E. injection E as <- <- <-. split; [reflexivity|].
  exists groups. split; [reflexivity|].
  eapply Forall2_impl; [exact HF|]. cbn.
  intros entry new (disks & Hd & Hnew & Hm). exists disks.
  split; [exact Hd|]. split; [exact Hnew|]. intros Hne. apply mem_true. auto.
Qed.

(** X12. [_discover_metrics] always returns and sends exactly one request,
    for the metric names. It changes nothing of the generator but the
    catalogue, and the catalogue only when the server answered 200 with a
    body that decodes: then it is the set of the names listed. *)
Theorem discover_metrics_catalog (g : Gen) (l : Log) :
  exists g',
    _discover_metrics net g l = (Return tt, g', l ++ [names_request g])
    /\ prometheus_url g' = prometheus_url g /\ nodes g' = nodes g
    /\ panel_id g' = panel_id g /\ current_y g' = current_y g
    /\ (all_metrics g' = all_metrics g
        \/ exists resp body,
             label_values net l (names_request g) = Return resp
             /\ status_code resp = 200 /\ json_body resp = Return body
             /\ all_metrics g' = list_to_set (default [] (lv_data body)))
    /\ (forall resp body,
          label_values net l (names_request g) = Return resp ->
          status_code resp = 200 -> json_body resp = Return body ->
          all_metrics g' = list_to_set (default [] (lv_data body))).
Proof.
  unfold _discover_metrics, try_except, bind, gets, send, lift, ret, modify.
  fold (names_request g).
  destruct (label_values net l (names_request g)) as [resp|e] eqn:E.
  - destruct (Z.eqb_spec (status_code resp) 200) as [E200|E200].
    + destruct (json_body resp) as [body|e] eqn:Ej.
      * eexists. split; [reflexivity|]. cbn. repeat split.
        -- right. exists resp, body. auto.
        -- intros resp' body' H1 H2 H3. congruence.
      * exists g. repeat split; auto. intros resp' body' H1 H2 H3. congruence.
    + exists g. repeat split; auto. intros resp' body' H1 H2 H3. congruence.
  - exists g. repeat split; auto. discriminate.
Qed.
End MoreBuilders.

Lemma detect_hardware_probes_every_node_witness :
  exists g' l',
    _detect_hardware silent_net (minimal_state "pve") [] = (Return tt, g', l')
    /\ Forall2 (probed (all_metrics (minimal_state "pve")))
               (nodes (minimal_state "pve")) (nodes g')
    /\ same_but_nodes (minimal_state "pve") g'.
Proof.
  apply (detect_hardware_probes_every_node silent_net (minimal_state "pve") []).
  unfold minimal_state. cbn [nodes map fst].
  apply NoDup_cons_2; [apply not_elem_of_nil | apply NoDup_nil_2].
Defined.

Lemma discover_cache_round_trip_witness :
  exists g1 l1,
    bind (_discover_metrics gpu_net)
      (fun _ => bind (_identify_nodes gpu_net) (fun _ => _detect_hardware gpu_net))
      (__init__ "http://localhost:9090") []
    = (Return tt, g1, l1)
    /\ map fst (r_nodes (discover_results g1)) = ["10.0.0.7:9400"]
    /\ discover gpu_net 0 1000000 (Return (Object forced_discover)) discovery_cache []
       = (Return {| code := 200;
                    body := Discovered
                      {| do_status := "success"; do_cached := false;
                         do_age_micros := None; do_data := discover_results g1 |} |},
          {| c_timestamp := Some 1000000; c_results := Some (discover_results g1);
             c_ttl := 300 |}, l1)
    /\ discover gpu_net 61000000 62000000 (Return (Object plain_discover))
         {| c_timestamp := Some 1000000; c_results := Some (discover_results g1);
            c_ttl := 300 |} l1
       = (Return {| code := 200;
                    body := Discovered
                      {| do_status := "success"; do_cached := true;
                         do_age_micros := Some 60000000;
                         do_data := discover_results g1 |} |},
          {| c_timestamp := Some 1000000; c_results := Some (discover_results g1);
             c_ttl := 300 |}, l1).
Proof.
  eassert (E1 : bind (_discover_metrics gpu_net)
                  (fun _ => bind (_identify_nodes gpu_net)
                              (fun _ => _detect_hardware gpu_net))
                  (__init__ "http://localhost:9090") []
                = (Return tt, _, _)) by (vm_compute; reflexivity).
  eassert (E2 : bind (_discover_metrics gpu_net)
                  (fun _ => bind (_identify_nodes gpu_net)
                              (fun _ => _detect_hardware gpu_net))
                  (__init__ "http://10.0.0.9:9090") _
                = (Return tt, _, _)) by (vm_compute; reflexivity).
  destruct (discover_cache_round_trip gpu_net 0 1000000 61000000 62000000
              (Return (Object forced_discover)) (Return (Object plain_discover))
              forced_discover plain_discover discovery_cache [] _ _ _ _
              (or_introl eq_refl) (or_introl eq_refl) eq_refl eq_refl E1 E2)
    as (A & B & _).
  do 2 eexists. split; [exact E1|]. split; [vm_compute; reflexivity|].
  split; [exact A|]. apply B. reflexivity.
Defined.

Lemma discovery_consistent_witness :
  exists d g' l',
    discover_all gpu_net (__init__ "http://localhost:9090") [] = (Return d, g', l')
    /\ map fst (nodes g') = ["10.0.0.7:9400"]
    /\ NoDup (map fst (nodes g'))
    /\ Forall (consistent (all_metrics g')) (nodes g').
Proof.
  eassert (E : discover_all gpu_net (__init__ "http://localhost:9090") []
               = (Return _, _, _)) by (vm_compute; reflexivity).
  do 3 eexists. split; [exact E|]. split; [vm_compute; reflexivity|].
  apply (discovery_consistent gpu_net "http://localhost:9090" [] _ _ _ E).
Defined.

Lemma disk_usage_targets_capped_witness :
  exists targets g' l',
    _build_disk_usage_targets storage_net storage_state [] = (Return targets, g', l')
    /\ map legendFormat targets = [Some "pve /"]
    /\ g' = storage_state
    /\ (length targets <= 6)%nat
    /\ Forall (fun t => exists instance node mount,
                 In (instance, node) (nodes storage_state)
                 /\ "node_filesystem_size_bytes" ∈ metrics node
                 /\ In mount main_mounts
                 /\ t = usage_target instance node mount) targets.
Proof.
  eassert (E : _build_disk_usage_targets storage_net storage_state []
               = (Return _, _, _)) by (vm_compute; reflexivity).
  do 3 eexists. split; [exact E|]. split; [vm_compute; reflexivity|].
  apply (disk_usage_targets_capped storage_net storage_state [] _ _ _ E).
Defined.

Lemma network_targets_one_interface_per_node_witness :
  exists targets g' l',
    _build_network_targets storage_net storage_state [] = (Return targets, g', l')
    /\ map legendFormat targets = [Some "pve eth0 RX"; Some "pve eth0 TX"]
    /\ g' = storage_state
    /\ exists groups,
         targets = concat groups
         /\ Forall2 (fun entry new =>
                       new = []
                       \/ "node_network_receive_bytes_total" ∈ metrics (snd entry)
                          /\ exists device, physical device
                               /\ new = traffic_targets (fst entry) (snd entry) device)
                    (nodes storage_state) groups.
Proof.
  eassert (E : _build_network_targets storage_net storage_state []
               = (Return _, _, _)) by (vm_compute; reflexivity).
  do 3 eexists. split; [exact E|]. split; [vm_compute; reflexivity|].
  apply (network_targets_one_interface_per_node storage_net storage_state [] _ _ _ E).
Defined.

Lemma disk_io_targets_skip_loop_devices_witness :
  exists targets g' l',
    _build_disk_io_targets storage_net storage_state [] = (Return targets, g', l')
    /\ map legendFormat targets = [Some "pve sda Read"; Some "pve sda Write"]
    /\ g' = storage_state
    /\ exists groups,
         targets = concat groups
         /\ Forall2 (fun entry new =>
                       exists disks,
                         Forall (fun disk => disk <> EmptyString /\ ~ StartsWith "loop" disk)
                                disks
                         /\ new = concat (map (io_targets (fst entry) (snd entry)) disks)
                         /\ (disks <> [] -> "diskio_read_bytes" ∈ metrics (snd entry)))
                    (nodes storage_state) groups.
Proof.
  eassert (E : _build_disk_io_targets storage_net storage_state []
               = (Return _, _, _)) by (vm_compute; reflexivity).
  do 3 eexists. split; [exact E|]. split; [vm_compute; reflexivity|].
  apply (disk_io_targets_skip_loop_devices storage_net storage_state [] _ _ _ E).
Defined.
